(** * agent-launchpad and x402-curve-router: a shallow embedding

    The two Clarity contracts [agent-launchpad] (bonding-curve token factory)
    and [x402-curve-router] (nonce-indexed payment receipts on top of [buy])
    are embedded as executable Rocq functions over an explicit chain state.

    - Clarity [uint] is a 128-bit unsigned integer.  It is modelled as [Z];
      every arithmetic operator is the checked one of the Clarity VM: an
      overflow, an underflow or a division by zero is a runtime error that
      aborts the whole transaction.
    - A public function returns [(ok v)] or [(err code)].  When it returns
      [(err code)], or when a runtime error is raised, every write of the
      call is rolled back by the VM.
    - [let] bindings are evaluated in order, before the body of the [let];
      an [asserts!] of the body is therefore reached only when all the
      bindings were computed without a runtime error. *)

From stdpp Require Import gmap strings list fin_maps.
From Stdlib Require Import ZArith Lia.

Local Open Scope Z_scope.

(** ** Values *)

Abbreviation principal := string (only parsing).
Abbreviation buff := string (only parsing).

Definition UINT_MAX : Z := 2 ^ 128 - 1.

Definition is_uint (n : Z) : Prop := 0 <= n <= UINT_MAX.

Inductive runtime_error : Type :=
  | ArithmeticOverflow
  | ArithmeticUnderflow
  | DivisionByZero.

(** What a call produces: a value, an [(err code)] response, or a runtime
    error of the VM. *)
Inductive outcome (A : Type) : Type :=
  | Ok (a : A)
  | Err (code : Z)
  | Abort (e : runtime_error).

Arguments Ok {A} a.
Arguments Err {A} code.
Arguments Abort {A} e.

(** ** Contract data *)

(** agent-registry: [agents] map entry. *)
Record agent : Type := mkAgent {
  agent_name : string;
  description_url : string;
  status : Z;
  registered_at : Z;
  total_tasks : Z;
  total_earned : Z;
  price_per_task : Z;
  accepts_stx : bool;
  accepts_sip010 : bool
}.

(** agent-launchpad: [curves] map entry. *)
Record curve : Type := mkCurve {
  creator : principal;
  name : string;
  symbol : string;
  total_supply : Z;
  virtual_stx : Z;
  k : Z;
  stx_reserve : Z;
  tokens_sold : Z;
  graduation_stx : Z;
  fee_bps : Z;
  accrued_fees : Z;
  graduated : bool;
  created_at : Z;
  creator_share_bps : Z
}.

(** x402-curve-router: [receipts] map entry. *)
Record receipt : Type := mkReceipt {
  payer : principal;
  rc_curve_id : Z;
  rc_stx_amount : Z;
  tokens_received : Z;
  rc_fee : Z;
  block : Z
}.

(** Data variables and maps of agent-launchpad. *)
Record launchpad : Type := mkLaunchpad {
  total_curves : Z;
  admin : principal;
  pending_admin : option principal;
  protocol_fee_recipient : principal;
  default_total_supply : Z;
  default_virtual_stx : Z;
  default_graduation_stx : Z;
  default_fee_bps : Z;
  default_creator_share_bps : Z;
  curves : gmap Z curve;
  balances : gmap (Z * principal) Z;
  agent_curve : gmap principal Z
}.

(** Data variables and maps of x402-curve-router. *)
Record router : Type := mkRouter {
  router_admin : principal;
  total_payments : Z;
  total_volume_stx : Z;
  receipts : gmap buff receipt;
  router_pending_admin : option principal
}.

(** The chain as the two contracts see it: their own storage, the
    agent-registry they read, the STX ledger of the host and the block
    height. *)
Record chain : Type := mkChain {
  pad : launchpad;
  rtr : router;
  agents : gmap principal agent;
  total_agents : Z;
  stx : gmap principal Z;
  stacks_block_height : Z
}.

(** ** Constants of agent-launchpad *)

Definition ERR_NOT_REGISTERED : Z := 1400.
Definition ERR_ALREADY_LAUNCHED : Z := 1401.
Definition ERR_CURVE_NOT_FOUND : Z := 1402.
Definition ERR_GRADUATED : Z := 1403.
Definition ERR_ZERO_AMOUNT : Z := 1404.
Definition ERR_INSUFFICIENT_BALANCE : Z := 1405.
Definition ERR_SLIPPAGE : Z := 1406.
Definition ERR_NOT_ADMIN : Z := 1407.
Definition ERR_OVERFLOW : Z := 1408.
Definition ERR_SELF_TRANSFER : Z := 1409.
Definition ERR_CONTRACT_CALL : Z := 1410.
Definition ERR_INVALID_PARAMS : Z := 1411.
Definition ERR_NOT_GRADUATED : Z := 1412.
Definition ERR_SOLD_OUT : Z := 1413.
Definition ERR_INVALID_FEE : Z := 1414.

Definition MAX_FEE_BPS : Z := 500.
Definition MAX_CREATOR_SHARE_BPS : Z := 10000.
Definition BPS_DENOM : Z := 10000.
Definition PRICE_SCALE : Z := 1000000000000.

(** The principal of the deployed agent-launchpad contract: what
    [(as-contract? () tx-sender)] evaluates to inside it. *)
Definition LAUNCHPAD : principal := "deployer.agent-launchpad".

(** ** Record updates *)

Definition with_trade (c : curve) (reserve sold fees : Z) : curve :=
  {| creator := creator c; name := name c; symbol := symbol c;
     total_supply := total_supply c; virtual_stx := virtual_stx c; k := k c;
     stx_reserve := reserve; tokens_sold := sold;
     graduation_stx := graduation_stx c; fee_bps := fee_bps c;
     accrued_fees := fees; graduated := graduated c;
     created_at := created_at c; creator_share_bps := creator_share_bps c |}.

Definition with_graduated (c : curve) : curve :=
  {| creator := creator c; name := name c; symbol := symbol c;
     total_supply := total_supply c; virtual_stx := virtual_stx c; k := k c;
     stx_reserve := stx_reserve c; tokens_sold := tokens_sold c;
     graduation_stx := graduation_stx c; fee_bps := fee_bps c;
     accrued_fees := 0; graduated := true;
     created_at := created_at c; creator_share_bps := creator_share_bps c |}.

Definition set_curves (f : gmap Z curve -> gmap Z curve) (p : launchpad) : launchpad :=
  {| total_curves := total_curves p; admin := admin p;
     pending_admin := pending_admin p;
     protocol_fee_recipient := protocol_fee_recipient p;
     default_total_supply := default_total_supply p;
     default_virtual_stx := default_virtual_stx p;
     default_graduation_stx := default_graduation_stx p;
     default_fee_bps := default_fee_bps p;
     default_creator_share_bps := default_creator_share_bps p;
     curves := f (curves p); balances := balances p;
     agent_curve := agent_curve p |}.

Definition set_balances (f : gmap (Z * principal) Z -> gmap (Z * principal) Z)
    (p : launchpad) : launchpad :=
  {| total_curves := total_curves p; admin := admin p;
     pending_admin := pending_admin p;
     protocol_fee_recipient := protocol_fee_recipient p;
     default_total_supply := default_total_supply p;
     default_virtual_stx := default_virtual_stx p;
     default_graduation_stx := default_graduation_stx p;
     default_fee_bps := default_fee_bps p;
     default_creator_share_bps := default_creator_share_bps p;
     curves := curves p; balances := f (balances p);
     agent_curve := agent_curve p |}.

Definition set_agent_curve (f : gmap principal Z -> gmap principal Z)
    (p : launchpad) : launchpad :=
  {| total_curves := total_curves p; admin := admin p;
     pending_admin := pending_admin p;
     protocol_fee_recipient := protocol_fee_recipient p;
     default_total_supply := default_total_supply p;
     default_virtual_stx := default_virtual_stx p;
     default_graduation_stx := default_graduation_stx p;
     default_fee_bps := default_fee_bps p;
     default_creator_share_bps := default_creator_share_bps p;
     curves := curves p; balances := balances p;
     agent_curve := f (agent_curve p) |}.

Definition set_total_curves (n : Z) (p : launchpad) : launchpad :=
  {| total_curves := n; admin := admin p;
     pending_admin := pending_admin p;
     protocol_fee_recipient := protocol_fee_recipient p;
     default_total_supply := default_total_supply p;
     default_virtual_stx := default_virtual_stx p;
     default_graduation_stx := default_graduation_stx p;
     default_fee_bps := default_fee_bps p;
     default_creator_share_bps := default_creator_share_bps p;
     curves := curves p; balances := balances p;
     agent_curve := agent_curve p |}.

Definition set_admin (a : principal) (p : launchpad) : launchpad :=
  {| total_curves := total_curves p; admin := a;
     pending_admin := pending_admin p;
     protocol_fee_recipient := protocol_fee_recipient p;
     default_total_supply := default_total_supply p;
     default_virtual_stx := default_virtual_stx p;
     default_graduation_stx := default_graduation_stx p;
     default_fee_bps := default_fee_bps p;
     default_creator_share_bps := default_creator_share_bps p;
     curves := curves p; balances := balances p;
     agent_curve := agent_curve p |}.

Definition set_pending_admin (a : option principal) (p : launchpad) : launchpad :=
  {| total_curves := total_curves p; admin := admin p;
     pending_admin := a;
     protocol_fee_recipient := protocol_fee_recipient p;
     default_total_supply := default_total_supply p;
     default_virtual_stx := default_virtual_stx p;
     default_graduation_stx := default_graduation_stx p;
     default_fee_bps := default_fee_bps p;
     default_creator_share_bps := default_creator_share_bps p;
     curves := curves p; balances := balances p;
     agent_curve := agent_curve p |}.

Definition set_fee_recipient (a : principal) (p : launchpad) : launchpad :=
  {| total_curves := total_curves p; admin := admin p;
     pending_admin := pending_admin p;
     protocol_fee_recipient := a;
     default_total_supply := default_total_supply p;
     default_virtual_stx := default_virtual_stx p;
     default_graduation_stx := default_graduation_stx p;
     default_fee_bps := default_fee_bps p;
     default_creator_share_bps := default_creator_share_bps p;
     curves := curves p; balances := balances p;
     agent_curve := agent_curve p |}.

Definition set_default_vars (ts vs gs fb cs : Z) (p : launchpad) : launchpad :=
  {| total_curves := total_curves p; admin := admin p;
     pending_admin := pending_admin p;
     protocol_fee_recipient := protocol_fee_recipient p;
     default_total_supply := ts;
     default_virtual_stx := vs;
     default_graduation_stx := gs;
     default_fee_bps := fb;
     default_creator_share_bps := cs;
     curves := curves p; balances := balances p;
     agent_curve := agent_curve p |}.

Definition set_pad (f : launchpad -> launchpad) (s : chain) : chain :=
  {| pad := f (pad s); rtr := rtr s; agents := agents s;
     total_agents := total_agents s; stx := stx s;
     stacks_block_height := stacks_block_height s |}.

Definition set_rtr (f : router -> router) (s : chain) : chain :=
  {| pad := pad s; rtr := f (rtr s); agents := agents s;
     total_agents := total_agents s; stx := stx s;
     stacks_block_height := stacks_block_height s |}.

Definition set_stx (f : gmap principal Z -> gmap principal Z) (s : chain) : chain :=
  {| pad := pad s; rtr := rtr s; agents := agents s;
     total_agents := total_agents s; stx := f (stx s);
     stacks_block_height := stacks_block_height s |}.

Definition set_agents (f : gmap principal agent -> gmap principal agent)
    (n : Z) (s : chain) : chain :=
  {| pad := pad s; rtr := rtr s; agents := f (agents s);
     total_agents := n; stx := stx s;
     stacks_block_height := stacks_block_height s |}.

(** ** The monad of contract code

    A computation reads and writes the chain; an [(err code)] early return
    ([unwrap!], [asserts!], [try!]) and a runtime error both end it.  The
    state is dropped in both cases: every early return of the two contracts
    is propagated by [try!] up to the public entry point, where the VM rolls
    the writes back. *)

Definition M (A : Type) : Type := chain -> outcome (A * chain).

Definition ret {A} (a : A) : M A := fun s => Ok (a, s).

Definition bind {A B} (m : M A) (f : A -> M B) : M B :=
  fun s => match m s with
           | Ok (a, s') => f a s'
           | Err code => Err code
           | Abort e => Abort e
           end.

Notation "x <- m ;; f" := (bind m (fun x => f))
  (at level 100, m at next level, right associativity).
Notation "m ;; f" := (bind m (fun _ => f))
  (at level 100, right associativity).

Definition throw {A} (code : Z) : M A := fun _ => Err code.
Definition abort {A} (e : runtime_error) : M A := fun _ => Abort e.
Definition gets {A} (f : chain -> A) : M A := fun s => Ok (f s, s).
Definition modify (f : chain -> chain) : M unit := fun s => Ok (tt, f s).

(** [(unwrap! o (err code))] and [(asserts! b (err code))]. *)
Definition unwrap {A} (o : option A) (code : Z) : M A :=
  match o with Some a => ret a | None => throw code end.

Definition asserts (b : bool) (code : Z) : M unit :=
  if b then ret tt else throw code.

(** Checked [uint] arithmetic of the Clarity VM. *)
Definition uadd (a b : Z) : M Z :=
  if a + b <=? UINT_MAX then ret (a + b) else abort ArithmeticOverflow.

Definition usub (a b : Z) : M Z :=
  if b <=? a then ret (a - b) else abort ArithmeticUnderflow.

Definition umul (a b : Z) : M Z :=
  if a * b <=? UINT_MAX then ret (a * b) else abort ArithmeticOverflow.

Definition udiv (a b : Z) : M Z :=
  if b =? 0 then abort DivisionByZero else ret (a / b).

(** A public call as the VM runs it: the writes are kept only when the
    function returns [(ok v)]. *)
Definition call {A} (m : M A) (s : chain) : outcome A * chain :=
  match m s with
  | Ok (a, s') => (Ok a, s')
  | Err code => (Err code, s)
  | Abort e => (Abort e, s)
  end.

(** A read-only call. *)
Definition query {A} (m : M A) (s : chain) : outcome A :=
  fst (call m s).

(** ** Host primitive: [stx-transfer?]

    [(stx-transfer? amount sender recipient)] evaluated with the given
    [tx-sender]; its error codes are those of the Clarity reference:
    [u3] for a zero amount, [u2] when sender and recipient are the same,
    [u4] when the sender is not [tx-sender], [u1] for insufficient funds. *)
Definition stx_balance (s : chain) (p : principal) : Z :=
  default 0 (stx s !! p).

Definition ledger_move (sender recipient : principal) (amount : Z)
    (l : gmap principal Z) : gmap principal Z :=
  <[recipient := default 0 (l !! recipient) + amount]>
    (<[sender := default 0 (l !! sender) - amount]> l).

Definition stx_transfer (tx_sender : principal) (amount : Z)
    (sender recipient : principal) : M bool :=
  asserts (negb (amount =? 0)) 3 ;;
  asserts (negb (String.eqb sender recipient)) 2 ;;
  asserts (String.eqb sender tx_sender) 4 ;;
  from_bal <- gets (fun s => stx_balance s sender) ;;
  asserts (amount <=? from_bal) 1 ;;
  modify (set_stx (ledger_move sender recipient amount)) ;;
  ret true.

(** ** Strings

    A [string-utf8] is kept as the bytes of its UTF-8 encoding.  Clarity's
    [(len s)] counts its characters, not its bytes: a character is one
    leading byte, followed by continuation bytes of the form [10xxxxxx].
    A string has no character exactly when it has no byte, so a test for
    the empty string may look at either length. *)

Definition continuation (a : Ascii.ascii) : bool :=
  match a with
  | Ascii.Ascii _ _ _ _ _ _ b6 b7 => b7 && negb b6
  end.

Fixpoint utf8_len (s : string) : nat :=
  match s with
  | EmptyString => 0%nat
  | String a rest => if continuation a then utf8_len rest else S (utf8_len rest)
  end.

(** ** agent-registry (the part the launchpad and the tests use) *)

Module Registry.

Definition ERR_ALREADY_REGISTERED : Z := 1000.
Definition ERR_NAME_TOO_LONG : Z := 1003.
Definition MAX_NAME_LEN : Z := 64.
Definition STATUS_ACTIVE : Z := 1.

(** [(define-public (register-agent ...))] *)
Definition register_agent (tx_sender : principal) (name description_url : string)
    (price_per_task : Z) (accepts_stx accepts_sip010 : bool) : M principal :=
  existing <- gets (fun s => agents s !! tx_sender) ;;
  asserts (bool_decide (existing = None)) ERR_ALREADY_REGISTERED ;;
  asserts (Z.of_nat (utf8_len name) <=? MAX_NAME_LEN) ERR_NAME_TOO_LONG ;;
  height <- gets stacks_block_height ;;
  n <- gets total_agents ;;
  n' <- uadd n 1 ;;
  modify (set_agents (fun m => <[tx_sender :=
    {| agent_name := name; description_url := description_url;
       status := STATUS_ACTIVE; registered_at := height;
       total_tasks := 0; total_earned := 0;
       price_per_task := price_per_task;
       accepts_stx := accepts_stx; accepts_sip010 := accepts_sip010 |}]> m) n') ;;
  ret tx_sender.

(** [(define-read-only (is-registered (owner principal)))] *)
Definition is_registered (owner : principal) : M bool :=
  gets (fun s => bool_decide (is_Some (agents s !! owner))).

End Registry.

(** ** agent-launchpad *)

Module Launchpad.

Definition map_curve (curve_id : Z) : M (option curve) :=
  gets (fun s => curves (pad s) !! curve_id).

Definition map_balance (curve_id : Z) (holder : principal) : M (option Z) :=
  gets (fun s => balances (pad s) !! (curve_id, holder)).

Definition put_curve (curve_id : Z) (c : curve) : M unit :=
  modify (set_pad (set_curves (fun m => <[curve_id := c]> m))).

Definition put_balance (curve_id : Z) (holder : principal) (amount : Z) : M unit :=
  modify (set_pad (set_balances (fun m => <[(curve_id, holder) := amount]> m))).

(** [(as-contract? ((with-stx amount)) (try! (stx-transfer? amount tx-sender to)))]:
    inside the body [tx-sender] is the contract; the body moves exactly
    the allowance, so the allowance check itself never fails. *)
Definition pay_from_contract (amount : Z) (recipient : principal) : M bool :=
  stx_transfer LAUNCHPAD amount LAUNCHPAD recipient.

(** [(define-public (launch name symbol))] *)
Definition launch (tx_sender : principal) (name symbol : string) : M Z :=
  curve_id <- gets (fun s => total_curves (pad s)) ;;
  ts <- gets (fun s => default_total_supply (pad s)) ;;
  vs <- gets (fun s => default_virtual_stx (pad s)) ;;
  k <- umul vs ts ;;
  registered <- Registry.is_registered tx_sender ;;
  asserts registered ERR_NOT_REGISTERED ;;
  existing <- gets (fun s => agent_curve (pad s) !! tx_sender) ;;
  asserts (bool_decide (existing = None)) ERR_ALREADY_LAUNCHED ;;
  asserts (0 <? Z.of_nat (String.length name)) ERR_INVALID_PARAMS ;;
  asserts (0 <? Z.of_nat (String.length symbol)) ERR_INVALID_PARAMS ;;
  asserts (0 <? ts) ERR_INVALID_PARAMS ;;
  asserts (0 <? vs) ERR_INVALID_PARAMS ;;
  gs <- gets (fun s => default_graduation_stx (pad s)) ;;
  fb <- gets (fun s => default_fee_bps (pad s)) ;;
  height <- gets stacks_block_height ;;
  cs <- gets (fun s => default_creator_share_bps (pad s)) ;;
  put_curve curve_id
    {| creator := tx_sender; name := name; symbol := symbol;
       total_supply := ts; virtual_stx := vs; k := k;
       stx_reserve := 0; tokens_sold := 0; graduation_stx := gs;
       fee_bps := fb; accrued_fees := 0; graduated := false;
       created_at := height; creator_share_bps := cs |} ;;
  modify (set_pad (set_agent_curve (fun m => <[tx_sender := curve_id]> m))) ;;
  next <- uadd curve_id 1 ;;
  modify (set_pad (set_total_curves next)) ;;
  ret curve_id.

(** [(define-private (graduate-internal (curve-id uint)))] *)
Definition graduate_internal (curve_id : Z) : M bool :=
  o <- map_curve curve_id ;;
  curve <- unwrap o ERR_CURVE_NOT_FOUND ;;
  let fees := accrued_fees curve in
  scaled <- umul fees (creator_share_bps curve) ;;
  creator_share <- udiv scaled BPS_DENOM ;;
  protocol_share <- usub fees creator_share ;;
  let creator := creator curve in
  recipient <- gets (fun s => protocol_fee_recipient (pad s)) ;;
  asserts (graduation_stx curve <=? stx_reserve curve) ERR_NOT_GRADUATED ;;
  asserts (negb (graduated curve)) ERR_GRADUATED ;;
  (if 0 <? creator_share then pay_from_contract creator_share creator else ret true) ;;
  (if 0 <? protocol_share then pay_from_contract protocol_share recipient else ret true) ;;
  put_curve curve_id (with_graduated curve) ;;
  ret true.

(** [(define-public (buy curve-id stx-amount min-tokens-out))] *)
Definition buy (tx_sender : principal) (curve_id stx_amount min_tokens_out : Z)
    : M (Z * Z) :=
  o <- map_curve curve_id ;;
  curve <- unwrap o ERR_CURVE_NOT_FOUND ;;
  let caller := tx_sender in
  let self := LAUNCHPAD in
  scaled <- umul stx_amount (fee_bps curve) ;;
  fee <- udiv scaled BPS_DENOM ;;
  net_stx <- usub stx_amount fee ;;
  token_reserve <- usub (total_supply curve) (tokens_sold curve) ;;
  new_stx_reserve <- uadd (stx_reserve curve) net_stx ;;
  denom <- uadd (virtual_stx curve) new_stx_reserve ;;
  new_token_reserve <- udiv (k curve) denom ;;
  tokens_out <- usub token_reserve new_token_reserve ;;
  ob <- map_balance curve_id caller ;;
  let existing_bal := default 0 ob in
  let updated_stx_reserve := new_stx_reserve in
  asserts (negb (graduated curve)) ERR_GRADUATED ;;
  asserts (0 <? stx_amount) ERR_ZERO_AMOUNT ;;
  asserts (0 <? token_reserve) ERR_SOLD_OUT ;;
  asserts (0 <? tokens_out) ERR_OVERFLOW ;;
  asserts (min_tokens_out <=? tokens_out) ERR_SLIPPAGE ;;
  stx_transfer tx_sender stx_amount caller self ;;
  sold <- uadd (tokens_sold curve) tokens_out ;;
  fees <- uadd (accrued_fees curve) fee ;;
  put_curve curve_id (with_trade curve updated_stx_reserve sold fees) ;;
  bal <- uadd existing_bal tokens_out ;;
  put_balance curve_id caller bal ;;
  (if graduation_stx curve <=? updated_stx_reserve
   then graduate_internal curve_id else ret true) ;;
  ret (tokens_out, fee).

(** [(define-public (sell curve-id token-amount min-stx-out))] *)
Definition sell (tx_sender : principal) (curve_id token_amount min_stx_out : Z)
    : M (Z * Z) :=
  o <- map_curve curve_id ;;
  curve <- unwrap o ERR_CURVE_NOT_FOUND ;;
  let caller := tx_sender in
  ob <- map_balance curve_id caller ;;
  seller_bal <- unwrap ob ERR_INSUFFICIENT_BALANCE ;;
  token_reserve <- usub (total_supply curve) (tokens_sold curve) ;;
  new_token_reserve <- uadd token_reserve token_amount ;;
  quot <- udiv (k curve) new_token_reserve ;;
  new_stx_reserve <- usub quot (virtual_stx curve) ;;
  gross_stx <- usub (stx_reserve curve) new_stx_reserve ;;
  scaled <- umul gross_stx (fee_bps curve) ;;
  fee <- udiv scaled BPS_DENOM ;;
  stx_out <- usub gross_stx fee ;;
  asserts (negb (graduated curve)) ERR_GRADUATED ;;
  asserts (0 <? token_amount) ERR_ZERO_AMOUNT ;;
  asserts (token_amount <=? seller_bal) ERR_INSUFFICIENT_BALANCE ;;
  asserts (0 <? stx_out) ERR_OVERFLOW ;;
  asserts (min_stx_out <=? stx_out) ERR_SLIPPAGE ;;
  pay_from_contract stx_out caller ;;
  sold <- usub (tokens_sold curve) token_amount ;;
  fees <- uadd (accrued_fees curve) fee ;;
  put_curve curve_id (with_trade curve new_stx_reserve sold fees) ;;
  bal <- usub seller_bal token_amount ;;
  put_balance curve_id caller bal ;;
  ret (stx_out, fee).

(** [(define-public (transfer curve-id amount recipient))] *)
Definition transfer (tx_sender : principal) (curve_id amount : Z)
    (recipient : principal) : M bool :=
  ob <- map_balance curve_id tx_sender ;;
  sender_bal <- unwrap ob ERR_INSUFFICIENT_BALANCE ;;
  orb <- map_balance curve_id recipient ;;
  let recipient_bal := default 0 orb in
  o <- map_curve curve_id ;;
  asserts (bool_decide (is_Some o)) ERR_CURVE_NOT_FOUND ;;
  asserts (0 <? amount) ERR_ZERO_AMOUNT ;;
  asserts (negb (String.eqb tx_sender recipient)) ERR_SELF_TRANSFER ;;
  asserts (amount <=? sender_bal) ERR_INSUFFICIENT_BALANCE ;;
  debit <- usub sender_bal amount ;;
  put_balance curve_id tx_sender debit ;;
  credit <- uadd recipient_bal amount ;;
  put_balance curve_id recipient credit ;;
  ret true.

(** [(define-public (graduate (curve-id uint)))] *)
Definition graduate (curve_id : Z) : M bool :=
  graduate_internal curve_id ;;
  ret true.

(** [(define-public (set-defaults ...))] *)
Definition set_defaults (tx_sender : principal) (new_total_supply new_virtual_stx
    new_graduation_stx new_fee_bps new_creator_share_bps : Z) : M bool :=
  a <- gets (fun s => admin (pad s)) ;;
  asserts (String.eqb tx_sender a) ERR_NOT_ADMIN ;;
  asserts (0 <? new_total_supply) ERR_INVALID_PARAMS ;;
  asserts (0 <? new_virtual_stx) ERR_INVALID_PARAMS ;;
  asserts (0 <? new_graduation_stx) ERR_INVALID_PARAMS ;;
  asserts (new_fee_bps <=? MAX_FEE_BPS) ERR_INVALID_FEE ;;
  asserts (new_creator_share_bps <=? MAX_CREATOR_SHARE_BPS) ERR_INVALID_PARAMS ;;
  modify (set_pad (set_default_vars new_total_supply new_virtual_stx
    new_graduation_stx new_fee_bps new_creator_share_bps)) ;;
  ret true.

(** [(define-public (set-protocol-fee-recipient new-recipient))] *)
Definition set_protocol_fee_recipient (tx_sender new_recipient : principal)
    : M principal :=
  a <- gets (fun s => admin (pad s)) ;;
  asserts (String.eqb tx_sender a) ERR_NOT_ADMIN ;;
  modify (set_pad (set_fee_recipient new_recipient)) ;;
  ret new_recipient.

(** [(define-public (transfer-admin new-admin))] *)
Definition transfer_admin (tx_sender new_admin : principal) : M principal :=
  a <- gets (fun s => admin (pad s)) ;;
  asserts (String.eqb tx_sender a) ERR_NOT_ADMIN ;;
  modify (set_pad (set_pending_admin (Some new_admin))) ;;
  ret new_admin.

(** [(define-public (accept-admin))] *)
Definition accept_admin (tx_sender : principal) : M principal :=
  p <- gets (fun s => pending_admin (pad s)) ;;
  pending <- unwrap p ERR_NOT_ADMIN ;;
  asserts (String.eqb tx_sender pending) ERR_NOT_ADMIN ;;
  modify (set_pad (set_admin pending)) ;;
  modify (set_pad (set_pending_admin None)) ;;
  ret pending.

(** Read-only functions. *)

Definition get_curve (id : Z) : M (option curve) := map_curve id.

Definition get_balance (curve_id : Z) (holder : principal) : M Z :=
  ob <- map_balance curve_id holder ;;
  ret (default 0 ob).

Definition get_buy_quote (curve_id stx_amount : Z) : M (Z * Z) :=
  o <- map_curve curve_id ;;
  curve <- unwrap o ERR_CURVE_NOT_FOUND ;;
  scaled <- umul stx_amount (fee_bps curve) ;;
  fee <- udiv scaled BPS_DENOM ;;
  net_stx <- usub stx_amount fee ;;
  token_reserve <- usub (total_supply curve) (tokens_sold curve) ;;
  new_stx_reserve <- uadd (stx_reserve curve) net_stx ;;
  denom <- uadd (virtual_stx curve) new_stx_reserve ;;
  new_token_reserve <- udiv (k curve) denom ;;
  tokens_out <- usub token_reserve new_token_reserve ;;
  ret (tokens_out, fee).

Definition get_sell_quote (curve_id token_amount : Z) : M (Z * Z) :=
  o <- map_curve curve_id ;;
  curve <- unwrap o ERR_CURVE_NOT_FOUND ;;
  token_reserve <- usub (total_supply curve) (tokens_sold curve) ;;
  new_token_reserve <- uadd token_reserve token_amount ;;
  quot <- udiv (k curve) new_token_reserve ;;
  new_stx_reserve <- usub quot (virtual_stx curve) ;;
  gross_stx <- usub (stx_reserve curve) new_stx_reserve ;;
  scaled <- umul gross_stx (fee_bps curve) ;;
  fee <- udiv scaled BPS_DENOM ;;
  stx_out <- usub gross_stx fee ;;
  ret (stx_out, fee).

Definition get_price (curve_id : Z) : M Z :=
  o <- map_curve curve_id ;;
  curve <- unwrap o ERR_CURVE_NOT_FOUND ;;
  token_reserve <- usub (total_supply curve) (tokens_sold curve) ;;
  if token_reserve =? 0 then ret 0
  else
    total <- uadd (virtual_stx curve) (stx_reserve curve) ;;
    scaled <- umul total PRICE_SCALE ;;
    udiv scaled token_reserve.

(** [(define-read-only (get-agent-curve (agent principal)))] *)
Definition get_agent_curve (agent : principal) : M (option Z) :=
  gets (fun s => agent_curve (pad s) !! agent).

(** The tuple [get-stats] returns. *)
Record stats : Type := mkStats {
  st_total_curves : Z;
  st_default_total_supply : Z;
  st_default_virtual_stx : Z;
  st_default_graduation_stx : Z;
  st_default_fee_bps : Z;
  st_default_creator_share_bps : Z
}.

(** [(define-read-only (get-stats))] *)
Definition get_stats : M stats :=
  gets (fun s =>
    {| st_total_curves := total_curves (pad s);
       st_default_total_supply := default_total_supply (pad s);
       st_default_virtual_stx := default_virtual_stx (pad s);
       st_default_graduation_stx := default_graduation_stx (pad s);
       st_default_fee_bps := default_fee_bps (pad s);
       st_default_creator_share_bps := default_creator_share_bps (pad s) |}).

(** [(define-read-only (get-admin))] *)
Definition get_admin : M principal := gets (fun s => admin (pad s)).

(** [(define-read-only (get-protocol-fee-recipient))] *)
Definition get_protocol_fee_recipient : M principal :=
  gets (fun s => protocol_fee_recipient (pad s)).

End Launchpad.

(** ** x402-curve-router *)

Module Router.

Definition ERR_NONCE_USED : Z := 1500.
Definition ERR_ZERO_AMOUNT : Z := 1501.
Definition ERR_CURVE_NOT_FOUND : Z := 1502.
Definition ERR_UNAUTHORIZED : Z := 1503.

(** [(define-public (pay-via-curve curve-id stx-amount nonce min-tokens-out))].
    The [contract-call?] keeps [tx-sender]: the payer buys for itself. *)
Definition pay_via_curve (tx_sender : principal) (curve_id stx_amount : Z)
    (nonce : buff) (min_tokens_out : Z) : M (Z * Z) :=
  used <- gets (fun s => receipts (rtr s) !! nonce) ;;
  asserts (bool_decide (used = None)) ERR_NONCE_USED ;;
  asserts (0 <? stx_amount) ERR_ZERO_AMOUNT ;;
  result <- Launchpad.buy tx_sender curve_id stx_amount min_tokens_out ;;
  let tokens_out := fst result in
  let trade_fee := snd result in
  height <- gets stacks_block_height ;;
  modify (set_rtr (fun r =>
    {| router_admin := router_admin r; total_payments := total_payments r;
       total_volume_stx := total_volume_stx r;
       receipts := <[nonce := {| payer := tx_sender; rc_curve_id := curve_id;
                                 rc_stx_amount := stx_amount;
                                 tokens_received := tokens_out;
                                 rc_fee := trade_fee; block := height |}]>
                   (receipts r);
       router_pending_admin := router_pending_admin r |})) ;;
  count <- gets (fun s => total_payments (rtr s)) ;;
  count' <- uadd count 1 ;;
  modify (set_rtr (fun r =>
    {| router_admin := router_admin r; total_payments := count';
       total_volume_stx := total_volume_stx r; receipts := receipts r;
       router_pending_admin := router_pending_admin r |})) ;;
  volume <- gets (fun s => total_volume_stx (rtr s)) ;;
  volume' <- uadd volume stx_amount ;;
  modify (set_rtr (fun r =>
    {| router_admin := router_admin r; total_payments := total_payments r;
       total_volume_stx := volume'; receipts := receipts r;
       router_pending_admin := router_pending_admin r |})) ;;
  ret (tokens_out, trade_fee).

(** [(define-public (transfer-admin new-admin))] *)
Definition transfer_admin (tx_sender new_admin : principal) : M principal :=
  a <- gets (fun s => router_admin (rtr s)) ;;
  asserts (String.eqb tx_sender a) ERR_UNAUTHORIZED ;;
  modify (set_rtr (fun r =>
    {| router_admin := router_admin r; total_payments := total_payments r;
       total_volume_stx := total_volume_stx r; receipts := receipts r;
       router_pending_admin := Some new_admin |})) ;;
  ret new_admin.

(** [(define-public (accept-admin))] *)
Definition accept_admin (tx_sender : principal) : M principal :=
  p <- gets (fun s => router_pending_admin (rtr s)) ;;
  pending <- unwrap p ERR_UNAUTHORIZED ;;
  asserts (String.eqb tx_sender pending) ERR_UNAUTHORIZED ;;
  modify (set_rtr (fun r =>
    {| router_admin := pending; total_payments := total_payments r;
       total_volume_stx := total_volume_stx r; receipts := receipts r;
       router_pending_admin := None |})) ;;
  ret pending.

Definition verify_payment (nonce : buff) : M (option receipt) :=
  gets (fun s => receipts (rtr s) !! nonce).

Definition is_nonce_available (nonce : buff) : M bool :=
  gets (fun s => bool_decide (receipts (rtr s) !! nonce = None)).

(** The tuple [get-stats] returns. *)
Record stats : Type := mkStats {
  st_total_payments : Z;
  st_total_volume_stx : Z;
  st_admin : principal
}.

(** [(define-read-only (get-stats))] *)
Definition get_stats : M stats :=
  gets (fun s =>
    {| st_total_payments := total_payments (rtr s);
       st_total_volume_stx := total_volume_stx (rtr s);
       st_admin := router_admin (rtr s) |}).

(** [(define-read-only (get-admin))] *)
Definition get_admin : M principal := gets (fun s => router_admin (rtr s)).

End Router.

(** ** Transactions and reachable states *)

(** The public functions a transaction can call. *)
Inductive action : Type :=
  | RegisterAgent (name description_url : string) (price_per_task : Z)
      (accepts_stx accepts_sip010 : bool)
  | Launch (name symbol : string)
  | Buy (curve_id stx_amount min_tokens_out : Z)
  | Sell (curve_id token_amount min_stx_out : Z)
  | Transfer (curve_id amount : Z) (recipient : principal)
  | Graduate (curve_id : Z)
  | SetDefaults (total_supply virtual_stx graduation_stx fee_bps creator_share_bps : Z)
  | SetProtocolFeeRecipient (recipient : principal)
  | TransferAdmin (new_admin : principal)
  | AcceptAdmin
  | PayViaCurve (curve_id stx_amount : Z) (nonce : buff) (min_tokens_out : Z)
  | RouterTransferAdmin (new_admin : principal)
  | RouterAcceptAdmin.

Definition void {A} (m : M A) : M unit := m ;; ret tt.

Definition perform (tx_sender : principal) (a : action) : M unit :=
  match a with
  | RegisterAgent n u p x y => void (Registry.register_agent tx_sender n u p x y)
  | Launch n sy => void (Launchpad.launch tx_sender n sy)
  | Buy id amount m => void (Launchpad.buy tx_sender id amount m)
  | Sell id amount m => void (Launchpad.sell tx_sender id amount m)
  | Transfer id amount to => void (Launchpad.transfer tx_sender id amount to)
  | Graduate id => void (Launchpad.graduate id)
  | SetDefaults ts vs gs fb cs => void (Launchpad.set_defaults tx_sender ts vs gs fb cs)
  | SetProtocolFeeRecipient r => void (Launchpad.set_protocol_fee_recipient tx_sender r)
  | TransferAdmin a' => void (Launchpad.transfer_admin tx_sender a')
  | AcceptAdmin => void (Launchpad.accept_admin tx_sender)
  | PayViaCurve id amount nonce m => void (Router.pay_via_curve tx_sender id amount nonce m)
  | RouterTransferAdmin a' => void (Router.transfer_admin tx_sender a')
  | RouterAcceptAdmin => void (Router.accept_admin tx_sender)
  end.

(** Arguments of type [uint] are 128-bit unsigned integers. *)
Definition wf_action (a : action) : Prop :=
  match a with
  | RegisterAgent _ _ p _ _ => is_uint p
  | Buy id amount m | Sell id amount m => is_uint id /\ is_uint amount /\ is_uint m
  | Transfer id amount _ => is_uint id /\ is_uint amount
  | Graduate id => is_uint id
  | SetDefaults ts vs gs fb cs =>
      is_uint ts /\ is_uint vs /\ is_uint gs /\ is_uint fb /\ is_uint cs
  | PayViaCurve id amount _ m => is_uint id /\ is_uint amount /\ is_uint m
  | _ => True
  end.

(** The state a transaction leaves behind. *)
Definition step (tx_sender : principal) (a : action) (s : chain) : chain :=
  snd (call (perform tx_sender a) s).

(** Both contracts right after deployment by [deployer]. *)
Definition genesis (deployer : principal) (ledger : gmap principal Z)
    (height : Z) : chain :=
  {| pad := {| total_curves := 0; admin := deployer; pending_admin := None;
               protocol_fee_recipient := deployer;
               default_total_supply := 1000000000000000;
               default_virtual_stx := 10000000000;
               default_graduation_stx := 16667000000;
               default_fee_bps := 100;
               default_creator_share_bps := 8000;
               curves := ∅; balances := ∅; agent_curve := ∅ |};
     rtr := {| router_admin := deployer; total_payments := 0;
               total_volume_stx := 0; receipts := ∅;
               router_pending_admin := None |};
     agents := ∅; total_agents := 0; stx := ledger;
     stacks_block_height := height |}.

(** Everything else that happens on the chain: other registry calls, STX
    moving between accounts, blocks being mined.  None of it writes the
    storage of the two contracts, and nobody but the launchpad can spend
    the STX the launchpad holds. *)
Inductive env_step (s : chain) : chain -> Prop :=
  | env_intro (agents' : gmap principal agent) (n' : Z)
      (ledger' : gmap principal Z) (height' : Z) :
      default 0 (stx s !! LAUNCHPAD) <= default 0 (ledger' !! LAUNCHPAD) ->
      stacks_block_height s <= height' ->
      env_step s {| pad := pad s; rtr := rtr s; agents := agents';
                    total_agents := n'; stx := ledger';
                    stacks_block_height := height' |}.

Inductive reachable : chain -> Prop :=
  | reach_genesis deployer ledger height :
      reachable (genesis deployer ledger height)
  | reach_call s tx_sender a :
      reachable s -> wf_action a -> reachable (step tx_sender a s)
  | reach_env s s' :
      reachable s -> env_step s s' -> reachable s'.

(** ** The quote formulas, as the specification words them *)

Definition token_reserve_of (c : curve) : Z := total_supply c - tokens_sold c.

Definition spec_buy_fee (c : curve) (amount_in : Z) : Z :=
  amount_in * fee_bps c / 10000.

Definition spec_net_in (c : curve) (amount_in : Z) : Z :=
  amount_in - spec_buy_fee c amount_in.

Definition spec_new_real_reserve (c : curve) (amount_in : Z) : Z :=
  stx_reserve c + spec_net_in c amount_in.

Definition spec_new_token_reserve (c : curve) (amount_in : Z) : Z :=
  k c / (virtual_stx c + spec_new_real_reserve c amount_in).

Definition spec_tokens_out (c : curve) (amount_in : Z) : Z :=
  token_reserve_of c - spec_new_token_reserve c amount_in.

Definition spec_sell_reserve (c : curve) (token_amount : Z) : Z :=
  k c / (token_reserve_of c + token_amount) - virtual_stx c.

Definition spec_gross (c : curve) (token_amount : Z) : Z :=
  stx_reserve c - spec_sell_reserve c token_amount.

Definition spec_sell_fee (c : curve) (token_amount : Z) : Z :=
  spec_gross c token_amount * fee_bps c / 10000.

Definition spec_amount_out (c : curve) (token_amount : Z) : Z :=
  spec_gross c token_amount - spec_sell_fee c token_amount.

Definition spec_issuer_share (c : curve) : Z :=
  accrued_fees c * creator_share_bps c / 10000.

Definition spec_protocol_share (c : curve) : Z :=
  accrued_fees c - spec_issuer_share c.

(** ** What a successful call does to the state *)

(** A payment out of the custody of the launchpad; nothing moves when the
    amount is zero. *)
Definition payout (amount : Z) (recipient : principal)
    (l : gmap principal Z) : gmap principal Z :=
  if 0 <? amount then ledger_move LAUNCHPAD recipient amount l else l.

(** The state after graduation of curve [c], stored under [id]. *)
Definition graduated_state (id : Z) (c : curve) (s : chain) : chain :=
  set_pad (set_curves (fun m => <[id := with_graduated c]> m))
    (set_stx (fun l => payout (spec_protocol_share c) (protocol_fee_recipient (pad s))
                         (payout (spec_issuer_share c) (creator c) l)) s).

(** The state after the trade of a buy, before the graduation check. *)
Definition bought_curve (c : curve) (amount_in : Z) : curve :=
  with_trade c (spec_new_real_reserve c amount_in)
    (tokens_sold c + spec_tokens_out c amount_in)
    (accrued_fees c + spec_buy_fee c amount_in).

Definition bought_state (buyer : principal) (id : Z) (c : curve)
    (amount_in : Z) (s : chain) : chain :=
  set_pad (set_balances (fun m =>
      <[(id, buyer) := default 0 (balances (pad s) !! (id, buyer))
                       + spec_tokens_out c amount_in]> m))
    (set_pad (set_curves (fun m => <[id := bought_curve c amount_in]> m))
       (set_stx (ledger_move buyer LAUNCHPAD amount_in) s)).

Definition sold_curve (c : curve) (token_amount : Z) : curve :=
  with_trade c (spec_sell_reserve c token_amount)
    (tokens_sold c - token_amount)
    (accrued_fees c + spec_sell_fee c token_amount).

Definition sold_state (seller : principal) (id : Z) (c : curve) (bal : Z)
    (token_amount : Z) (s : chain) : chain :=
  set_pad (set_balances (fun m => <[(id, seller) := bal - token_amount]> m))
    (set_pad (set_curves (fun m => <[id := sold_curve c token_amount]> m))
       (set_stx (ledger_move LAUNCHPAD seller (spec_amount_out c token_amount)) s)).

Definition transferred_state (sender : principal) (id amount : Z)
    (recipient : principal) (bal : Z) (s : chain) : chain :=
  set_pad (set_balances (fun m =>
      <[(id, recipient) := default 0 (balances (pad s) !! (id, recipient)) + amount]>
        (<[(id, sender) := bal - amount]> m))) s.

Definition launched_curve (issuer : principal) (nm sy : string) (s : chain) : curve :=
  {| creator := issuer; name := nm; symbol := sy;
     total_supply := default_total_supply (pad s);
     virtual_stx := default_virtual_stx (pad s);
     k := default_virtual_stx (pad s) * default_total_supply (pad s);
     stx_reserve := 0; tokens_sold := 0;
     graduation_stx := default_graduation_stx (pad s);
     fee_bps := default_fee_bps (pad s); accrued_fees := 0;
     graduated := false; created_at := stacks_block_height s;
     creator_share_bps := default_creator_share_bps (pad s) |}.

Definition launched_state (issuer : principal) (nm sy : string) (s : chain) : chain :=
  set_pad (fun p =>
    set_total_curves (total_curves p + 1)
      (set_agent_curve (fun m => <[issuer := total_curves p]> m)
         (set_curves (fun m => <[total_curves p := launched_curve issuer nm sy s]> m) p))) s.

(** The receipt a successful [pay-via-curve] stores. *)
Definition receipt_state (payer : principal) (id amount : Z) (nonce : buff)
    (tokens fee : Z) (s : chain) : chain :=
  set_rtr (fun r =>
    {| router_admin := router_admin r;
       total_payments := total_payments r + 1;
       total_volume_stx := total_volume_stx r + amount;
       receipts := <[nonce := {| payer := payer; rc_curve_id := id;
                                 rc_stx_amount := amount;
                                 tokens_received := tokens; rc_fee := fee;
                                 block := stacks_block_height s |}]> (receipts r);
       router_pending_admin := router_pending_admin r |}) s.

(** ** Holdings *)

Definition add_holding (curve_id : Z) (key : Z * principal) (amount acc : Z) : Z :=
  if bool_decide (key.1 = curve_id) then acc + amount else acc.

(** The sum of the balances of all the holders of one curve. *)
Definition sum_balances (curve_id : Z) (m : gmap (Z * principal) Z) : Z :=
  map_fold (add_holding curve_id) 0 m.

(** ** Invariants of the reachable states *)

(** The constant product, up to the floor of the last trade: the product of
    the two reserves never exceeds [k], and one of the two reserves is the
    floor of [k] divided by the other one. *)
Definition constant_product (c : curve) : Prop :=
  (virtual_stx c + stx_reserve c) * token_reserve_of c <= k c /\
  (token_reserve_of c = k c / (virtual_stx c + stx_reserve c) \/
   virtual_stx c + stx_reserve c = k c / token_reserve_of c).

Definition curve_ok (c : curve) : Prop :=
  0 < virtual_stx c /\ 0 < total_supply c /\
  k c = virtual_stx c * total_supply c /\
  0 <= stx_reserve c /\ 0 <= tokens_sold c <= total_supply c /\
  constant_product c.

(** What never changes in a curve record, and what is frozen once the
    curve has graduated. *)
Definition curve_evolves (c c' : curve) : Prop :=
  creator c' = creator c /\ name c' = name c /\ symbol c' = symbol c /\
  total_supply c' = total_supply c /\ virtual_stx c' = virtual_stx c /\
  k c' = k c /\ graduation_stx c' = graduation_stx c /\
  fee_bps c' = fee_bps c /\ creator_share_bps c' = creator_share_bps c /\
  created_at c' = created_at c /\
  (graduated c = true -> c' = c).

Definition pad_evolves (s s' : chain) : Prop :=
  forall id c, curves (pad s) !! id = Some c ->
    exists c', curves (pad s') !! id = Some c' /\ curve_evolves c c'.

Definition state_ok (s : chain) : Prop :=
  (forall id, total_curves (pad s) <= id -> curves (pad s) !! id = None) /\
  (forall id c, curves (pad s) !! id = Some c -> curve_ok c) /\
  (forall id, sum_balances id (balances (pad s))
              = from_option tokens_sold 0 (curves (pad s) !! id)).

(** ** Settlement conditions *)

(** What a graduation needs besides the threshold: the pool is in the
    custody of the launchpad, neither payee is the launchpad itself, and
    the share computation fits 128 bits. *)
Definition graduation_settles (s : chain) (c : curve) : Prop :=
  0 <= accrued_fees c /\ 0 <= creator_share_bps c <= 10000 /\
  accrued_fees c * creator_share_bps c <= UINT_MAX /\
  accrued_fees c <= stx_balance s LAUNCHPAD /\
  creator c <> LAUNCHPAD /\ protocol_fee_recipient (pad s) <> LAUNCHPAD.

(** What a buy needs besides the validations it lists: the arithmetic fits
    128 bits, the buyer funds the transfer, and the graduation it may
    trigger can be paid. *)
Definition buy_settles (s : chain) (buyer : principal) (id : Z) (c : curve)
    (amount : Z) : Prop :=
  0 <= fee_bps c <= 10000 /\ amount * fee_bps c <= UINT_MAX /\
  virtual_stx c + spec_new_real_reserve c amount <= UINT_MAX /\
  total_supply c <= UINT_MAX /\
  accrued_fees c + spec_buy_fee c amount <= UINT_MAX /\
  default 0 (balances (pad s) !! (id, buyer)) + spec_tokens_out c amount <= UINT_MAX /\
  buyer <> LAUNCHPAD /\ amount <= stx_balance s buyer /\
  (graduation_stx c <= spec_new_real_reserve c amount ->
   graduation_settles (bought_state buyer id c amount s) (bought_curve c amount)).

(** The state a successful buy leaves: the trade, then the graduation when
    the new reserve reaches the threshold. *)
Definition buy_post (buyer : principal) (id : Z) (c : curve) (amount : Z)
    (s : chain) : chain :=
  if graduation_stx c <=? spec_new_real_reserve c amount
  then graduated_state id (bought_curve c amount) (bought_state buyer id c amount s)
  else bought_state buyer id c amount s.

(** ** Concrete runs

    The accounts and calls of the test-suite of the repository. *)

Module Scenario.

Definition deployer : principal := "deployer".
Definition wallet_1 : principal := "wallet_1".
Definition wallet_2 : principal := "wallet_2".
Definition wallet_3 : principal := "wallet_3".

Definition ledger : gmap principal Z :=
  <[deployer := 100000000000000]>
    (<[wallet_1 := 100000000000000]>
       (<[wallet_2 := 100000000000000]>
          (<[wallet_3 := 100000000000000]> ∅))).

Definition fresh : chain := genesis deployer ledger 1.

Definition registered : chain :=
  step wallet_1
    (RegisterAgent "TestAgent" "https://example.com/agent" 1000000 true false)
    fresh.

(** A curve with the default parameters, and a first buy of 100 STX. *)
Definition launched : chain :=
  step wallet_1 (Launch "TestToken" "TST") registered.

Definition bought : chain :=
  step wallet_2 (Buy 0 100000000 0) launched.

Definition transferred : chain :=
  step wallet_2 (Transfer 0 1000000 wallet_3) bought.

Definition resold : chain :=
  step wallet_2 (Sell 0 5000000000000 0) bought.

(** Scenario A: the graduation threshold lowered to 100 STX. *)
Definition lowered : chain :=
  step deployer
    (SetDefaults 1000000000000000 10000000000 100000000 100 8000) registered.

Definition launched_A : chain :=
  step wallet_1 (Launch "TestToken" "TST") lowered.

(** The curve of scenario A, and the state inside the buy of 200 STX, after
    the trade and before the graduation check. *)
Definition curve_A : curve := launched_curve wallet_1 "TestToken" "TST" lowered.

Definition pool_A : curve := bought_curve curve_A 200000000.

Definition trading_A : chain := bought_state wallet_2 0 curve_A 200000000 launched_A.

(** A curve with a total supply of one token unit. *)
Definition single : chain :=
  step deployer (SetDefaults 1 10000000000 1000000000000 100 8000) registered.

Definition launched_single : chain :=
  step wallet_1 (Launch "TestToken" "TST") single.

Definition depleted : chain :=
  step wallet_2 (Buy 0 100 0) launched_single.

(** The set-up of the router's tests: the deployer registers with a price
    per task of 1 STX and launches curve 0; nonces are 16 bytes made of a
    32-bit big-endian seed and twelve zero bytes. *)
Definition nonce (seed : N) : buff :=
  String (Ascii.ascii_of_N ((seed / 16777216) mod 256))
    (String (Ascii.ascii_of_N ((seed / 65536) mod 256))
       (String (Ascii.ascii_of_N ((seed / 256) mod 256))
          (String (Ascii.ascii_of_N (seed mod 256))
             (String.concat EmptyString (replicate 12 (String Ascii.zero EmptyString)))))).

(** A name of 33 characters in 66 bytes: each character is an e with an
    acute accent, encoded as the two bytes 195 and 169. *)
Definition accented_name : string :=
  String.concat EmptyString
    (replicate 33 (String (Ascii.ascii_of_N 195) (String (Ascii.ascii_of_N 169) EmptyString))).

Definition issuer_registered : chain :=
  step deployer
    (RegisterAgent "TestAgent" "https://example.com" 1000000 true false) fresh.

Definition issuer_launched : chain :=
  step deployer (Launch "TestToken" "TST") issuer_registered.

End Scenario.

(** ** Later states *)

(** States that come later: any number of transactions and of steps of the
    rest of the chain. *)
Inductive later (s : chain) : chain -> Prop :=
  | later_now : later s s
  | later_call s' tx_sender a : later s s' -> later s (step tx_sender a s')
  | later_env s' s'' : later s s' -> env_step s' s'' -> later s s''.

(** ** The price *)

(** [price(curveId)] as the specification words it. *)
Definition spec_price (c : curve) : Z :=
  if token_reserve_of c =? 0 then 0
  else (virtual_stx c + stx_reserve c) * PRICE_SCALE / token_reserve_of c.

(** ** The manual trigger *)

(** A curve that has not graduated holds less than its threshold: a buy
    that reaches the threshold graduates the curve before it returns. *)
Definition below_threshold (s : chain) : Prop :=
  0 < default_graduation_stx (pad s) /\
  forall id c, curves (pad s) !! id = Some c ->
    graduated c = false -> stx_reserve c < graduation_stx c.

(** ** The registry as seen from the router *)

(** The same chain with another content of the agent-registry. *)
Definition with_registry (a : gmap principal agent) (n : Z) (s : chain) : chain :=
  set_agents (fun _ => a) n s.

(** A computation that neither reads nor writes the agent-registry. *)
Definition registry_blind {A} (m : M A) : Prop :=
  forall a n s,
    m (with_registry a n s)
    = match m s with
      | Ok (x, s') => Ok (x, with_registry a n s')
      | Err code => Err code
      | Abort e => Abort e
      end.

(** ** Custody and parameters *)

(** What the launchpad owes on one curve: the reserve sellers can draw on
    and the fee pool paid out at graduation. *)
Definition held (c : curve) : Z := stx_reserve c + accrued_fees c.

Definition add_held (id : Z) (c : curve) (acc : Z) : Z := acc + held c.

(** The sum of [held] over all the curves. *)
Definition custody (m : gmap Z curve) : Z := map_fold add_held 0 m.

(** The bounds [set-defaults] enforces, as snapshotted in a curve, and
    what graduation leaves: an empty fee pool and a reserve at or above
    the threshold. *)
Definition curve_fine (c : curve) : Prop :=
  0 <= fee_bps c <= MAX_FEE_BPS /\
  0 <= creator_share_bps c <= MAX_CREATOR_SHARE_BPS /\
  0 < graduation_stx c /\ 0 <= accrued_fees c /\ k c <= UINT_MAX /\
  (graduated c = true ->
   accrued_fees c = 0 /\ graduation_stx c <= stx_reserve c).

Definition defaults_ok (p : launchpad) : Prop :=
  0 <= default_fee_bps p <= MAX_FEE_BPS /\
  0 <= default_creator_share_bps p <= MAX_CREATOR_SHARE_BPS /\
  0 < default_graduation_stx p /\
  0 < default_total_supply p /\ 0 < default_virtual_stx p /\
  0 <= total_curves p.

(** A balance entry is never negative and belongs to a curve. *)
Definition entry_ok (m : gmap Z curve) (key : Z * principal) (b : Z) : Prop :=
  0 <= b /\ is_Some (m !! key.1).

(** The second group of invariants of the launchpad: parameters within
    their bounds, the agent-to-curve map and the creators agreeing, sound
    balance entries, and no gap in the identifiers issued. *)
Definition pad_fine (s : chain) : Prop :=
  defaults_ok (pad s) /\
  (forall id c, curves (pad s) !! id = Some c ->
     curve_fine c /\ 0 <= id /\
     agent_curve (pad s) !! creator c = Some id) /\
  (forall a id, agent_curve (pad s) !! a = Some id ->
     exists c, curves (pad s) !! id = Some c /\ creator c = a) /\
  (forall key b, balances (pad s) !! key = Some b ->
     entry_ok (curves (pad s)) key b) /\
  (forall id, 0 <= id < total_curves (pad s) ->
     is_Some (curves (pad s) !! id)).

(** The launchpad holds at least what it owes. *)
Definition solvent (s : chain) : Prop :=
  custody (curves (pad s)) <= stx_balance s LAUNCHPAD.

(** ** Receipts and statistics of the router *)

Definition add_volume (nonce : buff) (rc : receipt) (acc : Z) : Z :=
  acc + rc_stx_amount rc.

(** The sum of the amounts of all the receipts. *)
Definition volume_of (m : gmap buff receipt) : Z := map_fold add_volume 0 m.

(** A receipt records a purchase that took place: a positive amount that
    bought a positive number of tokens of an existing curve, for a fee of
    at most 5 percent, at a block that is not in the future. *)
Definition receipt_ok (s : chain) (rc : receipt) : Prop :=
  0 < rc_stx_amount rc /\ 0 < tokens_received rc /\
  0 <= rc_fee rc /\ 20 * rc_fee rc <= rc_stx_amount rc /\
  is_Some (curves (pad s) !! rc_curve_id rc) /\
  block rc <= stacks_block_height s.

Definition router_ok (s : chain) : Prop :=
  total_payments (rtr s) = Z.of_nat (size (receipts (rtr s))) /\
  total_volume_stx (rtr s) = volume_of (receipts (rtr s)) /\
  forall nonce rc, receipts (rtr s) !! nonce = Some rc -> receipt_ok s rc.

(** ** Runs from a given state *)

(** The states that follow [s0] through transactions with [uint]
    arguments and steps of the rest of the chain. *)
Inductive reachable_from (s0 : chain) : chain -> Prop :=
  | from_here : reachable_from s0 s0
  | from_call s tx_sender a :
      reachable_from s0 s -> wf_action a ->
      reachable_from s0 (step tx_sender a s)
  | from_env s s' :
      reachable_from s0 s -> env_step s s' -> reachable_from s0 s'.

(** ** Reasoning about monadic code *)

Section Inversion.
Context {A B : Type}.

Lemma bind_inv (m : M A) (f : A -> M B) s b s' :
  bind m f s = Ok (b, s') ->
  exists a s1, m s = Ok (a, s1) /\ f a s1 = Ok (b, s').
Proof.
  unfold bind. destruct (m s) as [[a s1]| |]; try discriminate. eauto.
Qed.

Lemma bind_intro (m : M A) (f : A -> M B) s a s1 :
  m s = Ok (a, s1) -> bind m f s = f a s1.
Proof. unfold bind. intros ->. reflexivity. Qed.

Lemma ret_inv (a a' : A) s s' : ret a s = Ok (a', s') -> a' = a /\ s' = s.
Proof. unfold ret. intros [= <- <-]. auto. Qed.

Lemma gets_inv (f : chain -> A) a s s' :
  gets f s = Ok (a, s') -> a = f s /\ s' = s.
Proof. unfold gets. intros [= <- <-]. auto. Qed.

Lemma unwrap_inv (o : option A) code a s s' :
  unwrap o code s = Ok (a, s') -> o = Some a /\ s' = s.
Proof. destruct o; cbn; intros [= <- <-]; auto. Qed.
End Inversion.

Lemma modify_inv f u s s' : modify f s = Ok (u, s') -> s' = f s.
Proof. unfold modify. intros [= <-]. auto. Qed.

Lemma asserts_inv b code u s s' :
  asserts b code s = Ok (u, s') -> b = true /\ s' = s.
Proof. destruct b; cbn; intros [= <-]; auto. Qed.

Lemma uadd_inv a b c s s' :
  uadd a b s = Ok (c, s') -> c = a + b /\ a + b <= UINT_MAX /\ s' = s.
Proof.
  unfold uadd. destruct (Z.leb_spec (a + b) UINT_MAX); cbn; intros [= <- <-]; auto.
Qed.

Lemma usub_inv a b c s s' :
  usub a b s = Ok (c, s') -> c = a - b /\ b <= a /\ s' = s.
Proof.
  unfold usub. destruct (Z.leb_spec b a); cbn; intros [= <- <-]; auto.
Qed.

Lemma umul_inv a b c s s' :
  umul a b s = Ok (c, s') -> c = a * b /\ a * b <= UINT_MAX /\ s' = s.
Proof.
  unfold umul. destruct (Z.leb_spec (a * b) UINT_MAX); cbn; intros [= <- <-]; auto.
Qed.

Lemma udiv_inv a b c s s' :
  udiv a b s = Ok (c, s') -> c = a / b /\ b <> 0 /\ s' = s.
Proof.
  unfold udiv. destruct (Z.eqb_spec b 0); cbn; intros [= <- <-]; auto.
Qed.

Lemma stx_transfer_inv tx_sender amount sender recipient r s s' :
  stx_transfer tx_sender amount sender recipient s = Ok (r, s') ->
  amount <> 0 /\ sender <> recipient /\ sender = tx_sender /\
  amount <= stx_balance s sender /\
  s' = set_stx (ledger_move sender recipient amount) s.
Proof.
  unfold stx_transfer. intros H.
  apply bind_inv in H as (? & ? & H1 & H). apply asserts_inv in H1 as [H1 ->].
  apply bind_inv in H as (? & ? & H2 & H). apply asserts_inv in H2 as [H2 ->].
  apply bind_inv in H as (? & ? & H3 & H). apply asserts_inv in H3 as [H3 ->].
  apply bind_inv in H as (? & ? & H4 & H). apply gets_inv in H4 as [-> ->].
  apply bind_inv in H as (? & ? & H5 & H). apply asserts_inv in H5 as [H5 ->].
  apply bind_inv in H as (? & ? & H6 & H). apply modify_inv in H6 as ->.
  apply ret_inv in H as [_ ->].
  apply negb_true_iff, Z.eqb_neq in H1.
  apply negb_true_iff, String.eqb_neq in H2.
  apply String.eqb_eq in H3. apply Z.leb_le in H5. auto.
Qed.

(** One step through a [bind]: the first computation is inverted when it is
    a primitive, and kept as a hypothesis otherwise. *)
Ltac inv_head H1 :=
  first
    [ apply asserts_inv in H1; destruct H1 as [H1 ->]
    | apply gets_inv in H1; destruct H1 as [-> ->]
    | apply modify_inv in H1; subst
    | apply unwrap_inv in H1; destruct H1 as [H1 ->]
    | apply ret_inv in H1; destruct H1 as [H1 ->]; simplify_eq
    | apply uadd_inv in H1; destruct H1 as (H1 & ? & ->)
    | apply usub_inv in H1; destruct H1 as (H1 & ? & ->)
    | apply umul_inv in H1; destruct H1 as (H1 & ? & ->)
    | apply udiv_inv in H1; destruct H1 as (H1 & ? & ->)
    | apply stx_transfer_inv in H1; destruct H1 as (? & ? & ? & ? & ->)
    | idtac ].

Ltac inv_bind H :=
  let a := fresh "v" in
  let s1 := fresh "s" in
  let H1 := fresh "E" in
  apply bind_inv in H; destruct H as (a & s1 & H1 & H); inv_head H1.

Ltac inv_M H := repeat inv_bind H; try inv_head H.

(** Boolean tests of the code, turned into propositions. *)
Ltac reflect_tests :=
  repeat match goal with
  | H : negb _ = true |- _ => apply negb_true_iff in H
  | H : (_ <? _) = true |- _ => apply Z.ltb_lt in H
  | H : (_ <=? _) = true |- _ => apply Z.leb_le in H
  | H : (_ =? _) = false |- _ => apply Z.eqb_neq in H
  | H : String.eqb _ _ = true |- _ => apply String.eqb_eq in H
  | H : String.eqb _ _ = false |- _ => apply String.eqb_neq in H
  | H : bool_decide _ = true |- _ => apply bool_decide_eq_true in H
  end.

Lemma call_Ok {A} (m : M A) s a s' :
  call m s = (Ok a, s') <-> m s = Ok (a, s').
Proof.
  unfold call. destruct (m s) as [[a1 s1]| |]; split; intros [= <- <-]; auto; congruence.
Qed.

Lemma step_cases tx_sender a s :
  step tx_sender a s = s \/ perform tx_sender a s = Ok (tt, step tx_sender a s).
Proof.
  unfold step, call. destruct (perform tx_sender a s) as [[[] s1]| |]; auto.
Qed.

(** ** Effects of the successful calls *)

Lemma graduate_internal_effect id b s s' :
  Launchpad.graduate_internal id s = Ok (b, s') ->
  exists c, curves (pad s) !! id = Some c /\
    graduation_stx c <= stx_reserve c /\ graduated c = false /\
    spec_issuer_share c <= accrued_fees c /\
    s' = graduated_state id c s.
Proof.
  unfold Launchpad.graduate_internal, Launchpad.map_curve, Launchpad.put_curve,
    Launchpad.pay_from_contract.
  intros H. inv_M H. reflect_tests. exists v.
  repeat split; auto.
  unfold graduated_state, payout, spec_protocol_share, spec_issuer_share.
  change BPS_DENOM with 10000 in *.
  repeat match goal with
  | H : (if ?b then _ else _) _ = Ok _ |- _ => destruct b; inv_head H
  end; destruct s; reflexivity.
Qed.

Lemma buy_effect buyer id amount min_out t f s s' :
  Launchpad.buy buyer id amount min_out s = Ok ((t, f), s') ->
  exists c, curves (pad s) !! id = Some c /\
    graduated c = false /\ 0 < amount /\
    f = spec_buy_fee c amount /\ t = spec_tokens_out c amount /\
    spec_buy_fee c amount <= amount /\
    tokens_sold c <= total_supply c /\
    virtual_stx c + spec_new_real_reserve c amount <> 0 /\
    0 < spec_tokens_out c amount /\ min_out <= spec_tokens_out c amount /\
    buyer <> LAUNCHPAD /\ amount <= stx_balance s buyer /\
    ((spec_new_real_reserve c amount < graduation_stx c /\
      s' = bought_state buyer id c amount s) \/
     (graduation_stx c <= spec_new_real_reserve c amount /\
      s' = graduated_state id (bought_curve c amount) (bought_state buyer id c amount s))).
Proof.
  unfold Launchpad.buy, Launchpad.map_curve, Launchpad.map_balance,
    Launchpad.put_curve, Launchpad.put_balance.
  intros H. inv_M H. reflect_tests. exists v.
  change BPS_DENOM with 10000 in *.
  fold (spec_buy_fee v amount) in *. fold (spec_net_in v amount) in *.
  fold (spec_new_real_reserve v amount) in *.
  fold (spec_new_token_reserve v amount) in *.
  fold (token_reserve_of v) in *. fold (spec_tokens_out v amount) in *.
  fold (bought_curve v amount) in *.
  simplify_eq. repeat split; auto.
  match goal with
  | H : (if _ then _ else _) ?st = Ok _ |- _ =>
      change st with (bought_state buyer id v amount s) in H;
      destruct (Z.leb_spec (graduation_stx v) (spec_new_real_reserve v amount)) as [Hg|Hg];
      [ right; split; auto;
        apply graduate_internal_effect in H as (c' & Hc' & _ & _ & _ & ->);
        unfold bought_state in Hc'; cbn in Hc'; rewrite lookup_insert_eq in Hc';
        injection Hc' as <-; reflexivity
      | left; split; auto; inv_head H; reflexivity ]
  end.
Qed.

Lemma sell_effect seller id amount min_out out f s s' :
  Launchpad.sell seller id amount min_out s = Ok ((out, f), s') ->
  exists c bal, curves (pad s) !! id = Some c /\
    balances (pad s) !! (id, seller) = Some bal /\
    graduated c = false /\ 0 < amount /\ amount <= bal /\
    f = spec_sell_fee c amount /\ out = spec_amount_out c amount /\
    tokens_sold c <= total_supply c /\
    token_reserve_of c + amount <> 0 /\
    0 <= spec_sell_reserve c amount <= stx_reserve c /\
    amount <= tokens_sold c /\
    0 < spec_amount_out c amount /\ min_out <= spec_amount_out c amount /\
    s' = sold_state seller id c bal amount s.
Proof.
  unfold Launchpad.sell, Launchpad.map_curve, Launchpad.map_balance,
    Launchpad.put_curve, Launchpad.put_balance, Launchpad.pay_from_contract.
  intros H. inv_M H. reflect_tests.
  match goal with
  | Hc : curves _ !! _ = Some ?c, Hb : balances _ !! _ = Some ?b |- _ =>
      exists c, b;
      change BPS_DENOM with 10000 in *;
      fold (token_reserve_of c) in *;
      fold (spec_sell_reserve c amount) in *; fold (spec_gross c amount) in *;
      fold (spec_sell_fee c amount) in *; fold (spec_amount_out c amount) in *;
      fold (sold_curve c amount) in *
  end.
  repeat split; auto; try lia.
  unfold spec_sell_reserve. lia.
Qed.

Lemma transfer_effect sender id amount recipient b s s' :
  Launchpad.transfer sender id amount recipient s = Ok (b, s') ->
  exists bal, balances (pad s) !! (id, sender) = Some bal /\
    is_Some (curves (pad s) !! id) /\ 0 < amount /\ sender <> recipient /\
    amount <= bal /\
    s' = transferred_state sender id amount recipient bal s.
Proof.
  unfold Launchpad.transfer, Launchpad.map_curve, Launchpad.map_balance,
    Launchpad.put_balance.
  intros H. inv_M H. reflect_tests.
  match goal with
  | Hb : balances _ !! _ = Some ?b |- _ => exists b
  end.
  repeat split; auto.
Qed.

Lemma launch_effect issuer nm sy id s s' :
  Launchpad.launch issuer nm sy s = Ok (id, s') ->
  id = total_curves (pad s) /\
  is_Some (agents s !! issuer) /\ agent_curve (pad s) !! issuer = None /\
  0 < default_total_supply (pad s) /\ 0 < default_virtual_stx (pad s) /\
  default_virtual_stx (pad s) * default_total_supply (pad s) <= UINT_MAX /\
  s' = launched_state issuer nm sy s.
Proof.
  unfold Launchpad.launch, Launchpad.put_curve, Registry.is_registered.
  intros H. inv_M H. reflect_tests.
  repeat split; auto.
Qed.

Lemma graduate_effect id b s s' :
  Launchpad.graduate id s = Ok (b, s') ->
  exists c, curves (pad s) !! id = Some c /\
    graduation_stx c <= stx_reserve c /\ graduated c = false /\
    s' = graduated_state id c s.
Proof.
  unfold Launchpad.graduate. intros H. inv_M H.
  apply graduate_internal_effect in E as (c & ? & ? & ? & ? & ->). eauto.
Qed.

Lemma pay_via_curve_effect payer id amount nonce min_out t f s s' :
  Router.pay_via_curve payer id amount nonce min_out s = Ok ((t, f), s') ->
  receipts (rtr s) !! nonce = None /\ 0 < amount /\
  exists s1, Launchpad.buy payer id amount min_out s = Ok ((t, f), s1) /\
    s' = receipt_state payer id amount nonce t f s1.
Proof.
  unfold Router.pay_via_curve. intros H. inv_M H. reflect_tests.
  match goal with
  | Hb : Launchpad.buy _ _ _ _ _ = Ok (?r, ?s1) |- _ =>
      destruct r; repeat split; auto; exists s1; split; auto
  end.
Qed.

(** ** Sums of balances *)

Lemma add_holding_comm id j1 j2 z1 z2 y :
  add_holding id j1 z1 (add_holding id j2 z2 y)
  = add_holding id j2 z2 (add_holding id j1 z1 y).
Proof. unfold add_holding. repeat case_bool_decide; lia. Qed.

Lemma sum_balances_empty id : sum_balances id ∅ = 0.
Proof. apply map_fold_empty. Qed.

Lemma sum_balances_fresh (id : Z) (key : Z * principal) (x : Z)
    (m : gmap (Z * principal) Z) :
  m !! key = None ->
  sum_balances id (<[key := x]> m) = add_holding id key x (sum_balances id m).
Proof.
  intros Hm. unfold sum_balances.
  apply map_fold_insert_L; auto. intros. apply add_holding_comm.
Qed.

Lemma sum_balances_insert (id : Z) (key : Z * principal) (x : Z)
    (m : gmap (Z * principal) Z) :
  sum_balances id (<[key := x]> m)
  = sum_balances id m
    + (if bool_decide (key.1 = id) then x - default 0 (m !! key) else 0).
Proof.
  destruct (m !! key) as [y|] eqn:Hm; cbn.
  - rewrite <- (insert_delete_eq m key x).
    rewrite sum_balances_fresh by apply lookup_delete_eq.
    rewrite <- (insert_delete_id m key y) at 2 by exact Hm.
    rewrite sum_balances_fresh by apply lookup_delete_eq.
    unfold add_holding. case_bool_decide; lia.
  - rewrite sum_balances_fresh by exact Hm.
    unfold add_holding. case_bool_decide; lia.
Qed.

(** ** Preservation of the invariants *)

Lemma curve_evolves_refl c : curve_evolves c c.
Proof. unfold curve_evolves. tauto. Qed.

Lemma pad_evolves_same s s' :
  curves (pad s') = curves (pad s) -> pad_evolves s s'.
Proof.
  intros Hc id c H. exists c. rewrite Hc. auto using curve_evolves_refl.
Qed.

Lemma pad_evolves_update id c c' s s' :
  curves (pad s) !! id = Some c -> curve_evolves c c' ->
  curves (pad s') = <[id := c']> (curves (pad s)) ->
  pad_evolves s s'.
Proof.
  intros Hc He Hs j cj Hj. rewrite Hs.
  destruct (decide (id = j)) as [<-|Hne].
  - rewrite lookup_insert_eq. exists c'. split; auto. congruence.
  - rewrite lookup_insert_ne by auto. eauto using curve_evolves_refl.
Qed.

Lemma state_ok_same s s' :
  curves (pad s') = curves (pad s) ->
  balances (pad s') = balances (pad s) ->
  total_curves (pad s') = total_curves (pad s) ->
  state_ok s -> state_ok s'.
Proof.
  intros Hc Hb Ht (H1 & H2 & H3). unfold state_ok.
  rewrite Hc, Hb, Ht. auto.
Qed.

Lemma bought_curve_ok c amount :
  curve_ok c -> spec_buy_fee c amount <= amount ->
  0 < spec_tokens_out c amount ->
  curve_ok (bought_curve c amount).
Proof.
  intros (Hv & Hts & Hk & Hr & Hsold & _) Hfee Hout.
  unfold curve_ok, constant_product, token_reserve_of. cbn.
  unfold spec_tokens_out, spec_new_token_reserve, token_reserve_of in *.
  assert (Hd : 0 < virtual_stx c + spec_new_real_reserve c amount)
    by (unfold spec_new_real_reserve, spec_net_in; lia).
  assert (Hk0 : 0 <= k c) by nia.
  pose proof (Z.div_pos _ _ Hk0 Hd) as Hq.
  pose proof (Z.mul_div_le (k c) _ Hd) as Hm.
  set (q := k c / (virtual_stx c + spec_new_real_reserve c amount)) in *.
  replace (total_supply c - (tokens_sold c + (total_supply c - tokens_sold c - q)))
    with q by lia.
  repeat split; auto; try lia.
  unfold spec_new_real_reserve, spec_net_in. lia.
Qed.

Lemma sold_curve_ok c amount :
  curve_ok c -> 0 < amount -> amount <= tokens_sold c ->
  0 <= spec_sell_reserve c amount ->
  curve_ok (sold_curve c amount).
Proof.
  intros (Hv & Hts & Hk & Hr & Hsold & _) Hpos Hle Hres.
  unfold curve_ok, constant_product, token_reserve_of. cbn.
  unfold spec_sell_reserve, token_reserve_of in *.
  replace (total_supply c - (tokens_sold c - amount))
    with (total_supply c - tokens_sold c + amount) by lia.
  assert (Hd : 0 < total_supply c - tokens_sold c + amount) by lia.
  pose proof (Z.mul_div_le (k c) _ Hd) as Hm.
  set (q := k c / (total_supply c - tokens_sold c + amount)) in *.
  replace (virtual_stx c + (q - virtual_stx c)) with q by lia.
  repeat split; auto; try lia.
Qed.

Lemma graduated_curve_ok c : curve_ok c -> curve_ok (with_graduated c).
Proof. unfold curve_ok, constant_product, token_reserve_of. cbn. auto. Qed.

Lemma launched_curve_ok issuer nm sy s :
  0 < default_total_supply (pad s) -> 0 < default_virtual_stx (pad s) ->
  curve_ok (launched_curve issuer nm sy s).
Proof.
  intros Hts Hv. unfold curve_ok, constant_product, token_reserve_of. cbn.
  rewrite !Z.add_0_r, !Z.sub_0_r.
  repeat split; auto; try lia.
  left. rewrite Z.mul_comm, Z.div_mul; lia.
Qed.

Lemma state_ok_update id c c' s s' :
  state_ok s -> curves (pad s) !! id = Some c -> curve_ok c' ->
  curves (pad s') = <[id := c']> (curves (pad s)) ->
  total_curves (pad s') = total_curves (pad s) ->
  (forall j, sum_balances j (balances (pad s'))
             = sum_balances j (balances (pad s))
               + (if bool_decide (id = j) then tokens_sold c' - tokens_sold c else 0)) ->
  state_ok s'.
Proof.
  intros (H1 & H2 & H3) Hc Hok Hcs Ht Hsum. unfold state_ok.
  rewrite Hcs, Ht. split; [|split].
  - intros j Hj. destruct (decide (id = j)) as [<-|Hne].
    + rewrite H1 in Hc by auto. discriminate.
    + rewrite lookup_insert_ne by auto. auto.
  - intros j cj. destruct (decide (id = j)) as [<-|Hne].
    + rewrite lookup_insert_eq. intros [= <-]. auto.
    + rewrite lookup_insert_ne by auto. eauto.
  - intros j. rewrite Hsum, H3. case_bool_decide as Hj.
    + subst j. rewrite lookup_insert_eq, Hc. cbn. lia.
    + rewrite lookup_insert_ne by auto. lia.
Qed.

Lemma state_ok_bought buyer id c amount s :
  state_ok s -> curves (pad s) !! id = Some c ->
  spec_buy_fee c amount <= amount -> 0 < spec_tokens_out c amount ->
  state_ok (bought_state buyer id c amount s).
Proof.
  intros Hs Hc Hfee Hout.
  apply (state_ok_update id c (bought_curve c amount) s); auto.
  - apply bought_curve_ok; auto. destruct Hs as (_ & H2 & _). eauto.
  - intros j. cbn. rewrite sum_balances_insert. cbn.
    case_bool_decide; lia.
Qed.

Lemma state_ok_sold seller id c bal amount s :
  state_ok s -> curves (pad s) !! id = Some c ->
  balances (pad s) !! (id, seller) = Some bal ->
  0 < amount -> amount <= tokens_sold c -> 0 <= spec_sell_reserve c amount ->
  state_ok (sold_state seller id c bal amount s).
Proof.
  intros Hs Hc Hb Hpos Hle Hres.
  apply (state_ok_update id c (sold_curve c amount) s); auto.
  - apply sold_curve_ok; auto. destruct Hs as (_ & H2 & _). eauto.
  - intros j. cbn. rewrite sum_balances_insert, Hb. cbn.
    case_bool_decide; lia.
Qed.

Lemma state_ok_graduated id c s :
  state_ok s -> curves (pad s) !! id = Some c ->
  state_ok (graduated_state id c s).
Proof.
  intros Hs Hc.
  apply (state_ok_update id c (with_graduated c) s); auto.
  - apply graduated_curve_ok. destruct Hs as (_ & H2 & _). eauto.
  - intros j. cbn. case_bool_decide; lia.
Qed.

Lemma state_ok_transferred sender id amount recipient bal s :
  state_ok s -> balances (pad s) !! (id, sender) = Some bal ->
  sender <> recipient ->
  state_ok (transferred_state sender id amount recipient bal s).
Proof.
  intros (H1 & H2 & H3) Hb Hne. unfold state_ok. cbn.
  split; [|split]; auto.
  intros j. rewrite <- H3, !sum_balances_insert.
  rewrite lookup_insert_ne by congruence. rewrite Hb. cbn.
  case_bool_decide; lia.
Qed.

Lemma state_ok_launched issuer nm sy s :
  state_ok s ->
  0 < default_total_supply (pad s) -> 0 < default_virtual_stx (pad s) ->
  state_ok (launched_state issuer nm sy s).
Proof.
  intros (H1 & H2 & H3) Hts Hv. unfold state_ok. cbn.
  assert (Hnew : curves (pad s) !! total_curves (pad s) = None)
    by (apply H1; lia).
  split; [|split].
  - intros j Hj. rewrite lookup_insert_ne by lia. apply H1. lia.
  - intros j cj. destruct (decide (total_curves (pad s) = j)) as [<-|Hne].
    + rewrite lookup_insert_eq. intros [= <-].
      apply launched_curve_ok; auto.
    + rewrite lookup_insert_ne by auto. eauto.
  - intros j. rewrite H3.
    destruct (decide (total_curves (pad s) = j)) as [<-|Hne].
    + rewrite lookup_insert_eq, Hnew. reflexivity.
    + rewrite lookup_insert_ne by auto. reflexivity.
Qed.

Lemma pad_evolves_launched issuer nm sy s :
  state_ok s -> pad_evolves s (launched_state issuer nm sy s).
Proof.
  intros (H1 & _) j cj Hj. exists cj. split; [|apply curve_evolves_refl].
  cbn. rewrite lookup_insert_ne; auto.
  intros <-. rewrite H1 in Hj by lia. discriminate.
Qed.

Lemma curve_evolves_trade c reserve sold fees :
  graduated c = false -> curve_evolves c (with_trade c reserve sold fees).
Proof. intros Hg. unfold curve_evolves. cbn. repeat split; congruence. Qed.

Lemma curve_evolves_graduate c :
  graduated c = false -> curve_evolves c (with_graduated c).
Proof. intros Hg. unfold curve_evolves. cbn. repeat split; congruence. Qed.

Lemma curve_evolves_trans c1 c2 c3 :
  curve_evolves c1 c2 -> curve_evolves c2 c3 -> curve_evolves c1 c3.
Proof.
  unfold curve_evolves. intros H12 H23.
  destruct H12 as (?&?&?&?&?&?&?&?&?&?&Hg1).
  destruct H23 as (?&?&?&?&?&?&?&?&?&?&Hg2).
  repeat split; try congruence.
  intros Hg. specialize (Hg1 Hg). subst c2. auto.
Qed.

Lemma pad_evolves_trans s1 s2 s3 :
  pad_evolves s1 s2 -> pad_evolves s2 s3 -> pad_evolves s1 s3.
Proof.
  intros H12 H23 id c Hc.
  destruct (H12 id c Hc) as (c2 & Hc2 & He2).
  destruct (H23 id c2 Hc2) as (c3 & Hc3 & He3).
  eauto using curve_evolves_trans.
Qed.

(** A successful [buy] keeps the invariants, whether it graduates or not. *)
Lemma buy_ok buyer id amount min_out r s s' :
  Launchpad.buy buyer id amount min_out s = Ok (r, s') ->
  state_ok s -> state_ok s' /\ pad_evolves s s'.
Proof.
  destruct r as [t f]. intros H Hs.
  apply buy_effect in H
    as (c & Hc & Hg & Hpos & _ & _ & Hfee & _ & _ & Hout & _ & _ & _ & Hs').
  assert (Hb : state_ok (bought_state buyer id c amount s))
    by (apply state_ok_bought; auto).
  assert (Hcb : curves (pad (bought_state buyer id c amount s)) !! id
                = Some (bought_curve c amount))
    by (cbn; apply lookup_insert_eq).
  assert (Heb : pad_evolves s (bought_state buyer id c amount s)).
  { apply (pad_evolves_update id c (bought_curve c amount)); auto.
    apply curve_evolves_trade; auto. }
  destruct Hs' as [[_ ->]|[_ ->]]; [auto|].
  split; [apply state_ok_graduated; auto|].
  eapply pad_evolves_trans; [exact Heb|].
  apply (pad_evolves_update id (bought_curve c amount)
           (with_graduated (bought_curve c amount))); auto.
  apply curve_evolves_graduate. cbn. auto.
Qed.

(** Every transaction keeps the invariants of the state, and changes the
    curve records only in their mutable fields. *)
Lemma step_ok tx_sender a s :
  state_ok s ->
  state_ok (step tx_sender a s) /\ pad_evolves s (step tx_sender a s).
Proof.
  intros Hs.
  destruct (step_cases tx_sender a s) as [->|H].
  { split; auto. apply pad_evolves_same; auto. }
  revert H. generalize (step tx_sender a s). intros s' H.
  destruct a; cbn in H; unfold void in H; inv_bind H; inv_head H.
  - (* register-agent *)
    unfold Registry.register_agent in *. inv_M E.
    split; [eapply state_ok_same; eauto | apply pad_evolves_same]; reflexivity.
  - (* launch *)
    apply launch_effect in E as (_ & _ & _ & Hts & Hv & _ & ->).
    split; [apply state_ok_launched | apply pad_evolves_launched]; auto.
  - (* buy *)
    eapply buy_ok; eauto.
  - (* sell *)
    destruct v as [out f].
    apply sell_effect in E
      as (c & bal & Hc & Hb & Hg & Hpos & _ & _ & _ & _ & _ & [Hres _] & Hle & _ & _ & ->).
    split; [apply state_ok_sold; auto|].
    apply (pad_evolves_update curve_id c (sold_curve c token_amount)); auto.
    apply curve_evolves_trade; auto.
  - (* transfer *)
    apply transfer_effect in E as (bal & Hb & _ & _ & Hne & _ & ->).
    split; [apply state_ok_transferred; auto | apply pad_evolves_same; auto].
  - (* graduate *)
    apply graduate_effect in E as (c & Hc & _ & Hg & ->).
    split; [apply state_ok_graduated; auto|].
    apply (pad_evolves_update curve_id c (with_graduated c)); auto.
    apply curve_evolves_graduate; auto.
  - (* set-defaults *)
    unfold Launchpad.set_defaults in *. inv_M E.
    split; [eapply state_ok_same; eauto | apply pad_evolves_same]; reflexivity.
  - (* set-protocol-fee-recipient *)
    unfold Launchpad.set_protocol_fee_recipient in *. inv_M E.
    split; [eapply state_ok_same; eauto | apply pad_evolves_same]; reflexivity.
  - (* transfer-admin *)
    unfold Launchpad.transfer_admin in *. inv_M E.
    split; [eapply state_ok_same; eauto | apply pad_evolves_same]; reflexivity.
  - (* accept-admin *)
    unfold Launchpad.accept_admin in *. inv_M E.
    split; [eapply state_ok_same; eauto | apply pad_evolves_same]; reflexivity.
  - (* pay-via-curve *)
    destruct v as [t f].
    apply pay_via_curve_effect in E as (_ & _ & s1 & Hbuy & ->).
    destruct (buy_ok _ _ _ _ _ _ _ Hbuy Hs) as [Hs1 He1].
    split; [eapply state_ok_same; eauto; reflexivity|].
    eapply pad_evolves_trans; [exact He1|]. apply pad_evolves_same. reflexivity.
  - (* router transfer-admin *)
    unfold Router.transfer_admin in *. inv_M E.
    split; [eapply state_ok_same; eauto | apply pad_evolves_same]; reflexivity.
  - (* router accept-admin *)
    unfold Router.accept_admin in *. inv_M E.
    split; [eapply state_ok_same; eauto | apply pad_evolves_same]; reflexivity.
Qed.

Lemma genesis_ok deployer ledger height : state_ok (genesis deployer ledger height).
Proof.
  unfold state_ok. cbn. split; [|split].
  - intros. apply lookup_empty.
  - intros id c. rewrite lookup_empty. discriminate.
  - intros id. rewrite lookup_empty. apply sum_balances_empty.
Qed.

Lemma env_step_ok s s' : env_step s s' -> state_ok s -> state_ok s'.
Proof. intros [] Hs. eapply state_ok_same; eauto. Qed.

Lemma reachable_ok s : reachable s -> state_ok s.
Proof.
  induction 1 as [| s tx_sender a _ IH _ | s s' _ IH Henv].
  - apply genesis_ok.
  - apply step_ok; auto.
  - eapply env_step_ok; eauto.
Qed.

(** ** Running monadic code forward *)

Section Running.
Context {B : Type}.
Implicit Types (f : Z -> M B) (r : outcome (B * chain)).

Lemma run_bind {A} (m : M A) (g : A -> M B) s a s1 r :
  m s = Ok (a, s1) -> g a s1 = r -> bind m g s = r.
Proof. unfold bind. intros -> <-. reflexivity. Qed.

Lemma run_gets {A} (h : chain -> A) (g : A -> M B) s r :
  g (h s) s = r -> bind (gets h) g s = r.
Proof. auto. Qed.

Lemma run_modify (h : chain -> chain) (g : unit -> M B) s r :
  g tt (h s) = r -> bind (modify h) g s = r.
Proof. auto. Qed.

Lemma run_unwrap {A} (o : option A) code (g : A -> M B) a s r :
  o = Some a -> g a s = r -> bind (unwrap o code) g s = r.
Proof. intros -> <-. reflexivity. Qed.

Lemma run_asserts b code (g : unit -> M B) s r :
  b = true -> g tt s = r -> bind (asserts b code) g s = r.
Proof. intros -> <-. reflexivity. Qed.

Lemma run_uadd a b f s r :
  a + b <= UINT_MAX -> f (a + b) s = r -> bind (uadd a b) f s = r.
Proof.
  intros H <-. unfold bind, uadd.
  destruct (Z.leb_spec (a + b) UINT_MAX); [reflexivity | lia].
Qed.

Lemma run_usub a b f s r :
  b <= a -> f (a - b) s = r -> bind (usub a b) f s = r.
Proof.
  intros H <-. unfold bind, usub.
  destruct (Z.leb_spec b a); [reflexivity | lia].
Qed.

Lemma run_umul a b f s r :
  a * b <= UINT_MAX -> f (a * b) s = r -> bind (umul a b) f s = r.
Proof.
  intros H <-. unfold bind, umul.
  destruct (Z.leb_spec (a * b) UINT_MAX); [reflexivity | lia].
Qed.

Lemma run_udiv a b f s r :
  b <> 0 -> f (a / b) s = r -> bind (udiv a b) f s = r.
Proof.
  intros H <-. unfold bind, udiv.
  destruct (Z.eqb_spec b 0); [contradiction | reflexivity].
Qed.
End Running.

Lemma stx_transfer_run tx_sender amount sender recipient s :
  amount <> 0 -> sender <> recipient -> sender = tx_sender ->
  amount <= stx_balance s sender ->
  stx_transfer tx_sender amount sender recipient s
  = Ok (true, set_stx (ledger_move sender recipient amount) s).
Proof.
  intros Ha Hne <- Hbal. unfold stx_transfer.
  apply run_asserts; [apply negb_true_iff, Z.eqb_neq; auto|].
  apply run_asserts; [apply negb_true_iff, String.eqb_neq; auto|].
  apply run_asserts; [apply String.eqb_refl|].
  apply run_gets. apply run_asserts; [apply Z.leb_le; auto|].
  apply run_modify. reflexivity.
Qed.

(** Division by the basis-point denominator stays below its argument. *)
Lemma bps_share_le x bps : 0 <= x -> 0 <= bps <= 10000 -> 0 <= x * bps / 10000 <= x.
Proof.
  intros Hx Hb. split.
  - apply Z.div_pos; nia.
  - apply Z.div_le_upper_bound; nia.
Qed.

Lemma payout_custody (l : gmap principal Z) amount recipient :
  recipient <> LAUNCHPAD ->
  default 0 (payout amount recipient l !! LAUNCHPAD)
  = default 0 (l !! LAUNCHPAD) - (if 0 <? amount then amount else 0).
Proof.
  intros Hne. unfold payout, ledger_move.
  destruct (0 <? amount).
  - rewrite lookup_insert_ne by auto. rewrite lookup_insert_eq. reflexivity.
  - lia.
Qed.

Lemma graduate_internal_run id c s :
  curves (pad s) !! id = Some c ->
  graduation_stx c <= stx_reserve c -> graduated c = false ->
  graduation_settles s c ->
  Launchpad.graduate_internal id s = Ok (true, graduated_state id c s).
Proof.
  intros Hc Hthr Hg (Hfees & Hbps & Hmul & Hcust & Hcr & Hrc).
  pose proof (bps_share_le _ _ Hfees Hbps) as Hshare.
  unfold Launchpad.graduate_internal, Launchpad.map_curve, Launchpad.put_curve,
    Launchpad.pay_from_contract.
  apply run_gets. eapply run_unwrap; [exact Hc|].
  apply run_umul; auto. apply run_udiv; [discriminate|].
  change BPS_DENOM with 10000. apply run_usub; [lia|].
  apply run_gets.
  apply run_asserts; [apply Z.leb_le; auto|].
  apply run_asserts; [rewrite Hg; reflexivity|].
  unfold graduated_state, spec_protocol_share, spec_issuer_share.
  set (cs := accrued_fees c * creator_share_bps c / 10000) in *.
  eapply (run_bind _ _ _ true (set_stx (payout cs (creator c)) s)).
  { unfold payout. destruct (Z.ltb_spec 0 cs).
    - apply stx_transfer_run; auto; lia.
    - destruct s; reflexivity. }
  eapply (run_bind _ _ _ true
            (set_stx (payout (accrued_fees c - cs) (protocol_fee_recipient (pad s)))
               (set_stx (payout cs (creator c)) s))).
  { unfold payout at 2. destruct (Z.ltb_spec 0 (accrued_fees c - cs)).
    - apply stx_transfer_run; auto; try lia.
      unfold stx_balance in *. cbn [stx set_stx].
      rewrite payout_custody by auto. destruct (0 <? cs); lia.
    - destruct s; reflexivity. }
  apply run_modify. destruct s; reflexivity.
Qed.

Lemma spec_new_token_reserve_nonneg c amount :
  curve_ok c -> 0 <= spec_net_in c amount ->
  0 <= spec_new_token_reserve c amount.
Proof.
  intros (Hv & Hts & Hk & Hr & _) Hnet.
  unfold spec_new_token_reserve, spec_new_real_reserve.
  apply Z.div_pos; nia.
Qed.

Lemma buy_run buyer id c amount min_out s :
  curves (pad s) !! id = Some c -> curve_ok c ->
  graduated c = false -> 0 < amount ->
  0 < spec_tokens_out c amount -> min_out <= spec_tokens_out c amount ->
  buy_settles s buyer id c amount ->
  Launchpad.buy buyer id amount min_out s
  = Ok ((spec_tokens_out c amount, spec_buy_fee c amount),
        buy_post buyer id c amount s).
Proof.
  intros Hc Hok Hg Hpos Hout Hmin
    (Hbps & Hmul & Hden & Hts & Hfees & Hbal & Hself & Hfund & Hgrad).
  pose proof Hok as (Hv & _ & _ & Hr & Hsold & _).
  assert (Hfee : 0 <= spec_buy_fee c amount <= amount)
    by (apply bps_share_le; lia).
  assert (Hnet : 0 <= spec_net_in c amount) by (unfold spec_net_in; lia).
  pose proof (spec_new_token_reserve_nonneg c amount Hok Hnet) as Hntr.
  unfold buy_post.
  unfold spec_tokens_out, spec_new_token_reserve, spec_new_real_reserve,
    spec_net_in, spec_buy_fee, token_reserve_of in *.
  unfold Launchpad.buy, Launchpad.map_curve, Launchpad.map_balance,
    Launchpad.put_curve, Launchpad.put_balance.
  change BPS_DENOM with 10000.
  apply run_gets. eapply run_unwrap; [exact Hc|].
  apply run_umul; auto. apply run_udiv; [discriminate|].
  apply run_usub; [lia|]. apply run_usub; [lia|].
  apply run_uadd; [lia|]. apply run_uadd; [lia|].
  apply run_udiv; [lia|]. apply run_usub; [lia|].
  apply run_gets.
  apply run_asserts; [rewrite Hg; reflexivity|].
  apply run_asserts; [apply Z.ltb_lt; lia|].
  apply run_asserts; [apply Z.ltb_lt; lia|].
  apply run_asserts; [apply Z.ltb_lt; lia|].
  apply run_asserts; [apply Z.leb_le; lia|].
  eapply run_bind; [apply stx_transfer_run; auto; lia|].
  apply run_uadd; [lia|]. apply run_uadd; [lia|].
  apply run_modify. apply run_uadd; [lia|]. apply run_modify.
  match goal with
  | |- bind _ _ ?st = _ => change st with (bought_state buyer id c amount s)
  end.
  destruct (Z.leb_spec (graduation_stx c)
              (stx_reserve c + (amount - amount * fee_bps c / 10000))) as [Hthr|Hthr].
  - eapply run_bind; [|reflexivity].
    apply graduate_internal_run; auto.
    cbn. apply lookup_insert_eq.
  - reflexivity.
Qed.

Lemma get_buy_quote_run id c amount s :
  curves (pad s) !! id = Some c ->
  amount * fee_bps c <= UINT_MAX -> spec_buy_fee c amount <= amount ->
  tokens_sold c <= total_supply c ->
  virtual_stx c + spec_new_real_reserve c amount <= UINT_MAX ->
  0 < virtual_stx c ->
  virtual_stx c + spec_new_real_reserve c amount <> 0 ->
  spec_new_token_reserve c amount <= token_reserve_of c ->
  Launchpad.get_buy_quote id amount s
  = Ok ((spec_tokens_out c amount, spec_buy_fee c amount), s).
Proof.
  intros Hc Hmul Hfee Hsold Hden Hv Hnz Hntr.
  unfold spec_tokens_out, spec_new_token_reserve, spec_new_real_reserve,
    spec_net_in, spec_buy_fee, token_reserve_of in *.
  unfold Launchpad.get_buy_quote, Launchpad.map_curve.
  change BPS_DENOM with 10000.
  apply run_gets. eapply run_unwrap; [exact Hc|].
  apply run_umul; auto. apply run_udiv; [discriminate|].
  apply run_usub; [lia|]. apply run_usub; [lia|].
  apply run_uadd; [lia|]. apply run_uadd; [lia|].
  apply run_udiv; [lia|]. apply run_usub; [lia|].
  reflexivity.
Qed.

(** ** The concrete runs are reachable *)

Ltac uint_range :=
  cbn; unfold is_uint, UINT_MAX; repeat split; try (apply Z.leb_le; reflexivity).

Lemma reachable_registered : reachable Scenario.registered.
Proof. apply reach_call; [apply reach_genesis | uint_range]. Qed.

Lemma reachable_launched : reachable Scenario.launched.
Proof. apply reach_call; [apply reachable_registered | uint_range]. Qed.

Lemma reachable_bought : reachable Scenario.bought.
Proof. apply reach_call; [apply reachable_launched | uint_range]. Qed.

Lemma reachable_transferred : reachable Scenario.transferred.
Proof. apply reach_call; [apply reachable_bought | uint_range]. Qed.

Lemma reachable_launched_A : reachable Scenario.launched_A.
Proof.
  apply reach_call; [|uint_range].
  apply reach_call; [apply reachable_registered | uint_range].
Qed.

Lemma reachable_depleted : reachable Scenario.depleted.
Proof.
  apply reach_call; [|uint_range].
  apply reach_call; [|uint_range].
  apply reach_call; [apply reachable_registered | uint_range].
Qed.

(** The floor of a trade loses less than one unit of the divisor: the
    product of the reserves is within one reserve of [k]. *)
Lemma constant_product_remainder c :
  curve_ok c ->
  k c < (virtual_stx c + stx_reserve c) * token_reserve_of c
        + Z.max (virtual_stx c + stx_reserve c) (token_reserve_of c).
Proof.
  intros (Hv & _ & _ & Hr & Hsold & _ & Hfloor).
  set (x := virtual_stx c + stx_reserve c) in *.
  set (y := token_reserve_of c) in *.
  assert (Hx : 0 < x) by (unfold x; lia).
  assert (Hy : 0 <= y) by (unfold y, token_reserve_of; lia).
  destruct Hfloor as [Hf|Hf].
  - pose proof (Z.div_mod (k c) x ltac:(lia)) as Hdm.
    pose proof (Z.mod_pos_bound (k c) x Hx) as Hm.
    rewrite <- Hf in Hdm. lia.
  - destruct (Z.eq_dec y 0) as [Hy0|Hy0].
    + rewrite Hy0, Z.div_0_r in Hf. lia.
    + pose proof (Z.div_mod (k c) y Hy0) as Hdm.
      pose proof (Z.mod_pos_bound (k c) y ltac:(lia)) as Hm.
      rewrite <- Hf in Hdm. lia.
Qed.

(** * Properties of the contracts *)

(** C1.  In every reachable state, hence after every successful public
    call, each curve keeps the constant product up to the floor of the last
    trade: [(virtual_stx + stx_reserve) * (total_supply - tokens_sold)]
    never exceeds [k], one reserve is the floor of [k] divided by the
    other, and the product is within one reserve of [k];
    [k = virtual_stx * total_supply] and
    [0 <= tokens_sold <= total_supply].  No transaction changes [k],
    [total_supply] or [virtual_stx] of an existing curve. *)
Theorem constant_product_invariant (s : chain) :
  reachable s ->
  (forall id c, curves (pad s) !! id = Some c ->
     k c = virtual_stx c * total_supply c /\
     0 <= tokens_sold c <= total_supply c /\
     constant_product c /\
     k c < (virtual_stx c + stx_reserve c) * token_reserve_of c
           + Z.max (virtual_stx c + stx_reserve c) (token_reserve_of c)) /\
  (forall tx_sender a id c, curves (pad s) !! id = Some c ->
     exists c', curves (pad (step tx_sender a s)) !! id = Some c' /\
       k c' = k c /\ total_supply c' = total_supply c /\
       virtual_stx c' = virtual_stx c).
Proof.
  intros Hr. apply reachable_ok in Hr. split.
  - intros id c Hc. destruct Hr as (_ & H2 & _).
    pose proof (constant_product_remainder c (H2 id c Hc)) as Hrem.
    destruct (H2 id c Hc) as (_ & _ & Hk & _ & Hsold & Hprod). auto.
  - intros tx_sender a id c Hc.
    destruct (step_ok tx_sender a s Hr) as [_ He].
    destruct (He id c Hc) as (c' & Hc' & Hev). exists c'.
    unfold curve_evolves in Hev. tauto.
Qed.

Lemma constant_product_invariant_witness :
  exists c, curves (pad Scenario.bought) !! 0 = Some c /\
    stx_reserve c = 99000000 /\ tokens_sold c = 9802950787207 /\
    constant_product c.
Proof.
  eexists. split; [vm_compute; reflexivity|].
  split; [reflexivity|]. split; [reflexivity|].
  eapply (proj1 (constant_product_invariant Scenario.bought reachable_bought) 0).
  vm_compute; reflexivity.
Defined.

(** C10.  In every reachable state the balances of all the holders of a
    curve sum to the [tokens_sold] of that curve. *)
Theorem token_conservation (s : chain) :
  reachable s ->
  forall id c, curves (pad s) !! id = Some c ->
    sum_balances id (balances (pad s)) = tokens_sold c.
Proof.
  intros Hr id c Hc. apply reachable_ok in Hr. destruct Hr as (_ & _ & H3).
  rewrite H3, Hc. reflexivity.
Qed.

Lemma token_conservation_witness :
  exists c, curves (pad Scenario.transferred) !! 0 = Some c /\
    balances (pad Scenario.transferred) !! (0, Scenario.wallet_3) = Some 1000000 /\
    sum_balances 0 (balances (pad Scenario.transferred)) = tokens_sold c.
Proof.
  eexists. split; [vm_compute; reflexivity|].
  split; [vm_compute; reflexivity|].
  apply (token_conservation Scenario.transferred reachable_transferred).
  vm_compute; reflexivity.
Defined.

(** ** The router *)

Lemma buy_frame buyer id amount min_out r s s' :
  Launchpad.buy buyer id amount min_out s = Ok (r, s') ->
  rtr s' = rtr s /\ agents s' = agents s /\
  stacks_block_height s' = stacks_block_height s.
Proof.
  destruct r as [t f]. intros H.
  apply buy_effect in H as (c & ? & ? & ? & ? & ? & ? & ? & ? & ? & ? & ? & ? & Hs').
  destruct Hs' as [[_ ->]|[_ ->]]; auto.
Qed.

Lemma receipts_kept_step tx_sender a s nonce (rc : receipt) :
  receipts (rtr s) !! nonce = Some rc ->
  receipts (rtr (step tx_sender a s)) !! nonce = Some rc.
Proof.
  intros Hrc.
  destruct (step_cases tx_sender a s) as [->|H]; auto.
  revert H. generalize (step tx_sender a s). intros s' H.
  destruct a; cbn in H; unfold void in H; inv_bind H; inv_head H.
  - unfold Registry.register_agent in *. inv_M E. auto.
  - apply launch_effect in E as (_ & _ & _ & _ & _ & _ & ->). auto.
  - apply buy_frame in E as (-> & _). auto.
  - destruct v as [out f].
    apply sell_effect in E
      as (c & bal & _ & _ & _ & _ & _ & _ & _ & _ & _ & _ & _ & _ & _ & ->). auto.
  - apply transfer_effect in E as (bal & _ & _ & _ & _ & _ & ->). auto.
  - apply graduate_effect in E as (c & _ & _ & _ & ->). auto.
  - unfold Launchpad.set_defaults in *. inv_M E. auto.
  - unfold Launchpad.set_protocol_fee_recipient in *. inv_M E. auto.
  - unfold Launchpad.transfer_admin in *. inv_M E. auto.
  - unfold Launchpad.accept_admin in *. inv_M E. auto.
  - destruct v as [t f].
    apply pay_via_curve_effect in E as (Hfresh & _ & s1 & Hbuy & ->).
    apply buy_frame in Hbuy as (Hr & _). cbn. rewrite Hr.
    rewrite lookup_insert_ne; auto. congruence.
  - unfold Router.transfer_admin in *. inv_M E. auto.
  - unfold Router.accept_admin in *. inv_M E. auto.
Qed.

Lemma receipts_kept s s' nonce (rc : receipt) :
  later s s' -> receipts (rtr s) !! nonce = Some rc ->
  receipts (rtr s') !! nonce = Some rc.
Proof.
  induction 1 as [| s' tx_sender a _ IH | s' s'' _ IH Henv]; intros Hrc; auto.
  - apply receipts_kept_step; auto.
  - destruct Henv. cbn. auto.
Qed.

Lemma used_nonce_rejected payer id amount nonce min_out (rc : receipt) s :
  receipts (rtr s) !! nonce = Some rc ->
  call (Router.pay_via_curve payer id amount nonce min_out) s
  = (Err Router.ERR_NONCE_USED, s).
Proof.
  intros Hrc. unfold call, Router.pay_via_curve, bind, gets. rewrite Hrc.
  reflexivity.
Qed.

Lemma step_pay payer id amount nonce min_out s :
  step payer (PayViaCurve id amount nonce min_out) s
  = snd (call (Router.pay_via_curve payer id amount nonce min_out) s).
Proof.
  unfold step, call.
  change (perform payer (PayViaCurve id amount nonce min_out))
    with (void (Router.pay_via_curve payer id amount nonce min_out)).
  unfold void. unfold bind at 1.
  destruct (Router.pay_via_curve payer id amount nonce min_out s) as [[? ?]| |];
    reflexivity.
Qed.

(** C4.  Replaying a payment does nothing: two calls of [pay-via-curve]
    with the same arguments leave the state one call leaves; once a call
    has succeeded, its receipt is stored under the nonce, and every later
    call with that nonce, whatever its other arguments and whatever
    happened in between, returns [ERR-NONCE-USED] and leaves the receipts,
    the curves, the balances and the payment statistics as they were. *)
Theorem replay_rejected (s : chain) (payer : principal) (id amount : Z)
    (nonce : buff) (min_out : Z) :
  step payer (PayViaCurve id amount nonce min_out)
    (step payer (PayViaCurve id amount nonce min_out) s)
  = step payer (PayViaCurve id amount nonce min_out) s /\
  forall r s1,
    call (Router.pay_via_curve payer id amount nonce min_out) s = (Ok r, s1) ->
    query (Router.verify_payment nonce) s1
    = Ok (Some {| payer := payer; rc_curve_id := id; rc_stx_amount := amount;
                  tokens_received := r.1; rc_fee := r.2;
                  block := stacks_block_height s |}) /\
    forall s2, later s1 s2 ->
      forall payer' id' amount' min_out',
        call (Router.pay_via_curve payer' id' amount' nonce min_out') s2
        = (Err Router.ERR_NONCE_USED, s2).
Proof.
  assert (Hrec : forall t f s1,
    Router.pay_via_curve payer id amount nonce min_out s = Ok ((t, f), s1) ->
    receipts (rtr s1) !! nonce
    = Some {| payer := payer; rc_curve_id := id; rc_stx_amount := amount;
              tokens_received := t; rc_fee := f;
              block := stacks_block_height s |}).
  { intros t f s1 H.
    apply pay_via_curve_effect in H as (_ & _ & s0 & Hbuy & ->).
    apply buy_frame in Hbuy as (_ & _ & Hh). cbn. rewrite Hh.
    apply lookup_insert_eq. }
  split.
  - rewrite !step_pay. unfold call.
    destruct (Router.pay_via_curve payer id amount nonce min_out s)
      as [[[t f] s1]| |] eqn:Hp; cbn [snd].
    + pose proof (Hrec _ _ _ eq_refl) as Hrc.
      pose proof (used_nonce_rejected payer id amount nonce min_out _ _ Hrc) as Hu.
      unfold call in Hu. rewrite Hu. reflexivity.
    + rewrite Hp. reflexivity.
    + rewrite Hp. reflexivity.
  - intros [t f] s1 H. apply call_Ok in H. apply Hrec in H. split.
    + unfold query, call, Router.verify_payment, gets. cbn. rewrite H. reflexivity.
    + intros s2 Hl payer' id' amount' min_out'.
      eapply used_nonce_rejected, receipts_kept; eauto.
Qed.

Lemma replay_rejected_witness :
  exists r s1,
    call (Router.pay_via_curve Scenario.wallet_2 0 5000000 "0123456789abcdef" 0)
      Scenario.launched = (Ok r, s1) /\
    call (Router.pay_via_curve Scenario.wallet_3 0 7000000 "0123456789abcdef" 0) s1
    = (Err Router.ERR_NONCE_USED, s1).
Proof.
  eexists. eexists. split; [vm_compute; reflexivity|].
  eapply (replay_rejected Scenario.launched Scenario.wallet_2 0 5000000
            "0123456789abcdef" 0).
  - vm_compute; reflexivity.
  - apply later_now.
Defined.

(** ** Code that does not look at the registry *)

Section Blind.
Context {A B : Type}.

Lemma blind_bind (m : M A) (f : A -> M B) :
  registry_blind m -> (forall x, registry_blind (f x)) ->
  registry_blind (bind m f).
Proof.
  intros Hm Hf a n s. unfold bind. rewrite Hm.
  destruct (m s) as [[x s']| |]; auto. apply Hf.
Qed.

Lemma blind_ret (x : A) : registry_blind (ret x).
Proof. intros a n s. reflexivity. Qed.

Lemma blind_throw code : registry_blind (@throw A code).
Proof. intros a n s. reflexivity. Qed.

Lemma blind_unwrap (o : option A) code : registry_blind (unwrap o code).
Proof. destruct o; [apply blind_ret | apply blind_throw]. Qed.

Lemma blind_gets (h : chain -> A) :
  (forall a n s, h (with_registry a n s) = h s) -> registry_blind (gets h).
Proof. intros Hh a n s. unfold gets. rewrite Hh. reflexivity. Qed.
End Blind.

Lemma blind_modify (h : chain -> chain) :
  (forall a n s, h (with_registry a n s) = with_registry a n (h s)) ->
  registry_blind (modify h).
Proof. intros Hh a n s. unfold modify. rewrite Hh. reflexivity. Qed.

Lemma blind_asserts b code : registry_blind (asserts b code).
Proof. destruct b; intros a n s; reflexivity. Qed.

Lemma blind_uadd x y : registry_blind (uadd x y).
Proof. unfold uadd. destruct (x + y <=? UINT_MAX); intros a n s; reflexivity. Qed.

Lemma blind_usub x y : registry_blind (usub x y).
Proof. unfold usub. destruct (y <=? x); intros a n s; reflexivity. Qed.

Lemma blind_umul x y : registry_blind (umul x y).
Proof. unfold umul. destruct (x * y <=? UINT_MAX); intros a n s; reflexivity. Qed.

Lemma blind_udiv x y : registry_blind (udiv x y).
Proof. unfold udiv. destruct (y =? 0); intros a n s; reflexivity. Qed.

Ltac blind :=
  repeat first
    [ apply blind_bind; [|intros ?]
    | apply blind_ret | apply blind_asserts | apply blind_unwrap
    | apply blind_uadd | apply blind_usub | apply blind_umul | apply blind_udiv
    | apply blind_gets; reflexivity
    | apply blind_modify; reflexivity
    | match goal with |- registry_blind (if ?b then _ else _) => destruct b end ].

Lemma blind_stx_transfer tx amount from to :
  registry_blind (stx_transfer tx amount from to).
Proof. unfold stx_transfer. blind. Qed.

Lemma blind_graduate_internal id : registry_blind (Launchpad.graduate_internal id).
Proof.
  unfold Launchpad.graduate_internal, Launchpad.map_curve, Launchpad.put_curve,
    Launchpad.pay_from_contract.
  blind; apply blind_stx_transfer.
Qed.

Lemma blind_buy buyer id amount min_out :
  registry_blind (Launchpad.buy buyer id amount min_out).
Proof.
  unfold Launchpad.buy, Launchpad.map_curve, Launchpad.map_balance,
    Launchpad.put_curve, Launchpad.put_balance.
  blind; first [apply blind_stx_transfer | apply blind_graduate_internal].
Qed.

Lemma blind_pay_via_curve payer id amount nonce min_out :
  registry_blind (Router.pay_via_curve payer id amount nonce min_out).
Proof.
  unfold Router.pay_via_curve. blind.
Qed.

Lemma blind_call {A} (m : M A) a n s :
  registry_blind m -> fst (call m (with_registry a n s)) = fst (call m s).
Proof.
  intros Hm. unfold call. rewrite Hm. destruct (m s) as [[x s']| |]; reflexivity.
Qed.

(** What [pay-via-curve] does with the amount.  With a fresh nonce, an
    amount of zero is refused with the router's own [ERR-ZERO-AMOUNT]
    ([u1501]) before [buy] is called, and every positive amount is handed
    to [buy]: the router returns what [buy] returns.  The outcome does not
    depend on the content of the agent-registry. *)
Lemma router_amount_policy (s : chain) (payer : principal) (id amount : Z)
    (nonce : buff) (min_out : Z) :
  (forall registry n,
     fst (call (Router.pay_via_curve payer id amount nonce min_out)
            (with_registry registry n s))
     = fst (call (Router.pay_via_curve payer id amount nonce min_out) s)) /\
  (receipts (rtr s) !! nonce = None ->
   (amount = 0 ->
    call (Router.pay_via_curve payer id amount nonce min_out) s
    = (Err Router.ERR_ZERO_AMOUNT, s)) /\
   (0 < amount ->
    match call (Launchpad.buy payer id amount min_out) s with
    | (Ok (t, f), s1) =>
        total_payments (rtr s) + 1 <= UINT_MAX ->
        total_volume_stx (rtr s) + amount <= UINT_MAX ->
        call (Router.pay_via_curve payer id amount nonce min_out) s
        = (Ok (t, f), receipt_state payer id amount nonce t f s1)
    | (Err code, _) =>
        call (Router.pay_via_curve payer id amount nonce min_out) s = (Err code, s)
    | (Abort e, _) =>
        call (Router.pay_via_curve payer id amount nonce min_out) s = (Abort e, s)
    end)).
Proof.
  split; [intros registry n; apply blind_call, blind_pay_via_curve|].
  intros Hfresh. split.
  - intros ->. unfold call, Router.pay_via_curve, bind, gets. rewrite Hfresh.
    reflexivity.
  - intros Hpos. unfold call at 1.
    assert (Hlt : (0 <? amount) = true) by (apply Z.ltb_lt; auto).
    destruct (Launchpad.buy payer id amount min_out s) as [[[t f] s1]| |] eqn:Hbuy.
    + intros Hcount Hvol. apply call_Ok.
      pose proof (buy_frame _ _ _ _ _ _ _ Hbuy) as (Hr & _ & _).
      unfold Router.pay_via_curve.
      apply run_gets. apply run_asserts; [rewrite Hfresh; reflexivity|].
      apply run_asserts; [exact Hlt|].
      eapply run_bind; [exact Hbuy|]. cbn [fst snd].
      apply run_gets. apply run_modify. apply run_gets.
      apply run_uadd; [cbn; rewrite Hr; auto|].
      apply run_modify. apply run_gets.
      apply run_uadd; [cbn; rewrite Hr; auto|].
      apply run_modify. unfold receipt_state. destruct s1; reflexivity.
    + assert (Hp : Router.pay_via_curve payer id amount nonce min_out s = Err code).
      { unfold Router.pay_via_curve.
        apply run_gets. apply run_asserts; [rewrite Hfresh; reflexivity|].
        apply run_asserts; [exact Hlt|].
        unfold bind at 1. rewrite Hbuy. reflexivity. }
      unfold call. rewrite Hp. reflexivity.
    + assert (Hp : Router.pay_via_curve payer id amount nonce min_out s = Abort e).
      { unfold Router.pay_via_curve.
        apply run_gets. apply run_asserts; [rewrite Hfresh; reflexivity|].
        apply run_asserts; [exact Hlt|].
        unfold bind at 1. rewrite Hbuy. reflexivity. }
      unfold call. rewrite Hp. reflexivity.
Qed.

(** C3, at the inputs of the router's own tests.  The deployer is
    registered with a price per task of 1000000 and has launched curve 0.
    A payment of 500000, half that price, is not refused with the router's
    u1504 the test expects: [pay-via-curve] buys the tokens and stores the
    receipt, and it does so whatever the registry holds, because it never
    reads the registry.  For a curve that does not exist the caller gets
    u1402 of the launchpad and not the router's own u1502, which the
    contract declares and the test expects, and which no function
    returns. *)
Theorem floor_price_missing :
  reachable Scenario.issuer_launched /\
  (exists c a,
     curves (pad Scenario.issuer_launched) !! 0 = Some c /\
     agents Scenario.issuer_launched !! creator c = Some a /\
     price_per_task a = 1000000) /\
  (exists s1,
     call (Router.pay_via_curve Scenario.wallet_1 0 500000 (Scenario.nonce 350) 0)
       Scenario.issuer_launched
     = (Ok (49497549872, 5000), s1) /\
     query (Router.verify_payment (Scenario.nonce 350)) s1
     = Ok (Some {| payer := Scenario.wallet_1; rc_curve_id := 0;
                   rc_stx_amount := 500000; tokens_received := 49497549872;
                   rc_fee := 5000; block := 1 |})) /\
  (forall registry n,
     fst (call (Router.pay_via_curve Scenario.wallet_1 0 500000
                  (Scenario.nonce 350) 0)
            (with_registry registry n Scenario.issuer_launched))
     = Ok (49497549872, 5000)) /\
  call (Router.pay_via_curve Scenario.wallet_1 99 1000000 (Scenario.nonce 400) 0)
    Scenario.fresh
  = (Err ERR_CURVE_NOT_FOUND, Scenario.fresh) /\
  ERR_CURVE_NOT_FOUND = 1402 /\ Router.ERR_CURVE_NOT_FOUND = 1502.
Proof.
  assert (Hpay :
    call (Router.pay_via_curve Scenario.wallet_1 0 500000 (Scenario.nonce 350) 0)
      Scenario.issuer_launched
    = (Ok (49497549872, 5000),
       step Scenario.wallet_1 (PayViaCurve 0 500000 (Scenario.nonce 350) 0)
         Scenario.issuer_launched)) by (vm_compute; reflexivity).
  split.
  { apply reach_call; [|exact I].
    apply reach_call; [apply reach_genesis | uint_range]. }
  split.
  { exists (launched_curve Scenario.deployer "TestToken" "TST"
              Scenario.issuer_registered).
    exists {| agent_name := "TestAgent"; description_url := "https://example.com";
              status := Registry.STATUS_ACTIVE; registered_at := 1;
              total_tasks := 0; total_earned := 0; price_per_task := 1000000;
              accepts_stx := true; accepts_sip010 := false |}.
    split; [vm_compute; reflexivity|].
    split; [vm_compute; reflexivity | reflexivity]. }
  split.
  { eexists. split; [exact Hpay|]. vm_compute. reflexivity. }
  split.
  { intros registry n.
    rewrite (proj1 (router_amount_policy Scenario.issuer_launched
                      Scenario.wallet_1 0 500000 (Scenario.nonce 350) 0)).
    rewrite Hpay. reflexivity. }
  split; [vm_compute; reflexivity|].
  split; reflexivity.
Qed.

(** ** Buying *)

Lemma buy_quote_agrees buyer id amount min_out r s s' :
  Launchpad.buy buyer id amount min_out s = Ok (r, s') ->
  Launchpad.get_buy_quote id amount s = Ok (r, s).
Proof.
  unfold Launchpad.buy, Launchpad.map_curve, Launchpad.map_balance.
  intros H.
  do 10 inv_bind H. subst.
  unfold Launchpad.get_buy_quote, Launchpad.map_curve.
  apply run_gets. eapply run_unwrap; [eassumption|].
  apply run_umul; auto. apply run_udiv; auto.
  apply run_usub; auto. apply run_usub; auto.
  apply run_uadd; auto. apply run_uadd; auto.
  apply run_udiv; auto. apply run_usub; auto.
  clear - H. inv_M H. reflexivity.
Qed.

Lemma buy_effect_post buyer id amount min_out t f s s' :
  Launchpad.buy buyer id amount min_out s = Ok ((t, f), s') ->
  exists c, curves (pad s) !! id = Some c /\ graduated c = false /\
    t = spec_tokens_out c amount /\ f = spec_buy_fee c amount /\
    s' = buy_post buyer id c amount s.
Proof.
  intros H.
  apply buy_effect in H
    as (c & Hc & Hg & _ & -> & -> & _ & _ & _ & _ & _ & _ & _ & Hs').
  exists c. repeat split; auto. unfold buy_post.
  destruct Hs' as [[Hlt ->]|[Hge ->]].
  - destruct (Z.leb_spec (graduation_stx c) (spec_new_real_reserve c amount));
      [lia | reflexivity].
  - destruct (Z.leb_spec (graduation_stx c) (spec_new_real_reserve c amount));
      [reflexivity | lia].
Qed.

Lemma buy_post_curve buyer id c amount s :
  curves (pad (buy_post buyer id c amount s)) !! id
  = Some (if graduation_stx c <=? spec_new_real_reserve c amount
          then with_graduated (bought_curve c amount)
          else bought_curve c amount).
Proof.
  unfold buy_post.
  destruct (graduation_stx c <=? spec_new_real_reserve c amount); cbn;
    rewrite ?insert_insert_eq; apply lookup_insert_eq.
Qed.

Lemma buy_post_balance buyer id c amount s :
  balances (pad (buy_post buyer id c amount s)) !! (id, buyer)
  = Some (default 0 (balances (pad s) !! (id, buyer)) + spec_tokens_out c amount).
Proof.
  unfold buy_post.
  destruct (graduation_stx c <=? spec_new_real_reserve c amount); cbn;
    apply lookup_insert_eq.
Qed.

(** C2, as the code has it.  Every buy that succeeds returns exactly
    [(tokensOut, fee)] of the formulas ([fee = floor (amountIn * feeRateBps /
    10000)], [netIn = amountIn - fee], [newRealReserve = realReserve + netIn],
    [newTokenReserve = floor (invariantK / (virtualReserve + newRealReserve))],
    [tokensOut = tokenReserveBefore - newTokenReserve]); [get-buy-quote]
    returns the same pair on the state before the buy and writes nothing;
    the buyer is credited [tokensOut], the reserve is [newRealReserve],
    [tokens-sold] grows by [tokensOut]; [accrued-fees] grows by [fee] when
    the new reserve is below the graduation threshold, and otherwise the
    curve graduates in the same call, which leaves [accrued-fees] at 0.
    On a reachable state a buy succeeds when the listed validations pass,
    provided the arithmetic fits 128 bits, the buyer funds the transfer and
    the graduation it may trigger can be paid ([buy_settles]). *)
Theorem buy_meets_quote (s : chain) (buyer : principal) (id amount min_out : Z) :
  (forall t f s',
     call (Launchpad.buy buyer id amount min_out) s = (Ok (t, f), s') ->
     exists c, curves (pad s) !! id = Some c /\
       f = spec_buy_fee c amount /\ t = spec_tokens_out c amount /\
       call (Launchpad.get_buy_quote id amount) s = (Ok (t, f), s) /\
       balances (pad s') !! (id, buyer)
       = Some (default 0 (balances (pad s) !! (id, buyer)) + t) /\
       exists c', curves (pad s') !! id = Some c' /\
         stx_reserve c' = spec_new_real_reserve c amount /\
         tokens_sold c' = tokens_sold c + t /\
         if graduation_stx c <=? spec_new_real_reserve c amount
         then accrued_fees c' = 0 /\ graduated c' = true
         else accrued_fees c' = accrued_fees c + f /\ graduated c' = false) /\
  (forall c,
     reachable s ->
     curves (pad s) !! id = Some c -> graduated c = false ->
     0 < amount -> 0 < token_reserve_of c ->
     0 < spec_tokens_out c amount -> min_out <= spec_tokens_out c amount ->
     buy_settles s buyer id c amount ->
     call (Launchpad.buy buyer id amount min_out) s
     = (Ok (spec_tokens_out c amount, spec_buy_fee c amount),
        buy_post buyer id c amount s)).
Proof.
  split.
  - intros t f s' H. apply call_Ok in H.
    pose proof (buy_quote_agrees _ _ _ _ _ _ _ H) as Hq.
    apply buy_effect_post in H as (c & Hc & Hg & -> & -> & ->).
    exists c. repeat split; auto.
    + apply call_Ok. exact Hq.
    + apply buy_post_balance.
    + eexists. split; [apply buy_post_curve|].
      destruct (graduation_stx c <=? spec_new_real_reserve c amount); cbn; auto.
  - intros c Hr Hc Hg Hpos _ Hout Hmin Hset. apply call_Ok.
    apply buy_run; auto.
    apply reachable_ok in Hr. destruct Hr as (_ & H2 & _). eauto.
Qed.

Lemma buy_meets_quote_witness :
  exists s' c',
    call (Launchpad.buy Scenario.wallet_2 0 200000000 0) Scenario.launched_A
    = (Ok (19415571680722, 2000000), s') /\
    balances (pad s') !! (0, Scenario.wallet_2) = Some 19415571680722 /\
    curves (pad s') !! 0 = Some c' /\
    stx_reserve c' = 198000000 /\ tokens_sold c' = 19415571680722 /\
    accrued_fees c' = 0 /\ graduated c' = true.
Proof.
  destruct (buy_meets_quote Scenario.launched_A Scenario.wallet_2 0 200000000 0)
    as [Hsound Hrun].
  pose (c0 := Scenario.curve_A).
  assert (Hc : curves (pad Scenario.launched_A) !! 0 = Some c0)
    by (vm_compute; reflexivity).
  assert (Hg : graduated c0 = false) by reflexivity.
  assert (Hpos : 0 < 200000000) by lia.
  assert (Hres : 0 < token_reserve_of c0) by (vm_compute; reflexivity).
  assert (Hout : 0 < spec_tokens_out c0 200000000) by (vm_compute; reflexivity).
  assert (Hmin : 0 <= spec_tokens_out c0 200000000) by (vm_compute; discriminate).
  assert (Hset : buy_settles Scenario.launched_A Scenario.wallet_2 0 c0 200000000).
  { unfold buy_settles, graduation_settles.
    repeat split; try (vm_compute; discriminate); discriminate. }
  pose proof (Hrun c0 reachable_launched_A Hc Hg Hpos Hres Hout Hmin Hset) as Hcall.
  destruct (Hsound _ _ _ Hcall)
    as (c & Hc' & _ & _ & _ & Hbal & c' & Hc'' & Hr' & Hsold & Hgrad).
  rewrite Hc in Hc'. injection Hc' as <-.
  exists (buy_post Scenario.wallet_2 0 c0 200000000 Scenario.launched_A), c'.
  split; [exact Hcall|].
  split; [exact Hbal|].
  split; [exact Hc''|].
  split; [exact Hr'|].
  split; [exact Hsold|].
  exact Hgrad.
Defined.

(** C2, as stated, fails when the buy reaches the graduation threshold:
    the fee of the buy is 2000000 and [accrued-fees] is 0 afterwards. *)
Lemma buy_fee_pool_counterexample :
  exists c s' c',
    curves (pad Scenario.launched_A) !! 0 = Some c /\ graduated c = false /\
    call (Launchpad.buy Scenario.wallet_2 0 200000000 0) Scenario.launched_A
    = (Ok (19415571680722, 2000000), s') /\
    curves (pad s') !! 0 = Some c' /\
    accrued_fees c' <> accrued_fees c + 2000000.
Proof.
  do 3 eexists.
  split; [vm_compute; reflexivity|].
  split; [reflexivity|].
  split; [vm_compute; reflexivity|].
  split; [vm_compute; reflexivity|].
  vm_compute. discriminate.
Qed.

(** ** Graduation *)

Lemma later_ok s s' :
  state_ok s -> later s s' -> state_ok s' /\ pad_evolves s s'.
Proof.
  intros Hs. induction 1 as [| s' tx_sender a _ [IH1 IH2] | s' s'' _ [IH1 IH2] Henv].
  - split; auto. apply pad_evolves_same; auto.
  - destruct (step_ok tx_sender a s' IH1) as [H1 H2].
    split; auto. eapply pad_evolves_trans; eauto.
  - split; [eapply env_step_ok; eauto|].
    eapply pad_evolves_trans; [exact IH2|].
    destruct Henv. apply pad_evolves_same. reflexivity.
Qed.

Lemma graduate_again id c s :
  curves (pad s) !! id = Some (with_graduated c) ->
  graduation_stx c <= stx_reserve c ->
  call (Launchpad.graduate id) s = (Err ERR_GRADUATED, s).
Proof.
  intros Hc Hthr.
  assert (H : Launchpad.graduate id s = Err ERR_GRADUATED).
  { unfold Launchpad.graduate. unfold bind at 1.
    assert (Hi : Launchpad.graduate_internal id s = Err ERR_GRADUATED);
      [|rewrite Hi; reflexivity].
    unfold Launchpad.graduate_internal, Launchpad.map_curve.
    apply run_gets. eapply run_unwrap; [exact Hc|].
    cbn [accrued_fees with_graduated].
    apply run_umul; [unfold UINT_MAX; lia|].
    apply run_udiv; [discriminate|].
    apply run_usub; [reflexivity|].
    apply run_gets.
    apply run_asserts; [apply Z.leb_le; exact Hthr|].
    reflexivity. }
  unfold call. rewrite H. reflexivity.
Qed.

Lemma stx_balance_graduated id c s :
  creator c <> LAUNCHPAD -> protocol_fee_recipient (pad s) <> LAUNCHPAD ->
  0 <= spec_issuer_share c <= accrued_fees c ->
  stx_balance (graduated_state id c s) LAUNCHPAD
  = stx_balance s LAUNCHPAD - accrued_fees c.
Proof.
  intros Hcr Hrc Hshare. unfold graduated_state, stx_balance.
  cbn [stx set_stx set_pad]. rewrite !payout_custody by auto.
  unfold spec_protocol_share.
  destruct (Z.ltb_spec 0 (spec_issuer_share c));
    destruct (Z.ltb_spec 0 (accrued_fees c - spec_issuer_share c)); lia.
Qed.

(** C5.  On a curve whose reserve has reached the threshold and which has
    not graduated, the graduation (the public [graduate], and the same
    [graduate-internal] that [buy] runs) succeeds once: it pays
    [issuerShare = floor (accruedFees * issuerFeeShareBps / 10000)] to the
    creator and [protocolShare = accruedFees - issuerShare] to the protocol
    recipient out of the custody of the launchpad, the two shares adding up
    to the pool exactly; it leaves [accrued-fees] at 0 and [graduated] set.
    In every later state the curve record is the same, still graduated, and
    every [graduate] call returns [ERR-GRADUATED] and changes nothing. *)
Theorem graduate_once (s : chain) (id : Z) (c : curve) :
  state_ok s ->
  curves (pad s) !! id = Some c ->
  graduation_stx c <= stx_reserve c -> graduated c = false ->
  graduation_settles s c ->
  spec_issuer_share c + spec_protocol_share c = accrued_fees c /\
  Launchpad.graduate_internal id s = Ok (true, graduated_state id c s) /\
  call (Launchpad.graduate id) s = (Ok true, graduated_state id c s) /\
  stx (graduated_state id c s)
  = payout (spec_protocol_share c) (protocol_fee_recipient (pad s))
      (payout (spec_issuer_share c) (creator c) (stx s)) /\
  stx_balance (graduated_state id c s) LAUNCHPAD
  = stx_balance s LAUNCHPAD - accrued_fees c /\
  (forall s2, later (graduated_state id c s) s2 ->
     exists c2, curves (pad s2) !! id = Some c2 /\
       accrued_fees c2 = 0 /\ graduated c2 = true /\
       call (Launchpad.graduate id) s2 = (Err ERR_GRADUATED, s2)).
Proof.
  intros Hs Hc Hthr Hg Hset.
  pose proof (graduate_internal_run id c s Hc Hthr Hg Hset) as Hrun.
  destruct Hset as (Hfees & Hbps & _ & _ & Hcr & Hrc).
  pose proof (bps_share_le _ _ Hfees Hbps) as Hshare.
  split; [unfold spec_protocol_share; lia|].
  split; [exact Hrun|].
  split.
  { apply call_Ok. unfold Launchpad.graduate.
    eapply run_bind; [exact Hrun | reflexivity]. }
  split; [reflexivity|].
  split; [apply stx_balance_graduated; auto|].
  intros s2 Hl.
  assert (Hs' : state_ok (graduated_state id c s))
    by (apply state_ok_graduated; auto).
  destruct (later_ok _ _ Hs' Hl) as [_ Hev].
  destruct (Hev id (with_graduated c)) as (c2 & Hc2 & Hev2).
  { cbn. apply lookup_insert_eq. }
  assert (Heq : c2 = with_graduated c) by (apply Hev2; reflexivity).
  subst c2. exists (with_graduated c).
  repeat split; auto. apply (graduate_again id c); auto.
Qed.

Lemma graduate_once_witness :
  accrued_fees Scenario.pool_A = 2000000 /\
  spec_issuer_share Scenario.pool_A = 1600000 /\
  spec_protocol_share Scenario.pool_A = 400000 /\
  call (Launchpad.graduate 0) Scenario.trading_A
  = (Ok true, graduated_state 0 Scenario.pool_A Scenario.trading_A) /\
  call (Launchpad.graduate 0)
    (graduated_state 0 Scenario.pool_A Scenario.trading_A)
  = (Err ERR_GRADUATED, graduated_state 0 Scenario.pool_A Scenario.trading_A).
Proof.
  pose (c := Scenario.pool_A). pose (s := Scenario.trading_A).
  change Scenario.pool_A with c. change Scenario.trading_A with s.
  assert (Hs : state_ok s).
  { apply state_ok_bought.
    - apply reachable_ok, reachable_launched_A.
    - vm_compute; reflexivity.
    - vm_compute; discriminate.
    - vm_compute; reflexivity. }
  assert (Hc : curves (pad s) !! 0 = Some c) by (vm_compute; reflexivity).
  assert (Hthr : graduation_stx c <= stx_reserve c) by (vm_compute; discriminate).
  assert (Hg : graduated c = false) by reflexivity.
  assert (Hset : graduation_settles s c).
  { unfold graduation_settles.
    repeat split; try (vm_compute; discriminate); discriminate. }
  destruct (graduate_once s 0 c Hs Hc Hthr Hg Hset)
    as (_ & _ & Hcall & _ & _ & Hlater).
  split; [vm_compute; reflexivity|].
  split; [vm_compute; reflexivity|].
  split; [vm_compute; reflexivity|].
  split; [exact Hcall|].
  destruct (Hlater _ (later_now _)) as (c2 & _ & _ & _ & Hagain).
  exact Hagain.
Defined.

(** ** Prices and round trips *)

Lemma query_Ok {A} (m : M A) s a :
  query m s = Ok a -> exists s', m s = Ok (a, s').
Proof.
  unfold query, call. destruct (m s) as [[a' s']| |]; cbn; intros [= <-]. eauto.
Qed.

Lemma get_price_inv id p s :
  query (Launchpad.get_price id) s = Ok p ->
  exists c, curves (pad s) !! id = Some c /\ p = spec_price c.
Proof.
  intros H. apply query_Ok in H as (s' & H).
  unfold Launchpad.get_price, Launchpad.map_curve in H.
  do 3 inv_bind H. subst.
  match goal with
  | Hc : curves _ !! _ = Some ?c |- _ => exists c; split; [exact Hc|];
      unfold spec_price, token_reserve_of;
      destruct (total_supply c - tokens_sold c =? 0); inv_M H; subst; reflexivity
  end.
Qed.

Lemma price_le (a a' b b' : Z) :
  0 <= a <= a' -> 0 < b' <= b ->
  a * PRICE_SCALE / b <= a' * PRICE_SCALE / b'.
Proof.
  intros Ha Hb. unfold PRICE_SCALE.
  transitivity (a * 1000000000000 / b').
  - apply Z.div_le_compat_l; lia.
  - apply Z.div_le_mono; lia.
Qed.

Lemma spec_price_buy c amount :
  curve_ok c -> spec_buy_fee c amount <= amount ->
  0 < spec_tokens_out c amount ->
  token_reserve_of (bought_curve c amount) <> 0 ->
  spec_price c <= spec_price (bought_curve c amount).
Proof.
  intros Hok Hfee Hout Hne.
  pose proof (bought_curve_ok c amount Hok Hfee Hout) as (_ & _ & _ & _ & Hsold' & _).
  destruct Hok as (Hv & _ & _ & Hr & Hsold & _).
  unfold spec_price.
  assert (Htr : token_reserve_of (bought_curve c amount)
                = token_reserve_of c - spec_tokens_out c amount)
    by (unfold token_reserve_of; cbn; lia).
  assert (Hpos : 0 < token_reserve_of (bought_curve c amount))
    by (unfold token_reserve_of in *; lia).
  destruct (Z.eqb_spec (token_reserve_of (bought_curve c amount)) 0); [lia|].
  destruct (Z.eqb_spec (token_reserve_of c) 0); [lia|].
  apply price_le; [|lia].
  cbn. unfold spec_new_real_reserve, spec_net_in. lia.
Qed.

Lemma spec_price_sell c amount :
  curve_ok c -> 0 < amount ->
  0 <= spec_sell_reserve c amount <= stx_reserve c ->
  token_reserve_of c <> 0 ->
  spec_price (sold_curve c amount) <= spec_price c.
Proof.
  intros (Hv & _ & _ & Hr & Hsold & _) Hpos Hres Hne.
  unfold spec_price.
  assert (Htr : token_reserve_of (sold_curve c amount)
                = token_reserve_of c + amount)
    by (unfold token_reserve_of; cbn; lia).
  assert (Hp : 0 < token_reserve_of c) by (unfold token_reserve_of in *; lia).
  destruct (Z.eqb_spec (token_reserve_of (sold_curve c amount)) 0); [lia|].
  destruct (Z.eqb_spec (token_reserve_of c) 0); [lia|].
  apply price_le; [|lia].
  cbn. lia.
Qed.

Lemma spec_price_graduated c : spec_price (with_graduated c) = spec_price c.
Proof. reflexivity. Qed.

(** C6, as the code has it.  On a reachable state, [price()] does not go
    down across a successful buy that leaves tokens in the reserve, and
    does not go up across a successful sell made while the reserve held
    tokens.  With an empty token reserve [price()] is 0 by definition, so
    a buy that takes the last token lowers it and the sell that follows
    raises it. *)
Theorem price_monotone (s : chain) :
  reachable s ->
  (forall buyer id amount min_out r s' p p',
     call (Launchpad.buy buyer id amount min_out) s = (Ok r, s') ->
     query (Launchpad.get_price id) s = Ok p ->
     query (Launchpad.get_price id) s' = Ok p' ->
     (forall c', curves (pad s') !! id = Some c' -> token_reserve_of c' <> 0) ->
     p <= p') /\
  (forall seller id amount min_out r s' p p',
     call (Launchpad.sell seller id amount min_out) s = (Ok r, s') ->
     query (Launchpad.get_price id) s = Ok p ->
     query (Launchpad.get_price id) s' = Ok p' ->
     (forall c, curves (pad s) !! id = Some c -> token_reserve_of c <> 0) ->
     p' <= p).
Proof.
  intros Hr. apply reachable_ok in Hr. destruct Hr as (_ & Hok & _). split.
  - intros buyer id amount min_out [t f] s' p p' Hbuy Hp Hp' Hne.
    apply call_Ok in Hbuy.
    pose proof (buy_effect _ _ _ _ _ _ _ _ Hbuy)
      as (c0 & Hc0 & _ & _ & _ & _ & Hfee & _ & _ & Hout & _).
    apply buy_effect_post in Hbuy as (c & Hc & _ & _ & _ & ->).
    rewrite Hc0 in Hc. injection Hc as <-.
    apply get_price_inv in Hp as (c1 & Hc1 & ->).
    apply get_price_inv in Hp' as (c2 & Hc2 & ->).
    rewrite Hc0 in Hc1. injection Hc1 as <-.
    specialize (Hne _ Hc2).
    rewrite buy_post_curve in Hc2. injection Hc2 as <-.
    destruct (graduation_stx c0 <=? spec_new_real_reserve c0 amount);
      rewrite ?spec_price_graduated; apply spec_price_buy; eauto.
  - intros seller id amount min_out [out f] s' p p' Hsell Hp Hp' Hne.
    apply call_Ok in Hsell.
    apply sell_effect in Hsell
      as (c & bal & Hc & _ & _ & Hpos & _ & _ & _ & _ & _ & Hres & _ & _ & _ & ->).
    apply get_price_inv in Hp as (c1 & Hc1 & ->).
    apply get_price_inv in Hp' as (c2 & Hc2 & ->).
    rewrite Hc in Hc1. injection Hc1 as <-.
    cbn in Hc2. rewrite lookup_insert_eq in Hc2. injection Hc2 as <-.
    apply spec_price_sell; eauto.
Qed.

Lemma price_monotone_witness :
  exists p p',
    query (Launchpad.get_price 0) Scenario.launched = Ok p /\
    query (Launchpad.get_price 0) Scenario.bought = Ok p' /\
    p = 10000000 /\ p' = 10198980 /\ p <= p'.
Proof.
  destruct (price_monotone Scenario.launched reachable_launched) as [Hbuy _].
  do 2 eexists.
  split; [vm_compute; reflexivity|].
  split; [vm_compute; reflexivity|].
  split; [reflexivity|]. split; [reflexivity|].
  apply (Hbuy Scenario.wallet_2 0 100000000 0 (9802950787207, 1000000) Scenario.bought).
  - vm_compute; reflexivity.
  - vm_compute; reflexivity.
  - vm_compute; reflexivity.
  - intros c' Hc'. vm_compute in Hc'. injection Hc' as <-. vm_compute. discriminate.
Defined.

(** C6, as stated, fails at an exhausted token reserve: on a curve with a
    total supply of 1, buying the token takes [price()] from 10^22 to 0,
    and selling it back takes [price()] from 0 to 10^22. *)
Lemma price_counterexample :
  exists s2,
    query (Launchpad.get_price 0) Scenario.launched_single
    = Ok 10000000000000000000000 /\
    call (Launchpad.buy Scenario.wallet_2 0 100 0) Scenario.launched_single
    = (Ok (1, 1), Scenario.depleted) /\
    query (Launchpad.get_price 0) Scenario.depleted = Ok 0 /\
    call (Launchpad.sell Scenario.wallet_2 0 1 0) Scenario.depleted
    = (Ok (99, 0), s2) /\
    query (Launchpad.get_price 0) s2 = Ok 10000000000000000000000.
Proof.
  eexists.
  split; [vm_compute; reflexivity|].
  split; [vm_compute; reflexivity|].
  split; [vm_compute; reflexivity|].
  split; [vm_compute; reflexivity|].
  vm_compute; reflexivity.
Qed.

(** C7, as the code has it.  On a reachable state, a buy followed at once
    by the sale of the tokens it gave returns at most the amount paid minus
    the two fees charged, and strictly less than the amount paid whenever
    one of the two fees is not zero.  The fees are floored, so at a fee
    rate that is not zero a small trade pays no fee and can return the
    whole amount. *)
Theorem round_trip_bound (s : chain) :
  reachable s ->
  forall trader id amount min_tokens t f1 s1 min_stx out f2 s2,
    call (Launchpad.buy trader id amount min_tokens) s = (Ok (t, f1), s1) ->
    call (Launchpad.sell trader id t min_stx) s1 = (Ok (out, f2), s2) ->
    out <= amount - f1 - f2 /\ (0 < f1 + f2 -> out < amount).
Proof.
  intros Hr trader id amount min_tokens t f1 s1 min_stx out f2 s2 Hbuy Hsell.
  apply reachable_ok in Hr. destruct Hr as (_ & Hok & _).
  apply call_Ok in Hbuy, Hsell.
  pose proof (buy_effect _ _ _ _ _ _ _ _ Hbuy)
    as (c0 & Hc0 & _ & _ & _ & _ & Hfee & _ & _ & Hout & _).
  apply buy_effect_post in Hbuy as (c & Hc & _ & -> & -> & ->).
  rewrite Hc0 in Hc. injection Hc as <-.
  apply sell_effect in Hsell
    as (c1 & bal & Hc1 & _ & Hg1 & _ & _ & -> & -> & _ & _ & _ & _ & _ & _ & _).
  rewrite buy_post_curve in Hc1. injection Hc1 as <-.
  destruct (graduation_stx c0 <=? spec_new_real_reserve c0 amount);
    [discriminate Hg1|].
  destruct (Hok _ _ Hc0) as (Hv & _ & _ & Hres & Hsold & Hprod & _).
  assert (Htr : token_reserve_of (bought_curve c0 amount) + spec_tokens_out c0 amount
                = token_reserve_of c0)
    by (unfold token_reserve_of; cbn; lia).
  assert (Hq : virtual_stx c0 + stx_reserve c0 <= k c0 / token_reserve_of c0).
  { apply Z.div_le_lower_bound.
    - unfold spec_tokens_out in Hout.
      pose proof (spec_new_token_reserve_nonneg c0 amount (Hok _ _ Hc0)) as Hn.
      unfold spec_net_in in Hn. lia.
    - lia. }
  unfold spec_amount_out, spec_gross, spec_sell_reserve.
  rewrite Htr. cbn [virtual_stx stx_reserve k fee_bps bought_curve with_trade].
  unfold spec_new_real_reserve, spec_net_in.
  set (f2 := spec_sell_fee (bought_curve c0 amount) (spec_tokens_out c0 amount)).
  lia.
Qed.

Lemma round_trip_bound_witness :
  exists s1 s2,
    call (Launchpad.buy Scenario.wallet_2 0 100000000 0) Scenario.launched
    = (Ok (9802950787207, 1000000), s1) /\
    call (Launchpad.sell Scenario.wallet_2 0 9802950787207 0) s1
    = (Ok (98010000, 990000), s2) /\
    98010000 <= 100000000 - 1000000 - 990000.
Proof.
  do 2 eexists.
  split; [vm_compute; reflexivity|].
  split; [vm_compute; reflexivity|].
  eapply (round_trip_bound Scenario.launched reachable_launched
            Scenario.wallet_2 0 100000000 0 9802950787207 1000000 _
            0 98010000 990000 _).
  - vm_compute; reflexivity.
  - vm_compute; reflexivity.
Defined.

(** C7, as stated, fails for a small trade: at the default fee rate of 100
    basis points, buying for 50 and selling the 5000000 tokens received
    returns the 50 paid. *)
Lemma round_trip_counterexample :
  exists c s1 s2,
    curves (pad Scenario.launched) !! 0 = Some c /\ fee_bps c = 100 /\
    call (Launchpad.buy Scenario.wallet_2 0 50 0) Scenario.launched
    = (Ok (5000000, 0), s1) /\
    call (Launchpad.sell Scenario.wallet_2 0 5000000 0) s1 = (Ok (50, 0), s2) /\
    ~ 50 < 50.
Proof.
  do 3 eexists.
  split; [vm_compute; reflexivity|].
  split; [reflexivity|].
  split; [vm_compute; reflexivity|].
  split; [vm_compute; reflexivity|].
  lia.
Qed.

(** ** Scenario A *)

(** C8.  On a fresh curve with [total-supply = 10^15], [virtual-stx = 10^10],
    a fee of 100 basis points, a creator share of 8000 basis points and a
    graduation threshold of 100000000, a buy of 200000000 by a funded buyer
    succeeds with a fee of 2000000 and graduates the curve within the same
    call: [accrued-fees] is 0 and [graduated] is set afterwards, the creator
    is paid 1600000 and the protocol recipient 400000 out of the custody of
    the launchpad. *)
Theorem scenario_A (s : chain) (buyer : principal) (id min_out : Z) (c : curve) :
  curves (pad s) !! id = Some c ->
  total_supply c = 1000000000000000 -> virtual_stx c = 10000000000 ->
  k c = virtual_stx c * total_supply c ->
  fee_bps c = 100 -> creator_share_bps c = 8000 ->
  graduation_stx c = 100000000 ->
  stx_reserve c = 0 -> tokens_sold c = 0 -> accrued_fees c = 0 ->
  graduated c = false ->
  balances (pad s) !! (id, buyer) = None ->
  min_out <= 19415571680722 ->
  buyer <> LAUNCHPAD -> 200000000 <= stx_balance s buyer ->
  0 <= stx_balance s LAUNCHPAD ->
  creator c <> LAUNCHPAD -> protocol_fee_recipient (pad s) <> LAUNCHPAD ->
  exists s' c',
    call (Launchpad.buy buyer id 200000000 min_out) s
    = (Ok (19415571680722, 2000000), s') /\
    curves (pad s') !! id = Some c' /\
    stx_reserve c' = 198000000 /\ tokens_sold c' = 19415571680722 /\
    accrued_fees c' = 0 /\ graduated c' = true /\
    balances (pad s') !! (id, buyer) = Some 19415571680722 /\
    stx s' = payout 400000 (protocol_fee_recipient (pad s))
               (payout 1600000 (creator c)
                  (ledger_move buyer LAUNCHPAD 200000000 (stx s))).
Proof.
  intros Hc Hts Hv Hk Hfb Hcs Hgs Hres Hsold Hfees Hg Hbal Hmin
    Hself Hfund Hcust Hcr Hrc.
  destruct c as [cr nm sy ts vs kk rs sold gs fb fees gr at_ csb].
  cbn in Hts, Hv, Hk, Hfb, Hcs, Hgs, Hres, Hsold, Hfees, Hg, Hcr. subst.
  set (c := {| creator := cr; name := nm; symbol := sy;
               total_supply := 1000000000000000; virtual_stx := 10000000000;
               k := 10000000000 * 1000000000000000; stx_reserve := 0;
               tokens_sold := 0; graduation_stx := 100000000; fee_bps := 100;
               accrued_fees := 0; graduated := false; created_at := at_;
               creator_share_bps := 8000 |}) in *.
  assert (Hok : curve_ok c).
  { unfold curve_ok, constant_product.
    repeat split; try (vm_compute; discriminate); try (vm_compute; reflexivity).
    left. vm_compute; reflexivity. }
  assert (Hout : spec_tokens_out c 200000000 = 19415571680722)
    by (vm_compute; reflexivity).
  assert (Hfee : spec_buy_fee c 200000000 = 2000000)
    by (vm_compute; reflexivity).
  assert (Hnew : spec_new_real_reserve c 200000000 = 198000000)
    by (vm_compute; reflexivity).
  assert (Hset : buy_settles s buyer id c 200000000).
  { unfold buy_settles. rewrite Hout, Hfee, Hnew, Hbal.
    split; [vm_compute; split; discriminate|].
    split; [vm_compute; discriminate|].
    split; [vm_compute; discriminate|].
    split; [vm_compute; discriminate|].
    split; [vm_compute; discriminate|].
    split; [vm_compute; discriminate|].
    split; [exact Hself|]. split; [exact Hfund|].
    intros _. unfold graduation_settles.
    change (accrued_fees (bought_curve c 200000000)) with 2000000.
    change (creator_share_bps (bought_curve c 200000000)) with 8000.
    change (creator (bought_curve c 200000000)) with cr.
    split; [lia|]. split; [lia|].
    split; [vm_compute; discriminate|].
    split; [|split; [exact Hcr | exact Hrc]].
    unfold stx_balance, bought_state. cbn [stx set_stx set_pad].
    unfold ledger_move. rewrite lookup_insert_eq. cbn [default].
    unfold stx_balance in Hcust. unfold Datatypes.id in *. lia. }
  assert (Hrun : Launchpad.buy buyer id 200000000 min_out s
                 = Ok ((spec_tokens_out c 200000000, spec_buy_fee c 200000000),
                       buy_post buyer id c 200000000 s)).
  { apply buy_run; auto; try lia; rewrite Hout; lia. }
  rewrite Hout, Hfee in Hrun.
  exists (buy_post buyer id c 200000000 s), (with_graduated (bought_curve c 200000000)).
  split; [apply call_Ok; exact Hrun|].
  split; [rewrite buy_post_curve; vm_compute; reflexivity|].
  split; [vm_compute; reflexivity|]. split; [vm_compute; reflexivity|].
  split; [reflexivity|]. split; [reflexivity|].
  split; [rewrite buy_post_balance, Hbal, Hout; reflexivity|].
  unfold buy_post. rewrite Hnew. cbn [graduation_stx c Z.leb Z.compare Pos.compare].
  reflexivity.
Qed.

Lemma scenario_A_witness :
  exists s' c',
    call (Launchpad.buy Scenario.wallet_2 0 200000000 0) Scenario.launched_A
    = (Ok (19415571680722, 2000000), s') /\
    curves (pad s') !! 0 = Some c' /\
    accrued_fees c' = 0 /\ graduated c' = true /\
    stx_balance s' Scenario.wallet_1 = 100000000000000 + 1600000 /\
    stx_balance s' Scenario.deployer = 100000000000000 + 400000 /\
    stx_balance s' LAUNCHPAD = 198000000.
Proof.
  pose (c0 := Scenario.curve_A).
  assert (Hc : curves (pad Scenario.launched_A) !! 0 = Some c0)
    by (vm_compute; reflexivity).
  assert (Hk : k c0 = virtual_stx c0 * total_supply c0) by (vm_compute; reflexivity).
  assert (Hbal : balances (pad Scenario.launched_A) !! (0, Scenario.wallet_2) = None)
    by (vm_compute; reflexivity).
  assert (Hmin : 0 <= 19415571680722) by lia.
  assert (Hself : Scenario.wallet_2 <> LAUNCHPAD) by discriminate.
  assert (Hfund : 200000000 <= stx_balance Scenario.launched_A Scenario.wallet_2)
    by (vm_compute; discriminate).
  assert (Hcust : 0 <= stx_balance Scenario.launched_A LAUNCHPAD)
    by (vm_compute; discriminate).
  assert (Hcr : creator c0 <> LAUNCHPAD) by discriminate.
  assert (Hrc : protocol_fee_recipient (pad Scenario.launched_A) <> LAUNCHPAD)
    by (vm_compute; discriminate).
  destruct (scenario_A Scenario.launched_A Scenario.wallet_2 0 0 c0 Hc
              eq_refl eq_refl Hk eq_refl eq_refl eq_refl eq_refl eq_refl eq_refl
              eq_refl Hbal Hmin Hself Hfund Hcust Hcr Hrc)
    as (s' & c' & Hcall & Hc' & _ & _ & Hfees & Hgrad & _ & Hstx).
  exists s', c'.
  split; [exact Hcall|]. split; [exact Hc'|].
  split; [exact Hfees|]. split; [exact Hgrad|].
  unfold stx_balance. rewrite Hstx.
  split; [vm_compute; reflexivity|].
  split; [vm_compute; reflexivity|].
  vm_compute; reflexivity.
Defined.

(** ** Runtime errors *)

(** C9, at a failing input.  After the launch of a default curve and a buy
    of 100000000 that credits 9802950787207 tokens, the holder asks to sell
    one token more than were ever sold: the subtraction
    [(- (/ k new-token-reserve) virtual-stx)] of the [let] underflows, and
    the call ends in a runtime error instead of [ERR-INSUFFICIENT-BALANCE].
    After a sell, a buy of amount 0 and the quote of amount 0 end the same
    way instead of [ERR-ZERO-AMOUNT], although the same buy on the fresh
    curve is answered with [ERR-ZERO-AMOUNT]. *)
Theorem quote_arithmetic_aborts :
  reachable Scenario.bought /\
  balances (pad Scenario.bought) !! (0, Scenario.wallet_2) = Some 9802950787207 /\
  call (Launchpad.sell Scenario.wallet_2 0 9802950787208 0) Scenario.bought
  = (Abort ArithmeticUnderflow, Scenario.bought) /\
  reachable Scenario.resold /\
  balances (pad Scenario.resold) !! (0, Scenario.wallet_2) = Some 4802950787207 /\
  call (Launchpad.buy Scenario.wallet_2 0 0 0) Scenario.resold
  = (Abort ArithmeticUnderflow, Scenario.resold) /\
  query (Launchpad.get_buy_quote 0 0) Scenario.resold = Abort ArithmeticUnderflow /\
  call (Launchpad.buy Scenario.wallet_2 0 0 0) Scenario.launched
  = (Err ERR_ZERO_AMOUNT, Scenario.launched).
Proof.
  split; [apply reachable_bought|].
  split; [vm_compute; reflexivity|].
  split; [vm_compute; reflexivity|].
  split; [apply reach_call; [apply reachable_bought | uint_range]|].
  split; [vm_compute; reflexivity|].
  split; [vm_compute; reflexivity|].
  split; vm_compute; reflexivity.
Qed.

(** Whatever a call returns, a state is changed only by a call that
    returns [(ok v)]: this is the rollback of the VM. *)
Lemma failed_call_keeps_state {A} (m : M A) (s : chain) :
  (forall a, fst (call m s) <> Ok a) -> snd (call m s) = s.
Proof.
  unfold call. destruct (m s) as [[a s']| |]; cbn; intros H; auto.
  destruct (H a). reflexivity.
Qed.

(** ** The manual trigger never fires *)

Lemma below_threshold_same s s' :
  curves (pad s') = curves (pad s) ->
  default_graduation_stx (pad s') = default_graduation_stx (pad s) ->
  below_threshold s -> below_threshold s'.
Proof. intros Hc Hd [H1 H2]. unfold below_threshold. rewrite Hc, Hd. auto. Qed.

Lemma below_threshold_update id c' s s' :
  curves (pad s') = <[id := c']> (curves (pad s)) ->
  default_graduation_stx (pad s') = default_graduation_stx (pad s) ->
  (graduated c' = false -> stx_reserve c' < graduation_stx c') ->
  below_threshold s -> below_threshold s'.
Proof.
  intros Hc Hd Hnew [H1 H2]. unfold below_threshold. rewrite Hc, Hd.
  split; auto. intros j cj. destruct (decide (id = j)) as [<-|Hne].
  - rewrite lookup_insert_eq. intros [= <-]. auto.
  - rewrite lookup_insert_ne by auto. eauto.
Qed.

Lemma buy_below_threshold buyer id amount min_out r s s' :
  Launchpad.buy buyer id amount min_out s = Ok (r, s') ->
  below_threshold s -> below_threshold s'.
Proof.
  destruct r as [t f]. intros H Hs.
  apply buy_effect_post in H as (c & Hc & Hg & _ & _ & ->).
  apply (below_threshold_update id
           (if graduation_stx c <=? spec_new_real_reserve c amount
            then with_graduated (bought_curve c amount)
            else bought_curve c amount) s); auto.
  - unfold buy_post.
    destruct (graduation_stx c <=? spec_new_real_reserve c amount); cbn;
      rewrite ?insert_insert_eq; reflexivity.
  - unfold buy_post.
    destruct (graduation_stx c <=? spec_new_real_reserve c amount); reflexivity.
  - destruct (Z.leb_spec (graduation_stx c) (spec_new_real_reserve c amount));
      cbn; [discriminate | auto].
Qed.

Lemma step_below_threshold tx_sender a s :
  below_threshold s -> below_threshold (step tx_sender a s).
Proof.
  intros Hs.
  destruct (step_cases tx_sender a s) as [->|H]; auto.
  revert H. generalize (step tx_sender a s). intros s' H.
  destruct a; cbn in H; unfold void in H; inv_bind H; inv_head H.
  - unfold Registry.register_agent in *. inv_M E.
    eapply below_threshold_same; eauto; reflexivity.
  - apply launch_effect in E as (_ & _ & _ & _ & _ & _ & ->).
    eapply below_threshold_update; eauto; try reflexivity.
    cbn. intros _. apply Hs.
  - eapply buy_below_threshold; eauto.
  - destruct v as [out f].
    apply sell_effect in E
      as (c & bal & Hc & _ & Hg & _ & _ & _ & _ & _ & _ & [_ Hres] & _ & _ & _ & ->).
    eapply below_threshold_update; eauto; try reflexivity.
    cbn. intros _. destruct Hs as [_ H2]. specialize (H2 _ _ Hc Hg). lia.
  - apply transfer_effect in E as (bal & _ & _ & _ & _ & _ & ->).
    eapply below_threshold_same; eauto; reflexivity.
  - apply graduate_effect in E as (c & Hc & _ & Hg & ->).
    eapply below_threshold_update; eauto; try reflexivity.
    cbn. discriminate.
  - unfold Launchpad.set_defaults in *. inv_M E. reflect_tests.
    destruct Hs as [_ H2]. split; auto.
  - unfold Launchpad.set_protocol_fee_recipient in *. inv_M E.
    eapply below_threshold_same; eauto; reflexivity.
  - unfold Launchpad.transfer_admin in *. inv_M E.
    eapply below_threshold_same; eauto; reflexivity.
  - unfold Launchpad.accept_admin in *. inv_M E.
    eapply below_threshold_same; eauto; reflexivity.
  - destruct v as [t f].
    apply pay_via_curve_effect in E as (_ & _ & s1 & Hbuy & ->).
    apply (below_threshold_same s1); try reflexivity.
    eapply buy_below_threshold; eauto.
  - unfold Router.transfer_admin in *. inv_M E.
    eapply below_threshold_same; eauto; reflexivity.
  - unfold Router.accept_admin in *. inv_M E.
    eapply below_threshold_same; eauto; reflexivity.
Qed.

Lemma reachable_below_threshold s : reachable s -> below_threshold s.
Proof.
  induction 1 as [| s tx_sender a _ IH _ | s s' _ IH Henv].
  - split; [reflexivity|]. intros id c. cbn. rewrite lookup_empty. discriminate.
  - apply step_below_threshold; auto.
  - destruct Henv. eapply below_threshold_same; eauto; reflexivity.
Qed.

(** On a reachable state the public [graduate] never succeeds: the only
    graduation a curve sees is the one its last buy runs. *)
Lemma manual_graduate_never_succeeds s id b s' :
  reachable s -> call (Launchpad.graduate id) s <> (Ok b, s').
Proof.
  intros Hr H. apply call_Ok in H.
  apply graduate_effect in H as (c & Hc & Hthr & Hg & _).
  destruct (reachable_below_threshold s Hr) as [_ H2].
  specialize (H2 _ _ Hc Hg). lia.
Qed.

(** ** Reasoning about the errors of monadic code *)

Section Errors.
Context {A B : Type}.

Lemma bind_err_inv (m : M A) (f : A -> M B) s code :
  bind m f s = Err code ->
  m s = Err code \/ exists a s1, m s = Ok (a, s1) /\ f a s1 = Err code.
Proof.
  unfold bind. destruct (m s) as [[a s1]| |]; intros H.
  - right. eauto.
  - left. congruence.
  - discriminate.
Qed.

Lemma ret_err (a : A) s code : ret a s = Err code -> False.
Proof. discriminate. Qed.

Lemma gets_err (h : chain -> A) s code : gets h s = Err code -> False.
Proof. discriminate. Qed.

Lemma unwrap_err (o : option A) c s code :
  unwrap o c s = Err code -> o = None /\ code = c.
Proof. destruct o; cbn; [discriminate|]. intros [= <-]. auto. Qed.
End Errors.

Lemma modify_err h s code : modify h s = Err code -> False.
Proof. discriminate. Qed.

Lemma asserts_err b c s code :
  asserts b c s = Err code -> b = false /\ code = c.
Proof. destruct b; cbn; [discriminate|]. intros [= <-]. auto. Qed.

Lemma uadd_err a b s code : uadd a b s = Err code -> False.
Proof. unfold uadd. destruct (a + b <=? UINT_MAX); discriminate. Qed.

Lemma usub_err a b s code : usub a b s = Err code -> False.
Proof. unfold usub. destruct (b <=? a); discriminate. Qed.

Lemma umul_err a b s code : umul a b s = Err code -> False.
Proof. unfold umul. destruct (a * b <=? UINT_MAX); discriminate. Qed.

Lemma udiv_err a b s code : udiv a b s = Err code -> False.
Proof. unfold udiv. destruct (b =? 0); discriminate. Qed.

Lemma stx_transfer_err tx_sender amount sender recipient s code :
  stx_transfer tx_sender amount sender recipient s = Err code ->
  (code = 3 /\ amount = 0) \/ (code = 2 /\ sender = recipient) \/
  (code = 4 /\ sender <> tx_sender) \/
  (code = 1 /\ stx_balance s sender < amount).
Proof.
  unfold stx_transfer. intros H.
  apply bind_err_inv in H as [H|(? & ? & H1 & H)].
  { apply asserts_err in H as [H ->]. left. split; auto.
    apply negb_false_iff, Z.eqb_eq in H. auto. }
  apply asserts_inv in H1 as [_ ->].
  apply bind_err_inv in H as [H|(? & ? & H1 & H)].
  { apply asserts_err in H as [H ->]. right. left. split; auto.
    apply negb_false_iff, String.eqb_eq in H. auto. }
  apply asserts_inv in H1 as [_ ->].
  apply bind_err_inv in H as [H|(? & ? & H1 & H)].
  { apply asserts_err in H as [H ->]. right. right. left. split; auto.
    apply String.eqb_neq in H. auto. }
  apply asserts_inv in H1 as [_ ->].
  apply bind_err_inv in H as [H|(? & ? & H1 & H)]; [discriminate|].
  apply gets_inv in H1 as [-> ->].
  apply bind_err_inv in H as [H|(? & ? & H1 & H)].
  { apply asserts_err in H as [H ->]. right. right. right. split; auto.
    apply Z.leb_gt in H. auto. }
  apply asserts_inv in H1 as [_ ->].
  apply bind_err_inv in H as [H|(? & ? & H1 & H)]; discriminate.
Qed.

(** One step through a [bind] of a computation that returned an error:
    either the first computation returned it, and a primitive is inverted,
    or it succeeded and the error is in the rest. *)
Ltac err_head H :=
  first
    [ apply asserts_err in H; destruct H as [H ->]
    | apply unwrap_err in H; destruct H as [H ->]
    | solve [ discriminate H ]
    | solve [ apply uadd_err in H; destruct H ]
    | solve [ apply usub_err in H; destruct H ]
    | solve [ apply umul_err in H; destruct H ]
    | solve [ apply udiv_err in H; destruct H ]
    | idtac ].

Ltac inv_err H :=
  let a := fresh "v" in
  let s1 := fresh "s" in
  let H1 := fresh "E" in
  apply bind_err_inv in H;
  destruct H as [H|(a & s1 & H1 & H)]; [err_head H | inv_head H1].

Ltac payout_err H :=
  match type of H with
  | (if 0 <? ?x then _ else _) _ = Err _ =>
      destruct (Z.ltb_spec 0 x); [|discriminate H];
      apply stx_transfer_err in H as [[-> ?]|[[-> ?]|[[-> ?]|[-> ?]]]];
      [lia | auto | congruence | auto]
  end.

Lemma graduate_internal_errors id c s code :
  curves (pad s) !! id = Some c ->
  graduation_stx c <= stx_reserve c -> graduated c = false ->
  Launchpad.graduate_internal id s = Err code -> code = 1 \/ code = 2.
Proof.
  intros Hc Hthr Hg H.
  unfold Launchpad.graduate_internal, Launchpad.map_curve, Launchpad.put_curve,
    Launchpad.pay_from_contract in H.
  inv_err H. rewrite Hc in H. inv_err H; [discriminate|]. simplify_eq.
  inv_err H. inv_err H. inv_err H. inv_err H.
  inv_err H; [apply Z.leb_gt in H; lia|].
  inv_err H; [rewrite Hg in H; discriminate|].
  inv_err H.
  { payout_err H. }
  inv_err H.
  { payout_err H. }
  inv_err H. discriminate.
Qed.

Ltac reflect_failed :=
  repeat match goal with
  | H : negb _ = false |- _ => apply negb_false_iff in H
  | H : (_ <? _) = false |- _ => apply Z.ltb_ge in H
  | H : (_ <=? _) = false |- _ => apply Z.leb_gt in H
  | H : String.eqb _ _ = false |- _ => apply String.eqb_neq in H
  | H : bool_decide _ = false |- _ => apply bool_decide_eq_false in H
  end.

Lemma buy_errors buyer id amount min_out s code :
  Launchpad.buy buyer id amount min_out s = Err code ->
  (code = ERR_CURVE_NOT_FOUND /\ curves (pad s) !! id = None) \/
  exists c, curves (pad s) !! id = Some c /\
    ((code = ERR_GRADUATED /\ graduated c = true) \/
     (code = ERR_ZERO_AMOUNT /\ amount <= 0) \/
     (code = ERR_SOLD_OUT /\ token_reserve_of c <= 0) \/
     (code = ERR_OVERFLOW /\ spec_tokens_out c amount <= 0) \/
     (code = ERR_SLIPPAGE /\ spec_tokens_out c amount < min_out) \/
     ((code = 1 \/ code = 2) /\ graduated c = false /\ 0 < amount /\
      0 < spec_tokens_out c amount /\ min_out <= spec_tokens_out c amount)).
Proof.
  unfold Launchpad.buy, Launchpad.map_curve, Launchpad.map_balance,
    Launchpad.put_curve, Launchpad.put_balance.
  intros H. inv_err H. inv_err H; [left; auto|].
  right. eexists. split; [eassumption|].
  do 9 inv_err H. subst.
  change BPS_DENOM with 10000 in *.
  match goal with
  | Hc : curves _ !! _ = Some ?c |- _ =>
      fold (spec_buy_fee c amount) in *; fold (spec_net_in c amount) in *;
      fold (spec_new_real_reserve c amount) in *;
      fold (spec_new_token_reserve c amount) in *;
      fold (token_reserve_of c) in *; fold (spec_tokens_out c amount) in *
  end.
  inv_err H; [reflect_failed; auto|].
  inv_err H; [reflect_failed; auto 10|].
  inv_err H; [reflect_failed; auto 10|].
  inv_err H; [reflect_failed; auto 10|].
  inv_err H; [reflect_failed; auto 10|].
  reflect_tests.
  do 5 right. split; [|auto].
  inv_err H.
  { apply stx_transfer_err in H as [[-> ?]|[[-> ?]|[[-> ?]|[-> ?]]]];
      auto; lia || congruence. }
  do 5 inv_err H.
  inv_err H; [|discriminate H].
  match type of H with
  | (if ?b then _ else _) _ = _ => destruct b eqn:Hthr; [|discriminate H]
  end.
  reflect_tests.
  match goal with
  | Hc : curves _ !! _ = Some ?c |- _ =>
      apply (graduate_internal_errors id (bought_curve c amount)) in H; auto;
        cbn; auto; apply lookup_insert_eq
  end.
Qed.

Lemma sell_errors seller id amount min_out s code :
  Launchpad.sell seller id amount min_out s = Err code ->
  (code = ERR_CURVE_NOT_FOUND /\ curves (pad s) !! id = None) \/
  exists c, curves (pad s) !! id = Some c /\
    ((code = ERR_INSUFFICIENT_BALANCE /\ balances (pad s) !! (id, seller) = None) \/
     exists bal, balances (pad s) !! (id, seller) = Some bal /\
       ((code = ERR_GRADUATED /\ graduated c = true) \/
        (code = ERR_ZERO_AMOUNT /\ amount <= 0) \/
        (code = ERR_INSUFFICIENT_BALANCE /\ bal < amount) \/
        (code = ERR_OVERFLOW /\ spec_amount_out c amount <= 0) \/
        (code = ERR_SLIPPAGE /\ spec_amount_out c amount < min_out) \/
        (code = 1 /\ stx_balance s LAUNCHPAD < spec_amount_out c amount) \/
        (code = 2 /\ seller = LAUNCHPAD))).
Proof.
  unfold Launchpad.sell, Launchpad.map_curve, Launchpad.map_balance,
    Launchpad.put_curve, Launchpad.put_balance, Launchpad.pay_from_contract.
  intros H. inv_err H. inv_err H; [left; auto|].
  right. eexists. split; [eassumption|].
  inv_err H. inv_err H; [left; auto|].
  right. eexists. split; [eassumption|].
  do 8 inv_err H. subst.
  change BPS_DENOM with 10000 in *.
  match goal with
  | Hc : curves _ !! _ = Some ?c |- _ =>
      fold (token_reserve_of c) in *;
      fold (spec_sell_reserve c amount) in *; fold (spec_gross c amount) in *;
      fold (spec_sell_fee c amount) in *; fold (spec_amount_out c amount) in *
  end.
  inv_err H; [reflect_failed; auto|].
  inv_err H; [reflect_failed; auto 10|].
  inv_err H; [reflect_failed; auto 10|].
  inv_err H; [reflect_failed; auto 10|].
  inv_err H; [reflect_failed; auto 10|].
  reflect_tests.
  inv_err H.
  { apply stx_transfer_err in H as [[-> ?]|[[-> ?]|[[-> ?]|[-> ?]]]];
      auto 10; lia || congruence. }
  do 5 inv_err H. discriminate H.
Qed.

Lemma pay_via_curve_errors payer id amount nonce min_out s code :
  Router.pay_via_curve payer id amount nonce min_out s = Err code ->
  (code = Router.ERR_NONCE_USED /\ is_Some (receipts (rtr s) !! nonce)) \/
  (code = Router.ERR_ZERO_AMOUNT /\ receipts (rtr s) !! nonce = None /\ amount <= 0) \/
  (receipts (rtr s) !! nonce = None /\ 0 < amount /\
   Launchpad.buy payer id amount min_out s = Err code).
Proof.
  unfold Router.pay_via_curve. intros H.
  inv_err H. inv_err H.
  { left. split; auto. reflect_failed.
    destruct (receipts (rtr s) !! nonce); [eauto | congruence]. }
  reflect_tests.
  inv_err H; [reflect_failed; auto|].
  reflect_tests.
  inv_err H; [auto|].
  do 7 inv_err H. discriminate H.
Qed.

(** ** Custody *)

Lemma add_held_comm j1 j2 c1 c2 y :
  add_held j1 c1 (add_held j2 c2 y) = add_held j2 c2 (add_held j1 c1 y).
Proof. unfold add_held. lia. Qed.

Lemma custody_fresh (id : Z) (c : curve) (m : gmap Z curve) :
  m !! id = None -> custody (<[id := c]> m) = custody m + held c.
Proof.
  intros Hm. unfold custody.
  rewrite map_fold_insert_L; auto. intros. apply add_held_comm.
Qed.

Lemma custody_insert (id : Z) (c : curve) (m : gmap Z curve) :
  custody (<[id := c]> m)
  = custody m + held c - from_option held 0 (m !! id).
Proof.
  destruct (m !! id) as [c0|] eqn:Hm; cbn.
  - rewrite <- (insert_delete_eq m id c).
    rewrite custody_fresh by apply lookup_delete_eq.
    rewrite <- (insert_delete_id m id c0) at 2 by exact Hm.
    rewrite custody_fresh by apply lookup_delete_eq. lia.
  - rewrite custody_fresh by exact Hm. lia.
Qed.

Lemma custody_covers (m : gmap Z curve) :
  (forall id c, m !! id = Some c -> 0 <= held c) ->
  forall id c, m !! id = Some c -> held c <= custody m.
Proof.
  induction m as [|j cj m Hj IH] using map_ind; intros Hpos id c Hc.
  - rewrite lookup_empty in Hc. discriminate.
  - rewrite custody_fresh by exact Hj.
    assert (Hm : forall i ci, m !! i = Some ci -> 0 <= held ci).
    { intros i ci Hi. apply (Hpos i).
      rewrite lookup_insert_ne; auto. intros ->. congruence. }
    assert (H0 : 0 <= custody m).
    { clear - Hm. induction m as [|i ci m Hi IHm] using map_ind.
      - unfold custody. rewrite map_fold_empty. lia.
      - rewrite custody_fresh by exact Hi.
        assert (0 <= held ci) by (apply (Hm i); apply lookup_insert_eq).
        assert (0 <= custody m).
        { apply IHm. intros i' c' Hi'. apply (Hm i').
          rewrite lookup_insert_ne; auto. intros ->. congruence. }
        lia. }
    destruct (decide (j = id)) as [->|Hne].
    + rewrite lookup_insert_eq in Hc. injection Hc as ->. lia.
    + rewrite lookup_insert_ne in Hc by auto.
      pose proof (IH Hm id c Hc).
      assert (0 <= held cj) by (apply (Hpos j); apply lookup_insert_eq).
      lia.
Qed.

Lemma payout_custody_guarded (l : gmap principal Z) amount recipient :
  (0 < amount -> recipient <> LAUNCHPAD) ->
  default 0 (payout amount recipient l !! LAUNCHPAD)
  = default 0 (l !! LAUNCHPAD) - Z.max 0 amount.
Proof.
  intros Hne. unfold payout, ledger_move.
  destruct (Z.ltb_spec 0 amount).
  - rewrite lookup_insert_ne by auto. rewrite lookup_insert_eq. cbn. lia.
  - lia.
Qed.

(** ** Who is paid *)

Lemma graduate_internal_payees id b s s' :
  Launchpad.graduate_internal id s = Ok (b, s') ->
  exists c, curves (pad s) !! id = Some c /\
    (0 < spec_issuer_share c -> creator c <> LAUNCHPAD) /\
    (0 < spec_protocol_share c -> protocol_fee_recipient (pad s) <> LAUNCHPAD).
Proof.
  unfold Launchpad.graduate_internal, Launchpad.map_curve, Launchpad.put_curve,
    Launchpad.pay_from_contract.
  intros H. do 8 inv_bind H. subst. reflect_tests.
  change BPS_DENOM with 10000 in *.
  eexists. split; [eassumption|].
  unfold spec_protocol_share, spec_issuer_share.
  inv_bind H. inv_bind H.
  split; intros Hpos.
  - match goal with
    | Hp : (if 0 <? ?x then stx_transfer _ _ _ (creator _) else _) _ = Ok _ |- _ =>
        destruct (Z.ltb_spec 0 x); [|lia];
        apply stx_transfer_inv in Hp as (_ & Hne & _);
        apply not_eq_sym; exact Hne
    end.
  - match goal with
    | Hp : (if 0 <? ?x then stx_transfer _ _ _ (protocol_fee_recipient _) else _) _
           = Ok _ |- _ =>
        destruct (Z.ltb_spec 0 x); [|lia];
        apply stx_transfer_inv in Hp as (_ & Hne & _);
        apply not_eq_sym; exact Hne
    end.
Qed.

Lemma sell_payee seller id amount min_out r s s' :
  Launchpad.sell seller id amount min_out s = Ok (r, s') ->
  seller <> LAUNCHPAD.
Proof.
  unfold Launchpad.sell, Launchpad.map_curve, Launchpad.map_balance,
    Launchpad.pay_from_contract.
  intros H. do 18 inv_bind H. apply not_eq_sym. assumption.
Qed.

(** ** Preservation of the bounds and of the custody *)

Lemma entry_ok_insert (cs : gmap Z curve) (m : gmap (Z * principal) Z)
    (key : Z * principal) (x : Z) :
  (forall k b, m !! k = Some b -> entry_ok cs k b) -> entry_ok cs key x ->
  forall k b, <[key := x]> m !! k = Some b -> entry_ok cs k b.
Proof.
  intros Hm Hx k b. destruct (decide (key = k)) as [->|Hne].
  - rewrite lookup_insert_eq. intros [= <-]. exact Hx.
  - rewrite lookup_insert_ne by auto. apply Hm.
Qed.

Lemma entry_ok_update (cs : gmap Z curve) (id : Z) (c' : curve)
    (key : Z * principal) (b : Z) :
  entry_ok cs key b -> entry_ok (<[id := c']> cs) key b.
Proof.
  intros [Hb Hs]. split; [exact Hb|].
  destruct (decide (id = key.1)) as [->|Hne].
  - rewrite lookup_insert_eq. eauto.
  - rewrite lookup_insert_ne by auto. exact Hs.
Qed.

Lemma ledger_move_recipient sender recipient amount (l : gmap principal Z) :
  ledger_move sender recipient amount l !! recipient
  = Some (default 0 (l !! recipient) + amount).
Proof. unfold ledger_move. apply lookup_insert_eq. Qed.

Lemma ledger_move_sender sender recipient amount (l : gmap principal Z) :
  sender <> recipient ->
  ledger_move sender recipient amount l !! sender
  = Some (default 0 (l !! sender) - amount).
Proof.
  intros Hne. unfold ledger_move.
  rewrite lookup_insert_ne by auto. apply lookup_insert_eq.
Qed.

Lemma pad_fine_same s s' :
  curves (pad s') = curves (pad s) ->
  agent_curve (pad s') = agent_curve (pad s) ->
  total_curves (pad s') = total_curves (pad s) ->
  defaults_ok (pad s') ->
  (forall key b, balances (pad s') !! key = Some b ->
     entry_ok (curves (pad s)) key b) ->
  pad_fine s -> pad_fine s'.
Proof.
  intros Hc Ha Ht Hd Hb (_ & H2 & H3 & _ & H5). unfold pad_fine.
  rewrite Hc, Ha, Ht. auto.
Qed.

Lemma pad_fine_update id c c' s s' :
  pad_fine s -> curves (pad s) !! id = Some c ->
  curves (pad s') = <[id := c']> (curves (pad s)) ->
  agent_curve (pad s') = agent_curve (pad s) ->
  total_curves (pad s') = total_curves (pad s) ->
  defaults_ok (pad s') ->
  curve_fine c' -> creator c' = creator c ->
  (forall key b, balances (pad s') !! key = Some b ->
     entry_ok (curves (pad s)) key b) ->
  pad_fine s'.
Proof.
  intros (_ & H2 & H3 & _ & H5) Hc Hcs Ha Ht Hd Hp Hcr Hb. unfold pad_fine.
  rewrite Hcs, Ha, Ht. split; [|split; [|split; [|split]]];
    auto using entry_ok_update.
  3: { intros j Hj. destruct (decide (id = j)) as [<-|Hne].
       - rewrite lookup_insert_eq. eauto.
       - rewrite lookup_insert_ne by auto. auto. }
  - intros j cj. destruct (decide (id = j)) as [<-|Hne].
    + rewrite lookup_insert_eq. intros [= <-].
      destruct (H2 id c Hc) as (_ & ? & ?). rewrite Hcr. auto.
    + rewrite lookup_insert_ne by auto. apply H2.
  - intros a j Haj. destruct (H3 a j Haj) as (cj & Hj & Hcj).
    destruct (decide (id = j)) as [<-|Hne].
    + exists c'. rewrite lookup_insert_eq. split; congruence.
    + exists cj. rewrite lookup_insert_ne by auto. auto.
Qed.

Lemma solvent_update id c c' s s' :
  solvent s -> curves (pad s) !! id = Some c ->
  curves (pad s') = <[id := c']> (curves (pad s)) ->
  held c' - held c <= stx_balance s' LAUNCHPAD - stx_balance s LAUNCHPAD ->
  solvent s'.
Proof.
  unfold solvent. intros Hs Hc Hcs Hd.
  rewrite Hcs, custody_insert, Hc. cbn. lia.
Qed.

Lemma solvent_same s s' :
  curves (pad s') = curves (pad s) ->
  stx_balance s LAUNCHPAD <= stx_balance s' LAUNCHPAD ->
  solvent s -> solvent s'.
Proof. unfold solvent. intros -> ?. lia. Qed.

Lemma pad_fine_bought buyer id c amount s :
  pad_fine s -> curves (pad s) !! id = Some c -> graduated c = false ->
  0 < amount -> 0 < spec_tokens_out c amount ->
  pad_fine (bought_state buyer id c amount s).
Proof.
  intros Hf Hc Hgf Hpos Hout.
  assert (Hf' := Hf). destruct Hf' as (Hd & H2 & _ & Hb & _).
  destruct (H2 id c Hc) as ((Hfee & Hsh & Hg & Hacc & Hk & Hfr) & _).
  apply (pad_fine_update id c (bought_curve c amount) s); auto.
  - assert (0 <= spec_buy_fee c amount)
      by (apply Z.div_pos; [nia|lia]).
    unfold curve_fine. cbn. repeat split; try tauto; try lia; congruence.
  - cbn. apply entry_ok_insert; auto.
    split; [|cbn; eauto].
    destruct (balances (pad s) !! (id, buyer)) as [b|] eqn:E; cbn.
    + destruct (Hb _ _ E). lia.
    + lia.
Qed.

Lemma solvent_bought buyer id c amount s :
  solvent s -> curves (pad s) !! id = Some c ->
  solvent (bought_state buyer id c amount s).
Proof.
  intros Hs Hc.
  apply (solvent_update id c (bought_curve c amount) s); auto.
  unfold held, stx_balance. cbn -[LAUNCHPAD ledger_move].
  rewrite ledger_move_recipient. cbn -[LAUNCHPAD].
  unfold spec_new_real_reserve, spec_net_in. lia.
Qed.

Lemma pad_fine_graduated id c s :
  pad_fine s -> curves (pad s) !! id = Some c ->
  graduation_stx c <= stx_reserve c ->
  pad_fine (graduated_state id c s).
Proof.
  intros Hf Hc Hthr.
  assert (Hf' := Hf). destruct Hf' as (Hd & H2 & _ & Hb & _).
  destruct (H2 id c Hc) as ((Hfee & Hsh & Hg & Hacc & Hk & Hfr) & _).
  apply (pad_fine_update id c (with_graduated c) s); auto.
  unfold curve_fine. cbn. repeat split; try tauto; lia.
Qed.

Lemma solvent_graduated id c s :
  pad_fine s -> solvent s -> curves (pad s) !! id = Some c ->
  (0 < spec_issuer_share c -> creator c <> LAUNCHPAD) ->
  (0 < spec_protocol_share c -> protocol_fee_recipient (pad s) <> LAUNCHPAD) ->
  solvent (graduated_state id c s).
Proof.
  intros (_ & H2 & _) Hs Hc Hi Hp.
  destruct (H2 id c Hc) as ((Hfee & Hsh & Hg & Hacc & Hk & Hfr) & _).
  apply (solvent_update id c (with_graduated c) s); auto.
  unfold held, stx_balance. cbn -[LAUNCHPAD payout].
  rewrite !payout_custody_guarded by auto.
  unfold spec_protocol_share, spec_issuer_share in *.
  change MAX_CREATOR_SHARE_BPS with 10000 in Hsh.
  pose proof (bps_share_le (accrued_fees c) (creator_share_bps c) Hacc Hsh).
  lia.
Qed.

Lemma pad_fine_sold seller id c bal amount s :
  pad_fine s -> curves (pad s) !! id = Some c -> graduated c = false ->
  balances (pad s) !! (id, seller) = Some bal ->
  amount <= bal -> spec_sell_reserve c amount <= stx_reserve c ->
  pad_fine (sold_state seller id c bal amount s).
Proof.
  intros Hf Hc Hgf Hbal Hle Hres.
  assert (Hf' := Hf). destruct Hf' as (Hd & H2 & _ & Hb & _).
  destruct (H2 id c Hc) as ((Hfee & Hsh & Hg & Hacc & Hk & Hfr) & _).
  apply (pad_fine_update id c (sold_curve c amount) s); auto.
  - assert (0 <= spec_sell_fee c amount)
      by (apply Z.div_pos; [unfold spec_gross; nia|lia]).
    unfold curve_fine. cbn. repeat split; try tauto; try lia; congruence.
  - cbn. apply entry_ok_insert; auto.
    destruct (Hb _ _ Hbal) as [? ?]. split; [lia|assumption].
Qed.

Lemma solvent_sold seller id c bal amount s :
  solvent s -> curves (pad s) !! id = Some c -> seller <> LAUNCHPAD ->
  solvent (sold_state seller id c bal amount s).
Proof.
  intros Hs Hc Hne.
  apply (solvent_update id c (sold_curve c amount) s); auto.
  unfold held, stx_balance. cbn -[LAUNCHPAD ledger_move].
  rewrite ledger_move_sender by auto. cbn -[LAUNCHPAD].
  unfold spec_amount_out, spec_gross. lia.
Qed.

Lemma pad_fine_launched issuer nm sy s :
  state_ok s -> pad_fine s -> agent_curve (pad s) !! issuer = None ->
  default_virtual_stx (pad s) * default_total_supply (pad s) <= UINT_MAX ->
  pad_fine (launched_state issuer nm sy s).
Proof.
  intros (H1 & _) (Hd & H2 & H3 & Hb & H5) Hnone Hmul.
  assert (Hd' := Hd). destruct Hd' as (Hfee & Hsh & Hg & Hts & Hvs & Htot).
  assert (Hnew : curves (pad s) !! total_curves (pad s) = None)
    by (apply H1; lia).
  unfold pad_fine. cbn. split; [|split; [|split; [|split]]]; auto.
  - unfold defaults_ok. cbn. repeat split; try tauto; lia.
  - intros j cj. destruct (decide (total_curves (pad s) = j)) as [<-|Hne].
    + rewrite lookup_insert_eq. intros [= <-]. cbn.
      rewrite lookup_insert_eq. unfold curve_fine. cbn.
      repeat split; try tauto; try lia; discriminate.
    + rewrite lookup_insert_ne by auto. intros Hj.
      destruct (H2 j cj Hj) as (? & ? & Ha).
      split; [assumption|]. split; [assumption|].
      rewrite lookup_insert_ne; auto. intros Heq. congruence.
  - intros a j. destruct (decide (issuer = a)) as [<-|Hne].
    + rewrite lookup_insert_eq. intros [= <-].
      eexists. rewrite lookup_insert_eq. split; reflexivity.
    + rewrite lookup_insert_ne by auto. intros Ha.
      destruct (H3 a j Ha) as (cj & Hj & Hcj). exists cj.
      rewrite lookup_insert_ne; auto. intros <-. congruence.
  - intros key b Hkb. apply entry_ok_update. auto.
  - intros j Hj. destruct (decide (total_curves (pad s) = j)) as [<-|Hne].
    + rewrite lookup_insert_eq. eauto.
    + rewrite lookup_insert_ne by auto. apply H5. lia.
Qed.

Lemma solvent_launched issuer nm sy s :
  state_ok s -> solvent s -> solvent (launched_state issuer nm sy s).
Proof.
  intros (H1 & _) Hs. unfold solvent. cbn.
  rewrite custody_fresh by (apply H1; lia).
  unfold held. cbn. unfold solvent, stx_balance in Hs. unfold stx_balance. cbn. lia.
Qed.

Lemma buy_payees buyer id amount min_out r s s' :
  Launchpad.buy buyer id amount min_out s = Ok (r, s') ->
  exists c, curves (pad s) !! id = Some c /\
    (graduation_stx c <= spec_new_real_reserve c amount ->
     (0 < spec_issuer_share (bought_curve c amount) -> creator c <> LAUNCHPAD) /\
     (0 < spec_protocol_share (bought_curve c amount) ->
      protocol_fee_recipient (pad s) <> LAUNCHPAD)).
Proof.
  unfold Launchpad.buy, Launchpad.map_curve, Launchpad.map_balance,
    Launchpad.put_curve, Launchpad.put_balance.
  intros H. inv_M H. reflect_tests.
  match goal with
  | Hc : curves _ !! _ = Some ?c |- _ => exists c; split; [exact Hc|]
  end.
  change BPS_DENOM with 10000 in *.
  fold (spec_buy_fee v amount) in *. fold (spec_net_in v amount) in *.
  fold (spec_new_real_reserve v amount) in *.
  fold (spec_new_token_reserve v amount) in *.
  fold (token_reserve_of v) in *. fold (spec_tokens_out v amount) in *.
  fold (bought_curve v amount) in *.
  intros Hg.
  match goal with
  | H : (if _ then _ else _) ?st = Ok _ |- _ =>
      change st with (bought_state buyer id v amount s) in H;
      destruct (Z.leb_spec (graduation_stx v) (spec_new_real_reserve v amount));
      [|lia];
      apply graduate_internal_payees in H as (c' & Hc' & Hi & Hp);
      unfold bought_state in Hc'; cbn in Hc'; rewrite lookup_insert_eq in Hc';
      injection Hc' as <-; split; auto
  end.
Qed.

Lemma buy_fine buyer id amount min_out r s s' :
  Launchpad.buy buyer id amount min_out s = Ok (r, s') ->
  state_ok s -> pad_fine s -> pad_fine s' /\ (solvent s -> solvent s').
Proof.
  destruct r as [t f]. intros H Hs Hf.
  destruct (buy_payees _ _ _ _ _ _ _ H) as (c0 & Hc0 & Hpay).
  apply buy_effect in H
    as (c & Hc & Hg & Hpos & _ & _ & Hfee & _ & _ & Hout & _ & _ & _ & Hs').
  assert (c0 = c) by congruence. subst c0.
  assert (Hfb : pad_fine (bought_state buyer id c amount s))
    by (apply pad_fine_bought; auto).
  assert (Hcb : curves (pad (bought_state buyer id c amount s)) !! id
                = Some (bought_curve c amount))
    by (cbn; apply lookup_insert_eq).
  destruct Hs' as [[_ ->]|[Hthr ->]].
  - split; auto. intros. apply solvent_bought; auto.
  - split; [apply pad_fine_graduated; auto|].
    intros Hsol. destruct (Hpay Hthr) as [Hi Hp].
    apply solvent_graduated; auto.
    apply solvent_bought; auto.
Qed.

(** Every transaction with [uint] arguments keeps the bounds. *)
Lemma step_fine tx_sender a s :
  state_ok s -> pad_fine s -> wf_action a ->
  pad_fine (step tx_sender a s) /\ (solvent s -> solvent (step tx_sender a s)).
Proof.
  intros Hs Hf Hwf.
  destruct (step_cases tx_sender a s) as [->|H]; [auto|].
  revert H. generalize (step tx_sender a s). intros s' H.
  assert (Hf' := Hf). destruct Hf' as (Hd & H2 & H3 & Hb & H5).
  destruct a; cbn in H; unfold void in H; inv_bind H; inv_head H.
  - (* register-agent *)
    unfold Registry.register_agent in *. inv_M E.
    split; [eapply pad_fine_same; eauto; reflexivity|].
    apply solvent_same; [reflexivity|unfold stx_balance; cbn; lia].
  - (* launch *)
    apply launch_effect in E as (_ & _ & Hnone & _ & _ & Hmul & ->).
    split; [apply pad_fine_launched | apply solvent_launched]; auto.
  - (* buy *)
    eapply buy_fine; eauto.
  - (* sell *)
    destruct v as [out f].
    pose proof (sell_payee _ _ _ _ _ _ _ E) as Hne.
    apply sell_effect in E
      as (c & bal & Hc & Hbal & Hg & Hpos & Hle & _ & _ & _ & _ & [_ Hres] & _ & _ & _ & ->).
    split; [apply pad_fine_sold; auto|].
    intros. apply solvent_sold; auto.
  - (* transfer *)
    apply transfer_effect in E as (bal & Hbal & _ & Hpos & Hne & Hle & ->).
    split; [|apply solvent_same; [reflexivity|unfold stx_balance; cbn; lia]].
    apply (pad_fine_same s); [reflexivity|reflexivity|reflexivity|exact Hd| |exact Hf].
    destruct (Hb _ _ Hbal) as [? Hcv].
    cbn. apply entry_ok_insert;
      [apply entry_ok_insert; auto; split; [lia|assumption]|].
    split; [|exact Hcv].
    destruct (balances (pad s) !! (curve_id, recipient)) as [b|] eqn:Eb; cbn.
    + destruct (Hb _ _ Eb). lia.
    + lia.
  - (* graduate *)
    unfold Launchpad.graduate in E. inv_bind E. inv_head E.
    destruct (graduate_internal_payees _ _ _ _ E0) as (c0 & Hc0 & Hi & Hp).
    apply graduate_internal_effect in E0 as (c & Hc & Hthr & _ & _ & ->).
    assert (c0 = c) by congruence. subst c0.
    split; [apply pad_fine_graduated; auto|].
    intros. apply solvent_graduated; auto.
  - (* set-defaults *)
    unfold Launchpad.set_defaults in *. inv_M E. reflect_tests.
    destruct Hwf as (? & ? & ? & [? _] & [? _]).
    split; [|apply solvent_same; [reflexivity|unfold stx_balance; cbn; lia]].
    apply (pad_fine_same s); [reflexivity|reflexivity|reflexivity| |exact Hb|exact Hf].
    unfold defaults_ok in *. cbn. repeat split; try tauto; lia.
  - (* set-protocol-fee-recipient *)
    unfold Launchpad.set_protocol_fee_recipient in *. inv_M E.
    split; [eapply pad_fine_same; eauto; reflexivity|].
    apply solvent_same; [reflexivity|unfold stx_balance; cbn; lia].
  - (* transfer-admin *)
    unfold Launchpad.transfer_admin in *. inv_M E.
    split; [eapply pad_fine_same; eauto; reflexivity|].
    apply solvent_same; [reflexivity|unfold stx_balance; cbn; lia].
  - (* accept-admin *)
    unfold Launchpad.accept_admin in *. inv_M E.
    split; [eapply pad_fine_same; eauto; reflexivity|].
    apply solvent_same; [reflexivity|unfold stx_balance; cbn; lia].
  - (* pay-via-curve *)
    destruct v as [t f].
    apply pay_via_curve_effect in E as (_ & _ & s1 & Hbuy & ->).
    destruct (buy_fine _ _ _ _ _ _ _ Hbuy Hs Hf) as [Hf1 Hs1].
    split; [eapply pad_fine_same; eauto; try reflexivity; apply Hf1|].
    intros Hsol. specialize (Hs1 Hsol).
    revert Hs1. apply solvent_same; [reflexivity|unfold stx_balance; cbn; lia].
  - (* router transfer-admin *)
    unfold Router.transfer_admin in *. inv_M E.
    split; [eapply pad_fine_same; eauto; reflexivity|].
    apply solvent_same; [reflexivity|unfold stx_balance; cbn; lia].
  - (* router accept-admin *)
    unfold Router.accept_admin in *. inv_M E.
    split; [eapply pad_fine_same; eauto; reflexivity|].
    apply solvent_same; [reflexivity|unfold stx_balance; cbn; lia].
Qed.

Lemma genesis_fine deployer ledger height : pad_fine (genesis deployer ledger height).
Proof.
  unfold pad_fine, defaults_ok. cbn.
  change MAX_FEE_BPS with 500. change MAX_CREATOR_SHARE_BPS with 10000.
  split; [lia|]. split; [|split; [|split]].
  - intros id c. rewrite lookup_empty. discriminate.
  - intros a id. rewrite lookup_empty. discriminate.
  - intros key b. rewrite lookup_empty. discriminate.
  - intros id. lia.
Qed.

Lemma env_step_fine s s' : env_step s s' -> pad_fine s -> pad_fine s'.
Proof.
  intros [] Hf. eapply pad_fine_same; eauto; try reflexivity; apply Hf.
Qed.

Lemma reachable_fine s : reachable s -> pad_fine s.
Proof.
  induction 1 as [| s tx_sender a Hr IH Hwf | s s' _ IH Henv].
  - apply genesis_fine.
  - apply step_fine; auto using reachable_ok.
  - eapply env_step_fine; eauto.
Qed.

(** * Further properties of the contracts *)

(** ** Failures *)

Lemma call_Err {A} (m : M A) s code s' :
  call m s = (Err code, s') <-> m s = Err code /\ s' = s.
Proof.
  unfold call. destruct (m s) as [[a1 s1]| |]; split;
    try (intros [= <- <-]; auto); try (intros [[= <-] ->]; auto);
    intros [[=] _].
Qed.

Lemma run_refused {B} (b : bool) code (g : unit -> M B) s :
  b = false -> bind (asserts b code) g s = Err code.
Proof. intros ->. reflexivity. Qed.

Lemma call_run {A} (m : M A) s a s' :
  m s = Ok (a, s') -> call m s = (Ok a, s').
Proof. apply call_Ok. Qed.

Lemma call_fail {A} (m : M A) s code :
  m s = Err code -> call m s = (Err code, s).
Proof. intros H. apply call_Err. auto. Qed.

(** X1. Every [(err code)] of [buy] has its cause, and comes with no change
    of state: u1402 exactly when the curve is missing; otherwise u1403 on a
    graduated curve, u1404 for a zero amount, u1413 when no token is left,
    u1408 when the trade would give no token, u1406 when it gives fewer
    than [min-tokens-out]; the codes u1 and u2 of [stx-transfer?] appear
    only after all these validations passed.  No other code is returned:
    in particular never u1405, u1410 or u1412. *)
Theorem buy_failure_causes (s : chain) (buyer : principal)
    (id amount min_out code : Z) (s' : chain) :
  call (Launchpad.buy buyer id amount min_out) s = (Err code, s') ->
  s' = s /\
  ((code = ERR_CURVE_NOT_FOUND /\ curves (pad s) !! id = None) \/
   exists c, curves (pad s) !! id = Some c /\
     ((code = ERR_GRADUATED /\ graduated c = true) \/
      (code = ERR_ZERO_AMOUNT /\ amount <= 0) \/
      (code = ERR_SOLD_OUT /\ token_reserve_of c <= 0) \/
      (code = ERR_OVERFLOW /\ spec_tokens_out c amount <= 0) \/
      (code = ERR_SLIPPAGE /\ spec_tokens_out c amount < min_out) \/
      ((code = 1 \/ code = 2) /\ graduated c = false /\ 0 < amount /\
       0 < spec_tokens_out c amount /\ min_out <= spec_tokens_out c amount))).
Proof.
  intros H. apply call_Err in H as [H ->]. split; [reflexivity|].
  exact (buy_errors _ _ _ _ _ _ H).
Qed.

Lemma buy_failure_causes_witness :
  call (Launchpad.buy Scenario.wallet_2 0 100000000 999999999999999)
    Scenario.launched
  = (Err ERR_SLIPPAGE, Scenario.launched) /\
  exists c, curves (pad Scenario.launched) !! 0 = Some c /\
    spec_tokens_out c 100000000 < 999999999999999.
Proof.
  assert (H : call (Launchpad.buy Scenario.wallet_2 0 100000000 999999999999999)
                Scenario.launched
              = (Err ERR_SLIPPAGE, Scenario.launched))
    by (vm_compute; reflexivity).
  split; [exact H|].
  destruct (buy_failure_causes _ _ _ _ _ _ _ H) as [_ [[Hc _]|(c & Hc & Hcase)]].
  - discriminate Hc.
  - exists c. split; [exact Hc|].
    destruct Hcase as [[Hc1 _]|[[Hc1 _]|[[Hc1 _]|[[Hc1 _]|[[_ Hlt]|[[Hc1|Hc1] _]]]]]];
      try discriminate Hc1.
    exact Hlt.
Defined.

(** X2. Every [(err code)] of [sell] has its cause, and comes with no
    change of state.  The seller's balance entry is looked up before the
    listed validations, so a seller who never held the token gets u1405
    even for a graduated curve or a zero amount.  The codes of
    [stx-transfer?] appear only after the validations: u1 when the STX of
    the launchpad do not cover the proceeds, u2 when the launchpad sells
    to itself. *)
Theorem sell_failure_causes (s : chain) (seller : principal)
    (id amount min_out code : Z) (s' : chain) :
  call (Launchpad.sell seller id amount min_out) s = (Err code, s') ->
  s' = s /\
  ((code = ERR_CURVE_NOT_FOUND /\ curves (pad s) !! id = None) \/
   exists c, curves (pad s) !! id = Some c /\
     ((code = ERR_INSUFFICIENT_BALANCE /\ balances (pad s) !! (id, seller) = None) \/
      exists bal, balances (pad s) !! (id, seller) = Some bal /\
        ((code = ERR_GRADUATED /\ graduated c = true) \/
         (code = ERR_ZERO_AMOUNT /\ amount <= 0) \/
         (code = ERR_INSUFFICIENT_BALANCE /\ bal < amount) \/
         (code = ERR_OVERFLOW /\ spec_amount_out c amount <= 0) \/
         (code = ERR_SLIPPAGE /\ spec_amount_out c amount < min_out) \/
         (code = 1 /\ stx_balance s LAUNCHPAD < spec_amount_out c amount) \/
         (code = 2 /\ seller = LAUNCHPAD)))).
Proof.
  intros H. apply call_Err in H as [H ->]. split; [reflexivity|].
  exact (sell_errors _ _ _ _ _ _ H).
Qed.

Lemma sell_failure_causes_witness :
  call (Launchpad.sell Scenario.wallet_3 0 1000000 0) Scenario.bought
  = (Err ERR_INSUFFICIENT_BALANCE, Scenario.bought) /\
  exists c, curves (pad Scenario.bought) !! 0 = Some c /\
    (balances (pad Scenario.bought) !! (0, Scenario.wallet_3) = None \/
     exists bal, balances (pad Scenario.bought) !! (0, Scenario.wallet_3) = Some bal /\
       bal < 1000000).
Proof.
  assert (H : call (Launchpad.sell Scenario.wallet_3 0 1000000 0) Scenario.bought
              = (Err ERR_INSUFFICIENT_BALANCE, Scenario.bought))
    by (vm_compute; reflexivity).
  split; [exact H|].
  destruct (sell_failure_causes _ _ _ _ _ _ _ H) as [_ [[Hc _]|(c & Hc & Hcase)]].
  - discriminate Hc.
  - exists c. split; [exact Hc|].
    destruct Hcase as [[_ Hb]|(bal & Hb & Hcase)]; [left; exact Hb|].
    right. exists bal. split; [exact Hb|].
    destruct Hcase as [[Hc1 _]|[[Hc1 _]|[[_ Hlt]|[[Hc1 _]|[[Hc1 _]|[[Hc1 _]|[Hc1 _]]]]]]];
      try discriminate Hc1.
    exact Hlt.
Defined.

(** X3. The [(err code)] responses of [pay-via-curve]: u1500 exactly for a
    nonce that has a receipt, u1501 for a fresh nonce and a zero amount,
    and otherwise the code with which the [buy] it delegates to fails on
    the same state, passed through unchanged.  The router's own u1502 and
    u1503 are never returned by [pay-via-curve]: a missing curve is
    reported with u1402 of the launchpad. *)
Theorem pay_via_curve_failure_codes (s : chain) (payer : principal)
    (id amount : Z) (nonce : buff) (min_out code : Z) (s' : chain) :
  call (Router.pay_via_curve payer id amount nonce min_out) s = (Err code, s') ->
  s' = s /\
  ((code = Router.ERR_NONCE_USED /\ is_Some (receipts (rtr s) !! nonce)) \/
   (code = Router.ERR_ZERO_AMOUNT /\ receipts (rtr s) !! nonce = None /\
    amount <= 0) \/
   (receipts (rtr s) !! nonce = None /\ 0 < amount /\
    call (Launchpad.buy payer id amount min_out) s = (Err code, s))) /\
  code <> Router.ERR_CURVE_NOT_FOUND /\ code <> Router.ERR_UNAUTHORIZED /\
  (curves (pad s) !! id = None -> receipts (rtr s) !! nonce = None ->
   0 < amount -> code = ERR_CURVE_NOT_FOUND).
Proof.
  intros H. apply call_Err in H as [H ->]. split; [reflexivity|].
  apply pay_via_curve_errors in H.
  assert (Hbuy : forall c, Launchpad.buy payer id amount min_out s = Err c ->
            c <> Router.ERR_CURVE_NOT_FOUND /\ c <> Router.ERR_UNAUTHORIZED /\
            (curves (pad s) !! id = None -> c = ERR_CURVE_NOT_FOUND)).
  { intros c Hb. apply buy_errors in Hb.
    destruct Hb as [[-> _]|(cv & Hcv & Hcase)].
    - repeat split; auto; discriminate.
    - repeat split; try congruence;
        destruct Hcase as [[-> _]|[[-> _]|[[-> _]|[[-> _]|[[-> _]|[[->| ->] _]]]]]];
        discriminate. }
  split; [|split; [|split]].
  - destruct H as [H|[H|(Hn & Hpos & Hb)]]; auto.
    right. right. repeat split; auto. apply call_Err. auto.
  - destruct H as [[-> _]|[[-> _]|(_ & _ & Hb)]]; try discriminate.
    apply (Hbuy _ Hb).
  - destruct H as [[-> _]|[[-> _]|(_ & _ & Hb)]]; try discriminate.
    apply (Hbuy _ Hb).
  - intros Hnone Hfresh Hpos.
    destruct H as [[_ Hs]|[[_ [_ Hle]]|(_ & _ & Hb)]].
    + rewrite Hfresh in Hs. destruct Hs as [? [=]].
    + lia.
    + apply (Hbuy _ Hb). exact Hnone.
Qed.

Lemma pay_via_curve_failure_codes_witness :
  call (Router.pay_via_curve Scenario.wallet_2 99 5000000 "0123456789abcdef" 0)
    Scenario.launched
  = (Err ERR_CURVE_NOT_FOUND, Scenario.launched) /\
  ERR_CURVE_NOT_FOUND <> Router.ERR_CURVE_NOT_FOUND.
Proof.
  assert (H : call (Router.pay_via_curve Scenario.wallet_2 99 5000000
                      "0123456789abcdef" 0) Scenario.launched
              = (Err ERR_CURVE_NOT_FOUND, Scenario.launched))
    by (vm_compute; reflexivity).
  split; [exact H|].
  apply (pay_via_curve_failure_codes _ _ _ _ _ _ _ _ H).
Defined.

(** X4. A curve identifier that was never issued: [buy], [sell] and
    [graduate] return u1402 and change nothing, the two quotes and
    [get-price] return u1402, [get-curve] returns [none]; [transfer]
    does not reach its curve check, because a missing curve has no
    holder: it returns u1405. *)
Theorem missing_curve (s : chain) (id : Z) :
  reachable s -> curves (pad s) !! id = None ->
  (forall tx_sender amount min_out,
     call (Launchpad.buy tx_sender id amount min_out) s = (Err ERR_CURVE_NOT_FOUND, s) /\
     call (Launchpad.sell tx_sender id amount min_out) s = (Err ERR_CURVE_NOT_FOUND, s) /\
     query (Launchpad.get_buy_quote id amount) s = Err ERR_CURVE_NOT_FOUND /\
     query (Launchpad.get_sell_quote id amount) s = Err ERR_CURVE_NOT_FOUND) /\
  call (Launchpad.graduate id) s = (Err ERR_CURVE_NOT_FOUND, s) /\
  query (Launchpad.get_price id) s = Err ERR_CURVE_NOT_FOUND /\
  query (Launchpad.get_curve id) s = Ok None /\
  (forall tx_sender amount recipient,
     call (Launchpad.transfer tx_sender id amount recipient) s
     = (Err ERR_INSUFFICIENT_BALANCE, s)) /\
  (forall holder, query (Launchpad.get_balance id holder) s = Ok 0).
Proof.
  intros Hr Hc.
  assert (Hnone : forall holder, balances (pad s) !! (id, holder) = None).
  { intros holder.
    destruct (balances (pad s) !! (id, holder)) as [b|] eqn:Hb; [|reflexivity].
    pose proof (reachable_fine s Hr) as (_ & _ & _ & Hent & _).
    destruct (Hent _ _ Hb) as [_ [c Hs]]. cbn in Hs. congruence. }
  split; [intros tx_sender amount min_out; split; [|split; [|split]]|
          split; [|split; [|split; [|split]]]].
  - apply call_Err. split; [|reflexivity].
    unfold Launchpad.buy, Launchpad.map_curve. apply run_gets.
    rewrite Hc. reflexivity.
  - apply call_Err. split; [|reflexivity].
    unfold Launchpad.sell, Launchpad.map_curve. apply run_gets.
    rewrite Hc. reflexivity.
  - unfold query, call, Launchpad.get_buy_quote, Launchpad.map_curve.
    rewrite (run_gets _ _ _ (Err ERR_CURVE_NOT_FOUND)); [reflexivity|].
    rewrite Hc. reflexivity.
  - unfold query, call, Launchpad.get_sell_quote, Launchpad.map_curve.
    rewrite (run_gets _ _ _ (Err ERR_CURVE_NOT_FOUND)); [reflexivity|].
    rewrite Hc. reflexivity.
  - apply call_Err. split; [|reflexivity].
    unfold Launchpad.graduate, Launchpad.graduate_internal, Launchpad.map_curve.
    unfold bind at 1. rewrite (run_gets _ _ _ (Err ERR_CURVE_NOT_FOUND)); [reflexivity|].
    rewrite Hc. reflexivity.
  - unfold query, call, Launchpad.get_price, Launchpad.map_curve.
    rewrite (run_gets _ _ _ (Err ERR_CURVE_NOT_FOUND)); [reflexivity|].
    rewrite Hc. reflexivity.
  - unfold query, call, Launchpad.get_curve, Launchpad.map_curve, gets.
    rewrite Hc. reflexivity.
  - intros tx_sender amount recipient.
    apply call_Err. split; [|reflexivity].
    unfold Launchpad.transfer, Launchpad.map_balance. apply run_gets.
    rewrite Hnone. reflexivity.
  - intros holder.
    unfold query, call, Launchpad.get_balance, Launchpad.map_balance.
    rewrite (run_gets _ _ _ (Ok (0, s))); [reflexivity|].
    rewrite Hnone. reflexivity.
Qed.

Lemma missing_curve_witness :
  call (Launchpad.buy Scenario.wallet_2 99 1000000 0) Scenario.launched
  = (Err ERR_CURVE_NOT_FOUND, Scenario.launched) /\
  call (Launchpad.transfer Scenario.wallet_2 99 1000000 Scenario.wallet_3)
    Scenario.launched
  = (Err ERR_INSUFFICIENT_BALANCE, Scenario.launched).
Proof.
  assert (Hc : curves (pad Scenario.launched) !! 99 = None)
    by (vm_compute; reflexivity).
  destruct (missing_curve Scenario.launched 99 reachable_launched Hc)
    as (Htrade & _ & _ & _ & Htransfer & _).
  split; [apply Htrade | apply Htransfer].
Defined.

(** ** The statistics of the router *)

Lemma volume_of_fresh (nonce : buff) (rc : receipt) (m : gmap buff receipt) :
  m !! nonce = None ->
  volume_of (<[nonce := rc]> m) = volume_of m + rc_stx_amount rc.
Proof.
  intros Hm. unfold volume_of.
  rewrite map_fold_insert_L; auto. intros. unfold add_volume. lia.
Qed.

Lemma fee_cap amount bps :
  0 <= amount -> 0 <= bps <= MAX_FEE_BPS ->
  0 <= amount * bps / 10000 /\ 20 * (amount * bps / 10000) <= amount.
Proof.
  change MAX_FEE_BPS with 500. intros Ha Hb. split.
  - apply Z.div_pos; nia.
  - assert (amount * bps / 10000 <= amount * 500 / 10000)
      by (apply Z.div_le_mono; nia).
    assert (20 * (amount * 500 / 10000) <= amount); [|lia].
    pose proof (Z.mul_div_le (amount * 500) 10000). lia.
Qed.

(** What a transaction does to the router and to the block height. *)
Lemma step_router tx_sender a s :
  stacks_block_height (step tx_sender a s) = stacks_block_height s /\
  ((receipts (rtr (step tx_sender a s)) = receipts (rtr s) /\
    total_payments (rtr (step tx_sender a s)) = total_payments (rtr s) /\
    total_volume_stx (rtr (step tx_sender a s)) = total_volume_stx (rtr s)) \/
   exists id amount nonce min_out t f s1,
     receipts (rtr s) !! nonce = None /\ 0 < amount /\
     Launchpad.buy tx_sender id amount min_out s = Ok ((t, f), s1) /\
     step tx_sender a s = receipt_state tx_sender id amount nonce t f s1).
Proof.
  destruct (step_cases tx_sender a s) as [->|H]; [auto|].
  revert H. generalize (step tx_sender a s). intros s' H.
  destruct a; cbn in H; unfold void in H; inv_bind H; inv_head H.
  - unfold Registry.register_agent in *. inv_M E. auto.
  - apply launch_effect in E as (_ & _ & _ & _ & _ & _ & ->). auto.
  - apply buy_frame in E as (-> & _ & ->). auto.
  - destruct v as [out f].
    apply sell_effect in E
      as (c & bal & _ & _ & _ & _ & _ & _ & _ & _ & _ & _ & _ & _ & _ & ->). auto.
  - apply transfer_effect in E as (bal & _ & _ & _ & _ & _ & ->). auto.
  - apply graduate_effect in E as (c & _ & _ & _ & ->). auto.
  - unfold Launchpad.set_defaults in *. inv_M E. auto.
  - unfold Launchpad.set_protocol_fee_recipient in *. inv_M E. auto.
  - unfold Launchpad.transfer_admin in *. inv_M E. auto.
  - unfold Launchpad.accept_admin in *. inv_M E. auto.
  - destruct v as [t f].
    apply pay_via_curve_effect in E as (Hfresh & Hpos & s1 & Hbuy & ->).
    split.
    + apply buy_frame in Hbuy as (_ & _ & Hh). exact Hh.
    + right. exists curve_id, stx_amount, nonce, min_tokens_out, t, f, s1. auto.
  - unfold Router.transfer_admin in *. inv_M E. auto.
  - unfold Router.accept_admin in *. inv_M E. auto.
Qed.

Lemma receipt_ok_later s s' rc :
  pad_evolves s s' -> stacks_block_height s <= stacks_block_height s' ->
  receipt_ok s rc -> receipt_ok s' rc.
Proof.
  intros He Hh (? & ? & ? & ? & [c Hc] & ?). unfold receipt_ok.
  destruct (He _ _ Hc) as (c' & Hc' & _).
  repeat split; eauto; lia.
Qed.

Lemma step_router_ok tx_sender a s :
  state_ok s -> pad_fine s -> router_ok s -> router_ok (step tx_sender a s).
Proof.
  intros Hs Hf (Hn & Hv & Hrc).
  destruct (step_ok tx_sender a s Hs) as [_ He].
  destruct (step_router tx_sender a s) as [Hh [(Hr1 & Hr2 & Hr3)|Hpay]].
  - unfold router_ok. rewrite Hr1, Hr2, Hr3.
    split; [exact Hn|]. split; [exact Hv|].
    intros nonce rc Hn1.
    apply (receipt_ok_later s); [exact He | lia | exact (Hrc _ _ Hn1)].
  - destruct Hpay as (id & amount & nonce & min_out & t & f & s1
                      & Hfresh & Hpos & Hbuy & Hs').
    rewrite Hs' in *.
    pose proof (buy_frame _ _ _ _ _ _ _ Hbuy) as (Hr & _ & Hh1).
    destruct (buy_ok _ _ _ _ _ _ _ Hbuy Hs) as [_ He1].
    apply buy_effect in Hbuy
      as (c & Hc & _ & _ & -> & -> & _ & _ & _ & Hout & _).
    destruct Hf as (_ & H2 & _).
    destruct (H2 id c Hc) as ((Hfee & _) & _).
    destruct (He1 _ _ Hc) as (c1 & Hc1 & _).
    unfold router_ok, receipt_state. cbn. rewrite Hr.
    split; [|split].
    + rewrite map_size_insert_None by exact Hfresh. lia.
    + rewrite volume_of_fresh by exact Hfresh. cbn. lia.
    + intros n rc. destruct (decide (nonce = n)) as [<-|Hne].
      * rewrite lookup_insert_eq. intros [= <-].
        unfold receipt_ok. cbn.
        destruct (fee_cap amount (fee_bps c)) as [? ?]; [lia|exact Hfee|].
        unfold spec_buy_fee. repeat split; eauto; lia.
      * rewrite lookup_insert_ne by auto. intros Hn1.
        apply (receipt_ok_later s); [| |exact (Hrc _ _ Hn1)].
        -- intros j cj Hj. cbn. apply He1. exact Hj.
        -- cbn. lia.
Qed.

Lemma reachable_router s : reachable s -> router_ok s.
Proof.
  induction 1 as [| s tx_sender a Hr IH _ | s s' _ IH Henv].
  - unfold router_ok. cbn. split; [reflexivity|]. split; [reflexivity|].
    intros nonce rc. rewrite lookup_empty. discriminate.
  - apply step_router_ok; auto using reachable_ok, reachable_fine.
  - destruct Henv as [ag n l h Hl Hh]. destruct IH as (Hn & Hv & Hrc).
    unfold router_ok. cbn. split; [exact Hn|]. split; [exact Hv|].
    intros nonce rc Hn1. destruct (Hrc _ _ Hn1) as (? & ? & ? & ? & ? & ?).
    unfold receipt_ok. cbn. repeat split; auto. lia.
Qed.

(** ** Invariants of the reachable states, continued *)

(** X5. The parameters of every curve are within the bounds [set-defaults]
    enforces, although [launch] checks none of them: the fee rate is at
    most 5 percent, so the fee of a buy is at most a twentieth of the
    amount; the creator share is at most 100 percent, so the creator's
    part of the pool never exceeds the pool; the fee pool is never
    negative.  A graduated curve has an empty fee pool and a reserve at or
    above its threshold; a curve that has not graduated holds less than
    its threshold. *)
Theorem curve_parameters_bounded (s : chain) (id : Z) (c : curve) :
  reachable s -> curves (pad s) !! id = Some c ->
  0 <= fee_bps c <= MAX_FEE_BPS /\
  0 <= creator_share_bps c <= MAX_CREATOR_SHARE_BPS /\
  0 < graduation_stx c /\ 0 <= accrued_fees c /\
  (forall amount, 0 <= amount ->
     0 <= spec_buy_fee c amount /\ 20 * spec_buy_fee c amount <= amount) /\
  0 <= spec_issuer_share c <= accrued_fees c /\
  (graduated c = true ->
   accrued_fees c = 0 /\ graduation_stx c <= stx_reserve c) /\
  (graduated c = false -> stx_reserve c < graduation_stx c).
Proof.
  intros Hr Hc.
  destruct (reachable_fine s Hr) as (_ & H2 & _).
  destruct (H2 id c Hc) as ((Hfee & Hsh & Hg & Hacc & _ & Hfr) & _).
  destruct (reachable_below_threshold s Hr) as [_ Hbt].
  split; [exact Hfee|]. split; [exact Hsh|]. split; [exact Hg|].
  split; [exact Hacc|]. split; [|split; [|split]].
  - intros amount Ha. apply fee_cap; assumption.
  - apply bps_share_le; assumption.
  - exact Hfr.
  - apply (Hbt id c Hc).
Qed.

Lemma curve_parameters_bounded_witness :
  exists c, curves (pad Scenario.bought) !! 0 = Some c /\
    fee_bps c <= MAX_FEE_BPS /\ stx_reserve c < graduation_stx c.
Proof.
  destruct (curves (pad Scenario.bought) !! 0) as [c|] eqn:Hc;
    [|vm_compute in Hc; discriminate Hc].
  exists c. split; [reflexivity|].
  destruct (curve_parameters_bounded Scenario.bought 0 c reachable_bought Hc)
    as ([_ Hfee] & _ & _ & _ & _ & _ & _ & Hthr).
  split; [exact Hfee|]. apply Hthr.
  vm_compute in Hc. injection Hc as <-. reflexivity.
Defined.

(** X6. One curve per agent.  [get-agent-curve] answers with an
    identifier exactly for the creators of curves, the curve it names is
    the one the agent created, and no two curves share their creator. *)
Theorem one_curve_per_agent (s : chain) :
  reachable s ->
  (forall a id,
     query (Launchpad.get_agent_curve a) s = Ok (Some id) <->
     exists c, curves (pad s) !! id = Some c /\ creator c = a) /\
  (forall id1 id2 c1 c2,
     curves (pad s) !! id1 = Some c1 -> curves (pad s) !! id2 = Some c2 ->
     creator c1 = creator c2 -> id1 = id2).
Proof.
  intros Hr. destruct (reachable_fine s Hr) as (_ & H2 & H3 & _).
  split.
  - intros a id. unfold query, call, Launchpad.get_agent_curve, gets. cbn.
    split.
    + intros [= Ha]. apply H3. exact Ha.
    + intros (c & Hc & <-). destruct (H2 id c Hc) as (_ & _ & ->). reflexivity.
  - intros id1 id2 c1 c2 Hc1 Hc2 Heq.
    destruct (H2 id1 c1 Hc1) as (_ & _ & Ha1).
    destruct (H2 id2 c2 Hc2) as (_ & _ & Ha2).
    congruence.
Qed.

Lemma one_curve_per_agent_witness :
  query (Launchpad.get_agent_curve Scenario.wallet_1) Scenario.launched
  = Ok (Some 0) /\
  exists c, curves (pad Scenario.launched) !! 0 = Some c /\
    creator c = Scenario.wallet_1.
Proof.
  assert (H : query (Launchpad.get_agent_curve Scenario.wallet_1) Scenario.launched
              = Ok (Some 0)) by (vm_compute; reflexivity).
  split; [exact H|].
  apply (proj1 (one_curve_per_agent Scenario.launched reachable_launched)).
  exact H.
Defined.

Lemma sum_balances_nonneg (id : Z) (m : gmap (Z * principal) Z) :
  (forall k b, m !! k = Some b -> 0 <= b) -> 0 <= sum_balances id m.
Proof.
  induction m as [|k x m Hk IH] using map_ind; intros Hpos.
  - rewrite sum_balances_empty. lia.
  - rewrite sum_balances_fresh by exact Hk.
    assert (0 <= x) by (apply (Hpos k); apply lookup_insert_eq).
    assert (0 <= sum_balances id m).
    { apply IH. intros k' b Hb. apply (Hpos k').
      rewrite lookup_insert_ne; auto. intros ->. congruence. }
    unfold add_holding. case_bool_decide; lia.
Qed.

Lemma sum_balances_covers (id : Z) (holder : principal) (b : Z)
    (m : gmap (Z * principal) Z) :
  (forall k x, m !! k = Some x -> 0 <= x) ->
  m !! (id, holder) = Some b -> b <= sum_balances id m.
Proof.
  intros Hpos Hb.
  rewrite <- (insert_delete_id m (id, holder) b) by exact Hb.
  rewrite sum_balances_fresh by apply lookup_delete_eq.
  assert (0 <= sum_balances id (delete (id, holder) m)).
  { apply sum_balances_nonneg. intros k x Hk.
    apply lookup_delete_Some in Hk as [_ Hk]. eauto. }
  unfold add_holding. cbn. rewrite bool_decide_eq_true_2 by reflexivity. lia.
Qed.

Lemma sum_balances_covers_two (id : Z) (h1 h2 : principal) (b1 b2 : Z)
    (m : gmap (Z * principal) Z) :
  (forall k x, m !! k = Some x -> 0 <= x) -> h1 <> h2 ->
  m !! (id, h1) = Some b1 -> m !! (id, h2) = Some b2 ->
  b1 + b2 <= sum_balances id m.
Proof.
  intros Hpos Hne H1 H2.
  rewrite <- (insert_delete_id m (id, h1) b1) by exact H1.
  rewrite sum_balances_fresh by apply lookup_delete_eq.
  assert (b2 <= sum_balances id (delete (id, h1) m)).
  { apply (sum_balances_covers id h2).
    - intros k x Hk. apply lookup_delete_Some in Hk as [_ Hk]. eauto.
    - rewrite lookup_delete_ne; [exact H2|]. congruence. }
  unfold add_holding. cbn. rewrite bool_decide_eq_true_2 by reflexivity. lia.
Qed.

Lemma balances_nonneg s :
  pad_fine s -> forall k b, balances (pad s) !! k = Some b -> 0 <= b.
Proof. intros (_ & _ & _ & Hb & _) k b Hk. apply (Hb k b Hk). Qed.

Lemma holding_le_sold s id holder b c :
  reachable s -> balances (pad s) !! (id, holder) = Some b ->
  curves (pad s) !! id = Some c -> 0 <= b <= tokens_sold c.
Proof.
  intros Hr Hb Hc.
  pose proof (reachable_fine s Hr) as Hf.
  pose proof (reachable_ok s Hr) as (_ & _ & Hsum).
  split; [apply (balances_nonneg s Hf _ _ Hb)|].
  specialize (Hsum id). rewrite Hc in Hsum. cbn in Hsum. rewrite <- Hsum.
  apply (sum_balances_covers id holder); auto. apply balances_nonneg; auto.
Qed.

(** X7. No holder has more tokens than were sold: what [get-balance]
    returns lies between 0 and the [tokens-sold] of the curve, hence below
    its total supply, and it is 0 for a curve that does not exist. *)
Theorem holder_balance_bounded (s : chain) (id : Z) (holder : principal) :
  reachable s ->
  exists b, query (Launchpad.get_balance id holder) s = Ok b /\
    match curves (pad s) !! id with
    | Some c => 0 <= b <= tokens_sold c /\ b <= total_supply c
    | None => b = 0
    end.
Proof.
  intros Hr.
  exists (default 0 (balances (pad s) !! (id, holder))). split; [reflexivity|].
  pose proof (reachable_fine s Hr) as Hf.
  pose proof (reachable_ok s Hr) as (_ & Hok & _).
  destruct (balances (pad s) !! (id, holder)) as [b|] eqn:Hb; cbn.
  - destruct (curves (pad s) !! id) as [c|] eqn:Hc.
    + pose proof (holding_le_sold s id holder b c Hr Hb Hc).
      destruct (Hok id c Hc) as (_ & _ & _ & _ & ? & _). lia.
    + destruct Hf as (_ & _ & _ & Hent & _).
      destruct (Hent _ _ Hb) as [_ [c Hs]]. cbn in Hs. congruence.
  - destruct (curves (pad s) !! id) as [c|] eqn:Hc; [|reflexivity].
    destruct (Hok id c Hc) as (_ & _ & _ & _ & ? & _). lia.
Qed.

Lemma holder_balance_bounded_witness :
  exists b, query (Launchpad.get_balance 0 Scenario.wallet_2) Scenario.bought = Ok b /\
    0 <= b <= 1000000000000000.
Proof.
  destruct (holder_balance_bounded Scenario.bought 0 Scenario.wallet_2
              reachable_bought) as (b & Hq & Hb).
  exists b. split; [exact Hq|].
  destruct (curves (pad Scenario.bought) !! 0) as [c|] eqn:Hc;
    [|vm_compute in Hc; discriminate Hc].
  vm_compute in Hc. injection Hc as <-. cbn in Hb. lia.
Defined.

Lemma reachable_from_reachable s0 s :
  reachable s0 -> reachable_from s0 s -> reachable s.
Proof.
  intros H0. induction 1; eauto using reachable.
Qed.

Lemma held_nonneg s id c :
  state_ok s -> pad_fine s -> curves (pad s) !! id = Some c -> 0 <= held c.
Proof.
  intros (_ & Hok & _) (_ & H2 & _) Hc.
  destruct (Hok id c Hc) as (_ & _ & _ & ? & _).
  destruct (H2 id c Hc) as ((_ & _ & _ & ? & _) & _).
  unfold held. lia.
Qed.

Lemma solvent_kept s0 s :
  reachable s0 -> solvent s0 -> reachable_from s0 s -> solvent s.
Proof.
  intros H0 Hs0 Hrun.
  induction Hrun as [| s tx_sender a Hrun IH Hwf | s s' Hrun IH Henv].
  - exact Hs0.
  - pose proof (reachable_from_reachable _ _ H0 Hrun) as Hr.
    apply step_fine; auto using reachable_ok, reachable_fine.
  - destruct Henv. revert IH. unfold solvent, stx_balance. cbn. lia.
Qed.

(** X8. The launchpad stays solvent.  Once the STX the launchpad holds
    cover the reserves and the fee pools of all its curves, they do so
    after every transaction and every move of the rest of the chain: each
    buy brings in what it adds to the reserve and to the pool, each sell
    and each graduation pays out what it takes from them.  In particular
    the reserve and the pool of each single curve are covered. *)
Theorem launchpad_solvent (s0 s : chain) :
  reachable s0 -> solvent s0 -> reachable_from s0 s ->
  custody (curves (pad s)) <= stx_balance s LAUNCHPAD /\
  forall id c, curves (pad s) !! id = Some c ->
    stx_reserve c + accrued_fees c <= stx_balance s LAUNCHPAD.
Proof.
  intros H0 Hs0 Hrun.
  pose proof (solvent_kept s0 s H0 Hs0 Hrun) as Hsol.
  split; [exact Hsol|].
  intros id c Hc.
  pose proof (reachable_from_reachable _ _ H0 Hrun) as Hr.
  fold (held c). etransitivity; [|exact Hsol].
  apply (custody_covers (curves (pad s))) with (id := id); auto.
  intros j cj Hj. apply (held_nonneg s j); auto using reachable_ok, reachable_fine.
Qed.

Lemma launchpad_solvent_witness :
  custody (curves (pad Scenario.bought)) <= stx_balance Scenario.bought LAUNCHPAD.
Proof.
  apply (launchpad_solvent Scenario.fresh Scenario.bought).
  - apply reach_genesis.
  - unfold solvent. vm_compute. discriminate.
  - apply from_call; [|uint_range].
    apply from_call; [|exact I].
    apply from_call; [|uint_range].
    apply from_here.
Defined.

(** ** Selling *)

Lemma sell_quote_agrees seller id amount min_out r s s' :
  Launchpad.sell seller id amount min_out s = Ok (r, s') ->
  Launchpad.get_sell_quote id amount s = Ok (r, s).
Proof.
  unfold Launchpad.sell, Launchpad.map_curve, Launchpad.map_balance.
  intros H.
  do 12 inv_bind H. subst.
  unfold Launchpad.get_sell_quote, Launchpad.map_curve.
  apply run_gets. eapply run_unwrap; [eassumption|].
  apply run_usub; auto. apply run_uadd; auto.
  apply run_udiv; auto. apply run_usub; auto. apply run_usub; auto.
  apply run_umul; auto. apply run_udiv; auto. apply run_usub; auto.
  clear - H. inv_M H. reflexivity.
Qed.

(** X9. A successful [sell] pays what [get-sell-quote] announces on the
    same state: the gross proceeds are what the reserve loses when the
    token reserve grows by the amount sold, the fee is taken out of the
    gross proceeds and stays in the fee pool, the seller is debited the
    tokens and credited the STX, which leave the launchpad. *)
Theorem sell_meets_quote (s : chain) (seller : principal)
    (id amount min_out out f : Z) (s' : chain) :
  call (Launchpad.sell seller id amount min_out) s = (Ok (out, f), s') ->
  exists c bal,
    curves (pad s) !! id = Some c /\
    balances (pad s) !! (id, seller) = Some bal /\
    f = spec_sell_fee c amount /\ out = spec_amount_out c amount /\
    0 < out /\ min_out <= out /\
    call (Launchpad.get_sell_quote id amount) s = (Ok (out, f), s) /\
    balances (pad s') !! (id, seller) = Some (bal - amount) /\
    stx_balance s' seller = stx_balance s seller + out /\
    stx_balance s' LAUNCHPAD = stx_balance s LAUNCHPAD - out /\
    exists c', curves (pad s') !! id = Some c' /\
      stx_reserve c' = stx_reserve c - (out + f) /\
      tokens_sold c' = tokens_sold c - amount /\
      accrued_fees c' = accrued_fees c + f /\ graduated c' = false.
Proof.
  intros H. apply call_Ok in H.
  pose proof (sell_quote_agrees _ _ _ _ _ _ _ H) as Hq.
  pose proof (sell_payee _ _ _ _ _ _ _ H) as Hne.
  apply sell_effect in H
    as (c & bal & Hc & Hb & Hg & Hpos & Hle & -> & -> & _ & _ & _ & _ & Hout & Hmin & ->).
  exists c, bal.
  split; [exact Hc|]. split; [exact Hb|]. split; [reflexivity|].
  split; [reflexivity|]. split; [exact Hout|]. split; [exact Hmin|].
  split; [apply call_Ok; exact Hq|].
  split; [cbn; apply lookup_insert_eq|].
  split; [unfold stx_balance; cbn -[LAUNCHPAD ledger_move];
          rewrite ledger_move_recipient; reflexivity|].
  split; [unfold stx_balance; cbn -[LAUNCHPAD ledger_move];
          rewrite ledger_move_sender by auto; reflexivity|].
  exists (sold_curve c amount).
  split; [cbn; apply lookup_insert_eq|].
  cbn. unfold spec_amount_out, spec_gross. repeat split; auto; lia.
Qed.

Lemma sell_meets_quote_witness :
  exists s',
    call (Launchpad.sell Scenario.wallet_2 0 5000000000000 0) Scenario.bought
    = (Ok (50231310, 507386), s') /\
    call (Launchpad.get_sell_quote 0 5000000000000) Scenario.bought
    = (Ok (50231310, 507386), Scenario.bought).
Proof.
  exists Scenario.resold.
  assert (H : call (Launchpad.sell Scenario.wallet_2 0 5000000000000 0)
                Scenario.bought
              = (Ok (50231310, 507386), Scenario.resold))
    by (vm_compute; reflexivity).
  split; [exact H|].
  destruct (sell_meets_quote _ _ _ _ _ _ _ _ H)
    as (c & bal & _ & _ & _ & _ & _ & _ & Hq & _).
  exact Hq.
Defined.

Lemma sell_reserve_bounds c amount :
  curve_ok c -> 0 < amount -> amount <= tokens_sold c ->
  virtual_stx c <= k c / (token_reserve_of c + amount) /\
  0 <= spec_sell_reserve c amount <= stx_reserve c.
Proof.
  intros (Hv & Hts & Hk & Hr & Hsold & Hprod & Hfloor) Hpos Hle.
  unfold spec_sell_reserve, token_reserve_of in *.
  set (tr := total_supply c - tokens_sold c) in *.
  assert (Hlow : virtual_stx c <= k c / (tr + amount)).
  { apply Z.div_le_lower_bound; [lia|]. rewrite Hk. unfold tr. nia. }
  split; [exact Hlow|]. split; [lia|].
  assert (k c / (tr + amount) <= virtual_stx c + stx_reserve c); [|lia].
  destruct Hfloor as [Hf|Hf].
  - pose proof (Z.mul_succ_div_gt (k c) (virtual_stx c + stx_reserve c)) as Hgt.
    rewrite <- Hf in Hgt.
    apply Z.div_le_upper_bound; [lia|]. nia.
  - assert (tr <> 0).
    { intros H0. rewrite H0 in Hf. rewrite Z.div_0_r in Hf. lia. }
    rewrite Hf. apply Z.div_le_compat_l; [rewrite Hk; nia | unfold tr in *; lia].
Qed.

Lemma sell_run seller id c bal amount min_out s :
  curves (pad s) !! id = Some c ->
  balances (pad s) !! (id, seller) = Some bal ->
  graduated c = false -> 0 < amount -> amount <= bal ->
  amount <= tokens_sold c -> tokens_sold c <= total_supply c ->
  token_reserve_of c + amount <= UINT_MAX ->
  virtual_stx c <= k c / (token_reserve_of c + amount) ->
  spec_sell_reserve c amount <= stx_reserve c ->
  spec_gross c amount * fee_bps c <= UINT_MAX ->
  spec_sell_fee c amount <= spec_gross c amount ->
  0 < spec_amount_out c amount -> min_out <= spec_amount_out c amount ->
  seller <> LAUNCHPAD -> spec_amount_out c amount <= stx_balance s LAUNCHPAD ->
  accrued_fees c + spec_sell_fee c amount <= UINT_MAX ->
  Launchpad.sell seller id amount min_out s
  = Ok ((spec_amount_out c amount, spec_sell_fee c amount),
        sold_state seller id c bal amount s).
Proof.
  intros Hc Hb Hg Hpos Hle Hsold Hts Hadd Hlow Hres Hmul Hfee Hout Hmin Hne
    Hfund Hacc.
  unfold spec_amount_out, spec_sell_fee, spec_gross, spec_sell_reserve,
    token_reserve_of in *.
  unfold Launchpad.sell, Launchpad.map_curve, Launchpad.map_balance,
    Launchpad.put_curve, Launchpad.put_balance, Launchpad.pay_from_contract.
  change BPS_DENOM with 10000.
  apply run_gets. eapply run_unwrap; [exact Hc|].
  apply run_gets. eapply run_unwrap; [exact Hb|].
  apply run_usub; [lia|]. apply run_uadd; [lia|].
  apply run_udiv; [lia|]. apply run_usub; [lia|]. apply run_usub; [lia|].
  apply run_umul; [lia|]. apply run_udiv; [discriminate|].
  apply run_usub; [lia|].
  apply run_asserts; [rewrite Hg; reflexivity|].
  apply run_asserts; [apply Z.ltb_lt; lia|].
  apply run_asserts; [apply Z.leb_le; lia|].
  apply run_asserts; [apply Z.ltb_lt; lia|].
  apply run_asserts; [apply Z.leb_le; lia|].
  eapply run_bind; [apply stx_transfer_run; auto; lia|].
  apply run_usub; [lia|]. apply run_uadd; [lia|].
  apply run_modify. apply run_usub; [lia|]. apply run_modify.
  reflexivity.
Qed.

(** X10. A holder can always leave.  On a solvent reachable state, a
    holder other than the launchpad who sells a positive amount within
    their balance on a curve that has not graduated is paid: the
    subtractions of the quote do not underflow, and the STX of the
    launchpad cover the proceeds.  What can still stop the sale is the
    caller's own [min-stx-out], proceeds that round to nothing, and the
    128-bit limit of the fee computation. *)
Theorem sell_succeeds (s : chain) (seller : principal) (id amount min_out : Z)
    (c : curve) (bal : Z) :
  reachable s -> solvent s ->
  curves (pad s) !! id = Some c -> graduated c = false ->
  balances (pad s) !! (id, seller) = Some bal ->
  0 < amount -> amount <= bal -> seller <> LAUNCHPAD ->
  0 < spec_amount_out c amount -> min_out <= spec_amount_out c amount ->
  spec_gross c amount * fee_bps c <= UINT_MAX ->
  accrued_fees c + spec_sell_fee c amount <= UINT_MAX ->
  call (Launchpad.sell seller id amount min_out) s
  = (Ok (spec_amount_out c amount, spec_sell_fee c amount),
     sold_state seller id c bal amount s) /\
  0 <= spec_sell_fee c amount /\
  spec_amount_out c amount + spec_sell_fee c amount <= stx_reserve c.
Proof.
  intros Hr Hsol Hc Hg Hb Hpos Hle Hne Hout Hmin Hmul Hacc.
  pose proof (reachable_ok s Hr) as Hs.
  pose proof (reachable_fine s Hr) as Hf.
  assert (Hok : curve_ok c) by (destruct Hs as (_ & H2 & _); eauto).
  assert (Hfine : curve_fine c) by (destruct Hf as (_ & H2 & _); apply (H2 id c Hc)).
  pose proof (holding_le_sold s id seller bal c Hr Hb Hc) as [_ Hbs].
  destruct (sell_reserve_bounds c amount Hok Hpos) as (Hlow & Hres0 & Hres);
    [lia|].
  pose proof Hok as (Hv & Hts & Hk & Hr0 & Hsold & _).
  destruct Hfine as (Hfee & _ & _ & Hacc0 & Hkmax & _).
  change MAX_FEE_BPS with 500 in Hfee.
  assert (Hgross : 0 <= spec_gross c amount <= stx_reserve c)
    by (unfold spec_gross; lia).
  assert (Hfee' : 0 <= spec_sell_fee c amount <= spec_gross c amount)
    by (apply bps_share_le; lia).
  assert (Hheld : held c <= stx_balance s LAUNCHPAD).
  { etransitivity; [|exact Hsol].
    apply (custody_covers (curves (pad s))) with (id := id); auto.
    intros j cj Hj. apply (held_nonneg s j); auto. }
  unfold held in Hheld.
  split; [|unfold spec_amount_out; lia].
  apply call_Ok. apply sell_run; auto; try lia.
  - unfold token_reserve_of. nia.
  - unfold spec_amount_out. lia.
Qed.

Lemma sell_succeeds_witness :
  call (Launchpad.sell Scenario.wallet_2 0 5000000000000 0) Scenario.bought
  = (Ok (50231310, 507386), Scenario.resold).
Proof.
  pose (c := bought_curve
               (launched_curve Scenario.wallet_1 "TestToken" "TST"
                  Scenario.registered) 100000000).
  assert (Hc : curves (pad Scenario.bought) !! 0 = Some c)
    by (vm_compute; reflexivity).
  assert (Hb : balances (pad Scenario.bought) !! (0, Scenario.wallet_2)
               = Some 9802950787207) by (vm_compute; reflexivity).
  assert (Hsol : solvent Scenario.bought).
  { apply (solvent_kept Scenario.fresh).
    - apply reach_genesis.
    - unfold solvent. vm_compute. discriminate.
    - apply from_call; [|uint_range].
      apply from_call; [|exact I].
      apply from_call; [|uint_range].
      apply from_here. }
  assert (Hg : graduated c = false) by reflexivity.
  assert (H1 : 0 < 5000000000000) by lia.
  assert (H2 : 5000000000000 <= 9802950787207) by lia.
  assert (H3 : Scenario.wallet_2 <> LAUNCHPAD) by discriminate.
  assert (H4 : 0 < spec_amount_out c 5000000000000) by (vm_compute; reflexivity).
  assert (H5 : 0 <= spec_amount_out c 5000000000000) by (vm_compute; discriminate).
  assert (H6 : spec_gross c 5000000000000 * fee_bps c <= UINT_MAX)
    by (vm_compute; discriminate).
  assert (H7 : accrued_fees c + spec_sell_fee c 5000000000000 <= UINT_MAX)
    by (vm_compute; discriminate).
  destruct (sell_succeeds Scenario.bought Scenario.wallet_2 0 5000000000000 0
              c 9802950787207 reachable_bought Hsol Hc Hg Hb H1 H2 H3 H4 H5 H6 H7)
    as [H _].
  rewrite H. vm_compute. reflexivity.
Defined.

(** ** Graduation, continued *)

Lemma graduate_internal_refused id c s :
  curves (pad s) !! id = Some c ->
  accrued_fees c * creator_share_bps c <= UINT_MAX ->
  spec_issuer_share c <= accrued_fees c ->
  (stx_reserve c < graduation_stx c ->
   Launchpad.graduate_internal id s = Err ERR_NOT_GRADUATED) /\
  (graduation_stx c <= stx_reserve c -> graduated c = true ->
   Launchpad.graduate_internal id s = Err ERR_GRADUATED).
Proof.
  intros Hc Hmul Hshare. split.
  - intros Hlt.
    unfold Launchpad.graduate_internal, Launchpad.map_curve.
    apply run_gets. eapply run_unwrap; [exact Hc|].
    apply run_umul; auto. apply run_udiv; [discriminate|].
    apply run_usub; [exact Hshare|]. apply run_gets.
    apply run_refused. apply Z.leb_gt. exact Hlt.
  - intros Hle Hg.
    unfold Launchpad.graduate_internal, Launchpad.map_curve.
    apply run_gets. eapply run_unwrap; [exact Hc|].
    apply run_umul; auto. apply run_udiv; [discriminate|].
    apply run_usub; [exact Hshare|]. apply run_gets.
    apply run_asserts; [apply Z.leb_le; exact Hle|].
    apply run_refused. rewrite Hg. reflexivity.
Qed.

(** X11. What the public [graduate] answers on a reachable state.  It
    never succeeds: a buy that reaches the threshold graduates the curve
    before it returns, so a curve that has not graduated is always below
    its threshold and the call returns u1412, provided the share
    computation of the [let] fits 128 bits; on a graduated curve it
    returns u1403, and u1402 when there is no curve.  The state is the
    same after the call. *)
Theorem graduate_outcome (s : chain) (id : Z) :
  reachable s ->
  match curves (pad s) !! id with
  | None => call (Launchpad.graduate id) s = (Err ERR_CURVE_NOT_FOUND, s)
  | Some c =>
      if graduated c
      then call (Launchpad.graduate id) s = (Err ERR_GRADUATED, s)
      else accrued_fees c * creator_share_bps c <= UINT_MAX ->
           call (Launchpad.graduate id) s = (Err ERR_NOT_GRADUATED, s)
  end /\
  forall b s', call (Launchpad.graduate id) s <> (Ok b, s').
Proof.
  intros Hr. split; [|intros b s'; apply manual_graduate_never_succeeds; exact Hr].
  assert (Hfail : forall code, Launchpad.graduate_internal id s = Err code ->
            call (Launchpad.graduate id) s = (Err code, s)).
  { intros code Hi. unfold call, Launchpad.graduate. unfold bind at 1.
    rewrite Hi. reflexivity. }
  destruct (curves (pad s) !! id) as [c|] eqn:Hc.
  - destruct (reachable_fine s Hr) as (_ & H2 & _).
    destruct (H2 id c Hc) as ((_ & Hsh & _ & Hacc & _ & Hfr) & _).
    destruct (reachable_below_threshold s Hr) as [_ Hbt].
    pose proof (bps_share_le _ _ Hacc Hsh) as Hshare.
    destruct (graduated c) eqn:Hg.
    + destruct (Hfr eq_refl) as [H0 Hthr].
      apply Hfail. apply (graduate_internal_refused id c s Hc); auto.
      * rewrite H0. unfold UINT_MAX. lia.
      * apply Hshare.
    + intros Hmul. specialize (Hbt id c Hc Hg).
      apply Hfail. apply (graduate_internal_refused id c s Hc Hmul); auto.
      apply Hshare.
  - apply Hfail. unfold Launchpad.graduate_internal, Launchpad.map_curve.
    apply run_gets. rewrite Hc. reflexivity.
Qed.

Lemma graduate_outcome_witness :
  call (Launchpad.graduate 0) Scenario.bought
  = (Err ERR_NOT_GRADUATED, Scenario.bought).
Proof.
  destruct (graduate_outcome Scenario.bought 0 reachable_bought) as [H _].
  destruct (curves (pad Scenario.bought) !! 0) as [c|] eqn:Hc;
    [|vm_compute in Hc; discriminate Hc].
  vm_compute in Hc. injection Hc as <-.
  cbn [graduated] in H. apply H. vm_compute. discriminate.
Defined.

(** X12. Graduation halts trading for good.  Once a curve has graduated
    its record never changes again, whatever is called afterwards, and no
    [buy], [sell] or [pay-via-curve] on it ever succeeds. *)
Theorem trading_halts (s : chain) (id : Z) (c : curve) :
  reachable s -> curves (pad s) !! id = Some c -> graduated c = true ->
  forall s', later s s' ->
    curves (pad s') !! id = Some c /\
    (forall who amount min_out r s'',
       call (Launchpad.buy who id amount min_out) s' <> (Ok r, s'')) /\
    (forall who amount min_out r s'',
       call (Launchpad.sell who id amount min_out) s' <> (Ok r, s'')) /\
    (forall who amount nonce min_out r s'',
       call (Router.pay_via_curve who id amount nonce min_out) s' <> (Ok r, s'')).
Proof.
  intros Hr Hc Hg s' Hl.
  destruct (later_ok s s' (reachable_ok s Hr) Hl) as [_ He].
  destruct (He id c Hc) as (c' & Hc' & Hev).
  assert (c' = c) by (apply Hev; exact Hg). subst c'.
  assert (Hbuy : forall who amount min_out r s'',
            Launchpad.buy who id amount min_out s' <> Ok (r, s'')).
  { intros who amount min_out [t f] s'' H.
    apply buy_effect in H as (c1 & Hc1 & Hg1 & _). congruence. }
  split; [exact Hc'|]. split; [|split].
  - intros who amount min_out r s'' H. apply call_Ok in H.
    apply (Hbuy _ _ _ _ _ H).
  - intros who amount min_out [out f] s'' H. apply call_Ok in H.
    apply sell_effect in H as (c1 & bal & Hc1 & _ & Hg1 & _). congruence.
  - intros who amount nonce min_out [t f] s'' H. apply call_Ok in H.
    apply pay_via_curve_effect in H as (_ & _ & s1 & H & _).
    apply (Hbuy _ _ _ _ _ H).
Qed.

Lemma trading_halts_witness :
  ~ exists r s'',
      call (Launchpad.sell Scenario.wallet_2 0 1000000 0)
        (step Scenario.wallet_2 (Buy 0 200000000 0) Scenario.launched_A)
      = (Ok r, s'').
Proof.
  set (s := step Scenario.wallet_2 (Buy 0 200000000 0) Scenario.launched_A).
  assert (Hr : reachable s)
    by (apply reach_call; [apply reachable_launched_A | uint_range]).
  destruct (curves (pad s) !! 0) as [c|] eqn:Hc;
    [|vm_compute in Hc; discriminate Hc].
  assert (Hg : graduated c = true)
    by (vm_compute in Hc; injection Hc as <-; reflexivity).
  destruct (trading_halts s 0 c Hr Hc Hg s (later_now s)) as (_ & _ & Hsell & _).
  intros (r & s'' & H). apply (Hsell _ _ _ _ _ H).
Defined.

(** ** The router, continued *)

(** X13. The statistics of the router count its receipts: on a reachable
    state [get-stats] returns the number of receipts as [total-payments]
    and the sum of their amounts as [total-volume-stx]. *)
Theorem router_stats_count (s : chain) :
  reachable s ->
  exists st, query Router.get_stats s = Ok st /\
    Router.st_total_payments st = Z.of_nat (size (receipts (rtr s))) /\
    Router.st_total_volume_stx st = volume_of (receipts (rtr s)) /\
    0 <= Router.st_total_volume_stx st /\
    (query Router.get_admin s = Ok (Router.st_admin st)).
Proof.
  intros Hr. destruct (reachable_router s Hr) as (Hn & Hv & Hrc).
  eexists. split; [reflexivity|]. cbn.
  split; [exact Hn|]. split; [exact Hv|]. split; [|reflexivity].
  rewrite Hv. clear Hn Hv.
  assert (Hpos : forall nonce rc, receipts (rtr s) !! nonce = Some rc ->
            0 <= rc_stx_amount rc).
  { intros nonce rc H. destruct (Hrc nonce rc H) as (? & _). lia. }
  clear Hrc. revert Hpos.
  induction (receipts (rtr s)) as [|n rc m Hm IH] using map_ind; intros Hpos.
  - unfold volume_of. rewrite map_fold_empty. lia.
  - rewrite volume_of_fresh by exact Hm.
    assert (0 <= rc_stx_amount rc) by (apply (Hpos n); apply lookup_insert_eq).
    assert (0 <= volume_of m).
    { apply IH. intros n' rc' H'. apply (Hpos n').
      rewrite lookup_insert_ne; auto. intros ->. congruence. }
    lia.
Qed.

Lemma router_stats_count_witness :
  exists st,
    query Router.get_stats
      (step Scenario.wallet_2 (PayViaCurve 0 5000000 "0123456789abcdef" 0)
         Scenario.launched) = Ok st /\
    Router.st_total_payments st = 1 /\ Router.st_total_volume_stx st = 5000000.
Proof.
  set (s := step Scenario.wallet_2 (PayViaCurve 0 5000000 "0123456789abcdef" 0)
              Scenario.launched).
  assert (Hr : reachable s)
    by (apply reach_call; [apply reachable_launched | uint_range]).
  destruct (router_stats_count s Hr) as (st & Hq & Hn & Hv & _).
  exists st. split; [exact Hq|].
  split; [rewrite Hn | rewrite Hv]; vm_compute; reflexivity.
Defined.

(** X14. Every receipt records a purchase that took place.  What
    [verify-payment] returns on a reachable state has a positive amount
    and a positive number of tokens, a fee of at most a twentieth of the
    amount, the identifier of an existing curve, and a block height that
    is not in the future; its nonce is reported as used. *)
Theorem receipt_records_purchase (s : chain) (nonce : buff) (rc : receipt) :
  reachable s ->
  query (Router.verify_payment nonce) s = Ok (Some rc) ->
  0 < rc_stx_amount rc /\ 0 < tokens_received rc /\
  0 <= rc_fee rc /\ 20 * rc_fee rc <= rc_stx_amount rc /\
  (exists c, query (Launchpad.get_curve (rc_curve_id rc)) s = Ok (Some c)) /\
  block rc <= stacks_block_height s /\
  query (Router.is_nonce_available nonce) s = Ok false.
Proof.
  intros Hr Hq. destruct (reachable_router s Hr) as (_ & _ & Hrc).
  unfold query, call, Router.verify_payment, gets in Hq. cbn in Hq.
  injection Hq as Hq.
  destruct (Hrc nonce rc Hq) as (? & ? & ? & ? & [c Hc] & ?).
  repeat split; auto.
  - exists c. unfold query, call, Launchpad.get_curve, Launchpad.map_curve, gets.
    cbn. rewrite Hc. reflexivity.
  - unfold query, call, Router.is_nonce_available, gets. cbn.
    rewrite Hq. reflexivity.
Qed.

Lemma receipt_records_purchase_witness :
  exists rc,
    query (Router.verify_payment "0123456789abcdef")
      (step Scenario.wallet_2 (PayViaCurve 0 5000000 "0123456789abcdef" 0)
         Scenario.launched) = Ok (Some rc) /\
    0 < tokens_received rc /\ 20 * rc_fee rc <= rc_stx_amount rc.
Proof.
  set (s := step Scenario.wallet_2 (PayViaCurve 0 5000000 "0123456789abcdef" 0)
              Scenario.launched).
  assert (Hr : reachable s)
    by (apply reach_call; [apply reachable_launched | uint_range]).
  destruct (query (Router.verify_payment "0123456789abcdef") s)
    as [[rc|]| |] eqn:Hq; try (vm_compute in Hq; discriminate Hq).
  exists rc. split; [reflexivity|].
  destruct (receipt_records_purchase s _ rc Hr Hq) as (_ & Ht & _ & Hf & _).
  split; assumption.
Defined.

(** ** Launching *)

(** X15. What [launch] answers on a reachable state, provided the product
    of the two default reserves and the next identifier fit 128 bits: an
    unregistered caller gets u1400; a registered caller who has a curve
    gets u1401; an empty name or symbol gets u1411; every other call
    succeeds, returns the number of curves launched so far as the new
    identifier, stores under it a curve with the current defaults, an
    empty reserve and the caller as creator, and leaves every other curve
    as it was.  The checks of the two default reserves never fail. *)
Theorem launch_outcome (s : chain) (issuer : principal) (nm sy : string) :
  reachable s ->
  default_virtual_stx (pad s) * default_total_supply (pad s) <= UINT_MAX ->
  total_curves (pad s) + 1 <= UINT_MAX ->
  (agents s !! issuer = None ->
   call (Launchpad.launch issuer nm sy) s = (Err ERR_NOT_REGISTERED, s)) /\
  (is_Some (agents s !! issuer) -> is_Some (agent_curve (pad s) !! issuer) ->
   call (Launchpad.launch issuer nm sy) s = (Err ERR_ALREADY_LAUNCHED, s)) /\
  (is_Some (agents s !! issuer) -> agent_curve (pad s) !! issuer = None ->
   String.length nm = 0%nat \/ String.length sy = 0%nat ->
   call (Launchpad.launch issuer nm sy) s = (Err ERR_INVALID_PARAMS, s)) /\
  (is_Some (agents s !! issuer) -> agent_curve (pad s) !! issuer = None ->
   String.length nm <> 0%nat -> String.length sy <> 0%nat ->
   exists s',
     call (Launchpad.launch issuer nm sy) s = (Ok (total_curves (pad s)), s') /\
     query (Launchpad.get_curve (total_curves (pad s))) s'
     = Ok (Some (launched_curve issuer nm sy s)) /\
     query (Launchpad.get_agent_curve issuer) s' = Ok (Some (total_curves (pad s))) /\
     total_curves (pad s') = total_curves (pad s) + 1 /\
     (forall id, id <> total_curves (pad s) ->
        query (Launchpad.get_curve id) s' = query (Launchpad.get_curve id) s) /\
     balances (pad s') = balances (pad s) /\ stx s' = stx s).
Proof.
  intros Hr Hmul Hnext.
  destruct (reachable_fine s Hr) as ((_ & _ & _ & Hts & Hvs & _) & _).
  assert (Hstart : forall B (g : Z -> M B) r,
            g (default_virtual_stx (pad s) * default_total_supply (pad s)) s = r ->
            bind (umul (default_virtual_stx (pad s)) (default_total_supply (pad s)))
              g s = r).
  { intros B g r H. apply run_umul; [exact Hmul | exact H]. }
  split; [|split; [|split]].
  - intros Hnone. apply call_fail. unfold Launchpad.launch.
    do 3 apply run_gets. apply Hstart.
    unfold Registry.is_registered. apply run_gets.
    apply run_refused. apply bool_decide_eq_false. rewrite Hnone.
    intros [? [=]].
  - intros Hreg [id Hid]. apply call_fail. unfold Launchpad.launch.
    do 3 apply run_gets. apply Hstart.
    unfold Registry.is_registered. apply run_gets.
    apply run_asserts; [apply bool_decide_eq_true; exact Hreg|].
    apply run_gets. apply run_refused.
    apply bool_decide_eq_false. congruence.
  - intros Hreg Hnone Hempty. apply call_fail. unfold Launchpad.launch.
    do 3 apply run_gets. apply Hstart.
    unfold Registry.is_registered. apply run_gets.
    apply run_asserts; [apply bool_decide_eq_true; exact Hreg|].
    apply run_gets.
    apply run_asserts; [apply bool_decide_eq_true; exact Hnone|].
    destruct (String.length nm) eqn:Hn.
    + apply run_refused. reflexivity.
    + apply run_asserts; [apply Z.ltb_lt; lia|].
      destruct Hempty as [Hempty|Hempty]; [discriminate Hempty|].
      rewrite Hempty. apply run_refused. reflexivity.
  - intros Hreg Hnone Hnm Hsy.
    exists (launched_state issuer nm sy s).
    split; [|split; [|split; [|split; [|split]]]].
    + apply call_run. unfold Launchpad.launch.
      do 3 apply run_gets. apply Hstart.
      unfold Registry.is_registered, Launchpad.put_curve. apply run_gets.
      apply run_asserts; [apply bool_decide_eq_true; exact Hreg|].
      apply run_gets.
      apply run_asserts; [apply bool_decide_eq_true; exact Hnone|].
      apply run_asserts; [apply Z.ltb_lt; lia|].
      apply run_asserts; [apply Z.ltb_lt; lia|].
      apply run_asserts; [apply Z.ltb_lt; lia|].
      apply run_asserts; [apply Z.ltb_lt; lia|].
      apply run_gets. apply run_gets. apply run_gets. apply run_gets.
      apply run_modify. apply run_modify.
      apply run_uadd; [cbn; lia|]. apply run_modify.
      reflexivity.
    + unfold query, call, Launchpad.get_curve, Launchpad.map_curve, gets. cbn.
      rewrite lookup_insert_eq. reflexivity.
    + unfold query, call, Launchpad.get_agent_curve, gets. cbn.
      rewrite lookup_insert_eq. reflexivity.
    + reflexivity.
    + intros id Hid.
      unfold query, call, Launchpad.get_curve, Launchpad.map_curve, gets. cbn.
      rewrite lookup_insert_ne by auto. reflexivity.
    + split; reflexivity.
Qed.

Lemma launch_outcome_witness :
  call (Launchpad.launch Scenario.wallet_1 "Again" "AGN") Scenario.launched
  = (Err ERR_ALREADY_LAUNCHED, Scenario.launched).
Proof.
  assert (H1 : default_virtual_stx (pad Scenario.launched)
               * default_total_supply (pad Scenario.launched) <= UINT_MAX)
    by (vm_compute; discriminate).
  assert (H2 : total_curves (pad Scenario.launched) + 1 <= UINT_MAX)
    by (vm_compute; discriminate).
  destruct (launch_outcome Scenario.launched Scenario.wallet_1 "Again" "AGN"
              reachable_launched H1 H2) as (_ & H & _).
  apply H; vm_compute; eauto.
Defined.

(** ** Transfers *)

(** X16. What [transfer] answers on a reachable state.  A sender with no
    balance entry gets u1405; otherwise a zero amount gets u1404, a
    transfer to oneself u1409, an amount above the balance u1405; every
    other transfer succeeds, whether the curve has graduated or not: it
    debits the sender and credits the recipient by the amount and touches
    neither the curves nor any STX.  The curve check never fails, because
    only existing curves have holders, and the credit never overflows,
    because two holders together own at most the tokens sold. *)
Theorem transfer_outcome (s : chain) (sender : principal) (id amount : Z)
    (recipient : principal) :
  reachable s ->
  match balances (pad s) !! (id, sender) with
  | None =>
      call (Launchpad.transfer sender id amount recipient) s
      = (Err ERR_INSUFFICIENT_BALANCE, s)
  | Some bal =>
      (amount <= 0 ->
       call (Launchpad.transfer sender id amount recipient) s
       = (Err ERR_ZERO_AMOUNT, s)) /\
      (0 < amount -> sender = recipient ->
       call (Launchpad.transfer sender id amount recipient) s
       = (Err ERR_SELF_TRANSFER, s)) /\
      (0 < amount -> sender <> recipient -> bal < amount ->
       call (Launchpad.transfer sender id amount recipient) s
       = (Err ERR_INSUFFICIENT_BALANCE, s)) /\
      (0 < amount -> sender <> recipient -> amount <= bal ->
       exists s',
         call (Launchpad.transfer sender id amount recipient) s = (Ok true, s') /\
         query (Launchpad.get_balance id sender) s' = Ok (bal - amount) /\
         (forall b, query (Launchpad.get_balance id recipient) s = Ok b ->
            query (Launchpad.get_balance id recipient) s' = Ok (b + amount)) /\
         (forall j h, (j, h) <> (id, sender) -> (j, h) <> (id, recipient) ->
            query (Launchpad.get_balance j h) s'
            = query (Launchpad.get_balance j h) s) /\
         curves (pad s') = curves (pad s) /\ stx s' = stx s)
  end.
Proof.
  intros Hr.
  destruct (balances (pad s) !! (id, sender)) as [bal|] eqn:Hb.
  2: { apply call_fail. unfold Launchpad.transfer, Launchpad.map_balance.
       apply run_gets. rewrite Hb. reflexivity. }
  pose proof (reachable_fine s Hr) as Hf.
  pose proof (reachable_ok s Hr) as (_ & Hok & Hsum).
  assert (Hcv : is_Some (curves (pad s) !! id)).
  { destruct Hf as (_ & _ & _ & Hent & _). apply (Hent _ _ Hb). }
  assert (Hstart :
            Launchpad.transfer sender id amount recipient s
            = bind (asserts (0 <? amount) ERR_ZERO_AMOUNT)
                (fun _ =>
                   bind (asserts (negb (String.eqb sender recipient)) ERR_SELF_TRANSFER)
                     (fun _ =>
                        bind (asserts (amount <=? bal) ERR_INSUFFICIENT_BALANCE)
                          (fun _ =>
                             debit <- usub bal amount ;;
                             Launchpad.put_balance id sender debit ;;
                             credit <- uadd (default 0 (balances (pad s) !! (id, recipient)))
                                         amount ;;
                             Launchpad.put_balance id recipient credit ;;
                             ret true))) s).
  { unfold Launchpad.transfer, Launchpad.map_balance, Launchpad.map_curve.
    apply run_gets. eapply run_unwrap; [exact Hb|].
    apply run_gets. apply run_gets.
    apply run_asserts; [apply bool_decide_eq_true; exact Hcv|].
    reflexivity. }
  split; [|split; [|split]].
  - intros Hle. apply call_fail. rewrite Hstart.
    apply run_refused. apply Z.ltb_ge. exact Hle.
  - intros Hpos Heq. apply call_fail. rewrite Hstart.
    apply run_asserts; [apply Z.ltb_lt; exact Hpos|].
    apply run_refused. apply negb_false_iff, String.eqb_eq. exact Heq.
  - intros Hpos Hne Hlt. apply call_fail. rewrite Hstart.
    apply run_asserts; [apply Z.ltb_lt; exact Hpos|].
    apply run_asserts; [apply negb_true_iff, String.eqb_neq; exact Hne|].
    apply run_refused. apply Z.leb_gt. exact Hlt.
  - intros Hpos Hne Hle.
    assert (Hfit : default 0 (balances (pad s) !! (id, recipient)) + amount
                   <= UINT_MAX).
    { destruct Hcv as [c Hc].
      destruct (Hok id c Hc) as (Hv & Hts & Hk & _ & [_ Hsold] & _).
      destruct Hf as (_ & H2 & _ & Hent & _).
      destruct (H2 id c Hc) as ((_ & _ & _ & _ & Hkmax & _) & _).
      assert (Hnn : forall k0 x, balances (pad s) !! k0 = Some x -> 0 <= x)
        by (intros k0 x Hx; apply (Hent _ _ Hx)).
      specialize (Hsum id). rewrite Hc in Hsum. cbn in Hsum.
      assert (default 0 (balances (pad s) !! (id, recipient)) + bal
              <= tokens_sold c).
      { rewrite <- Hsum.
        destruct (balances (pad s) !! (id, recipient)) as [br|] eqn:Hbr; cbn.
        - apply (sum_balances_covers_two id recipient sender); auto.
        - pose proof (sum_balances_covers id sender bal _ Hnn Hb). lia. }
      assert (total_supply c <= k c) by (rewrite Hk; nia).
      lia. }
    exists (transferred_state sender id amount recipient bal s).
    split; [|split; [|split; [|split]]].
    + apply call_run. rewrite Hstart. unfold Launchpad.put_balance.
      apply run_asserts; [apply Z.ltb_lt; exact Hpos|].
      apply run_asserts; [apply negb_true_iff, String.eqb_neq; exact Hne|].
      apply run_asserts; [apply Z.leb_le; exact Hle|].
      apply run_usub; [exact Hle|]. apply run_modify.
      apply run_uadd; [exact Hfit|]. apply run_modify.
      destruct s as [p r a n l h]; destruct p; reflexivity.
    + unfold query, call, Launchpad.get_balance, Launchpad.map_balance, bind, gets.
      cbn. rewrite lookup_insert_ne by congruence.
      rewrite lookup_insert_eq. reflexivity.
    + intros b.
      unfold query, call, Launchpad.get_balance, Launchpad.map_balance, bind, gets.
      cbn. rewrite lookup_insert_eq. intros [= <-]. reflexivity.
    + intros j h H1 H2.
      unfold query, call, Launchpad.get_balance, Launchpad.map_balance, bind, gets.
      cbn. rewrite !lookup_insert_ne by congruence. reflexivity.
    + split; reflexivity.
Qed.

Lemma transfer_outcome_witness :
  exists s',
    call (Launchpad.transfer Scenario.wallet_2 0 1000000 Scenario.wallet_3)
      Scenario.bought = (Ok true, s') /\
    query (Launchpad.get_balance 0 Scenario.wallet_2) s' = Ok 9802949787207.
Proof.
  pose proof (transfer_outcome Scenario.bought Scenario.wallet_2 0 1000000
                Scenario.wallet_3 reachable_bought) as H.
  assert (Hb : balances (pad Scenario.bought) !! (0, Scenario.wallet_2)
               = Some 9802950787207) by (vm_compute; reflexivity).
  rewrite Hb in H. destruct H as (_ & _ & _ & H).
  destruct H as (s' & Hcall & Hbal & _); [lia | discriminate | lia |].
  exists s'. split; [exact Hcall | exact Hbal].
Defined.

(** ** Administration *)

(** X17. The admin role of the launchpad changes hands in two steps.
    [transfer-admin] by the admin only records the candidate: the admin
    stays who it was, and nobody but the candidate can accept.  When the
    candidate calls [accept-admin] it becomes the admin and the pending
    entry is cleared, so that a second [accept-admin] fails, and the
    former admin can no longer name a successor.  A caller who is not the
    admin gets u1407 from [transfer-admin], [set-defaults] and
    [set-protocol-fee-recipient]. *)
Theorem admin_handover (s : chain) (new_admin : principal) :
  exists s1 s2,
    call (Launchpad.transfer_admin (admin (pad s)) new_admin) s
    = (Ok new_admin, s1) /\
    query Launchpad.get_admin s1 = Ok (admin (pad s)) /\
    (forall x, x <> new_admin ->
       call (Launchpad.accept_admin x) s1 = (Err ERR_NOT_ADMIN, s1)) /\
    call (Launchpad.accept_admin new_admin) s1 = (Ok new_admin, s2) /\
    query Launchpad.get_admin s2 = Ok new_admin /\
    (forall x, call (Launchpad.accept_admin x) s2 = (Err ERR_NOT_ADMIN, s2)) /\
    (admin (pad s) <> new_admin ->
     forall y, call (Launchpad.transfer_admin (admin (pad s)) y) s2
               = (Err ERR_NOT_ADMIN, s2)) /\
    (forall x, x <> admin (pad s) ->
       (forall y, call (Launchpad.transfer_admin x y) s = (Err ERR_NOT_ADMIN, s)) /\
       (forall ts vs gs fb cs,
          call (Launchpad.set_defaults x ts vs gs fb cs) s = (Err ERR_NOT_ADMIN, s)) /\
       (forall y, call (Launchpad.set_protocol_fee_recipient x y) s
                  = (Err ERR_NOT_ADMIN, s))) /\
    curves (pad s2) = curves (pad s) /\ balances (pad s2) = balances (pad s) /\
    stx s2 = stx s.
Proof.
  exists (set_pad (set_pending_admin (Some new_admin)) s).
  exists (set_pad (set_pending_admin None)
            (set_pad (set_admin new_admin)
               (set_pad (set_pending_admin (Some new_admin)) s))).
  assert (Hno : forall x y : principal, x <> y -> String.eqb x y = false)
    by (intros x y; apply String.eqb_neq).
  split; [|split; [|split; [|split; [|split; [|split; [|split; [|split]]]]]]].
  - apply call_run. unfold Launchpad.transfer_admin.
    apply run_gets. apply run_asserts; [apply String.eqb_refl|].
    apply run_modify. reflexivity.
  - reflexivity.
  - intros x Hx. apply call_fail. unfold Launchpad.accept_admin.
    apply run_gets. eapply run_unwrap; [reflexivity|].
    apply run_refused. apply Hno. exact Hx.
  - apply call_run. unfold Launchpad.accept_admin.
    apply run_gets. eapply run_unwrap; [reflexivity|].
    apply run_asserts; [apply String.eqb_refl|].
    apply run_modify. apply run_modify. reflexivity.
  - reflexivity.
  - intros x. apply call_fail. unfold Launchpad.accept_admin.
    apply run_gets. reflexivity.
  - intros Hne y. apply call_fail. unfold Launchpad.transfer_admin.
    apply run_gets. apply run_refused. apply Hno. exact Hne.
  - intros x Hx. split; [|split].
    + intros y. apply call_fail. unfold Launchpad.transfer_admin.
      apply run_gets. apply run_refused. apply Hno. exact Hx.
    + intros ts vs gs fb cs. apply call_fail. unfold Launchpad.set_defaults.
      apply run_gets. apply run_refused. apply Hno. exact Hx.
    + intros y. apply call_fail. unfold Launchpad.set_protocol_fee_recipient.
      apply run_gets. apply run_refused. apply Hno. exact Hx.
  - repeat split.
Qed.

Lemma admin_handover_witness :
  exists s1 s2,
    call (Launchpad.transfer_admin Scenario.deployer Scenario.wallet_1)
      Scenario.fresh = (Ok Scenario.wallet_1, s1) /\
    call (Launchpad.accept_admin Scenario.wallet_1) s1 = (Ok Scenario.wallet_1, s2) /\
    query Launchpad.get_admin s2 = Ok Scenario.wallet_1.
Proof.
  destruct (admin_handover Scenario.fresh Scenario.wallet_1)
    as (s1 & s2 & H1 & _ & _ & H2 & H3 & _).
  exists s1, s2. split; [exact H1|]. split; [exact H2 | exact H3].
Defined.

(** X18. The admin role of the router changes hands in the same two
    steps, with u1503 for every refusal; the receipts and the statistics
    are not touched. *)
Theorem router_admin_handover (s : chain) (new_admin : principal) :
  exists s1 s2,
    call (Router.transfer_admin (router_admin (rtr s)) new_admin) s
    = (Ok new_admin, s1) /\
    query Router.get_admin s1 = Ok (router_admin (rtr s)) /\
    (forall x, x <> new_admin ->
       call (Router.accept_admin x) s1 = (Err Router.ERR_UNAUTHORIZED, s1)) /\
    call (Router.accept_admin new_admin) s1 = (Ok new_admin, s2) /\
    query Router.get_admin s2 = Ok new_admin /\
    (forall x, call (Router.accept_admin x) s2 = (Err Router.ERR_UNAUTHORIZED, s2)) /\
    (forall x y, x <> router_admin (rtr s) ->
       call (Router.transfer_admin x y) s = (Err Router.ERR_UNAUTHORIZED, s)) /\
    (forall x, call (Router.accept_admin x) s
               = (Err Router.ERR_UNAUTHORIZED, s) \/
               router_pending_admin (rtr s) = Some x) /\
    receipts (rtr s2) = receipts (rtr s) /\
    total_payments (rtr s2) = total_payments (rtr s) /\
    total_volume_stx (rtr s2) = total_volume_stx (rtr s) /\
    pad s2 = pad s /\ stx s2 = stx s.
Proof.
  eexists. eexists.
  assert (Hno : forall x y : principal, x <> y -> String.eqb x y = false)
    by (intros x y; apply String.eqb_neq).
  split; [|split; [|split; [|split; [|split; [|split; [|split; [|split]]]]]]].
  - apply call_run. unfold Router.transfer_admin.
    apply run_gets. apply run_asserts; [apply String.eqb_refl|].
    apply run_modify. reflexivity.
  - reflexivity.
  - intros x Hx. apply call_fail. unfold Router.accept_admin.
    apply run_gets. eapply run_unwrap; [reflexivity|].
    apply run_refused. apply Hno. exact Hx.
  - apply call_run. unfold Router.accept_admin.
    apply run_gets. eapply run_unwrap; [reflexivity|].
    apply run_asserts; [apply String.eqb_refl|].
    apply run_modify. reflexivity.
  - reflexivity.
  - intros x. apply call_fail. unfold Router.accept_admin.
    apply run_gets. reflexivity.
  - intros x y Hx. apply call_fail. unfold Router.transfer_admin.
    apply run_gets. apply run_refused. apply Hno. exact Hx.
  - intros x. destruct (router_pending_admin (rtr s)) as [p|] eqn:Hp.
    + destruct (decide (x = p)) as [->|Hne]; [right; reflexivity|].
      left. apply call_fail. unfold Router.accept_admin.
      apply run_gets. eapply run_unwrap; [exact Hp|].
      apply run_refused. apply Hno. exact Hne.
    + left. apply call_fail. unfold Router.accept_admin.
      apply run_gets. rewrite Hp. reflexivity.
  - repeat split.
Qed.

Lemma router_admin_handover_witness :
  exists s1 s2,
    call (Router.transfer_admin Scenario.deployer Scenario.wallet_1)
      Scenario.fresh = (Ok Scenario.wallet_1, s1) /\
    call (Router.accept_admin Scenario.wallet_1) s1 = (Ok Scenario.wallet_1, s2) /\
    query Router.get_admin s2 = Ok Scenario.wallet_1.
Proof.
  destruct (router_admin_handover Scenario.fresh Scenario.wallet_1)
    as (s1 & s2 & H1 & _ & _ & H2 & H3 & _).
  exists s1, s2. split; [exact H1|]. split; [exact H2 | exact H3].
Defined.

(** ** Defaults and snapshots *)

(** X19. [set-defaults] by the admin, with positive supply, virtual
    reserve and threshold, a fee of at most 500 basis points and a
    creator share of at most 10000, succeeds; [get-stats] then shows the
    new values; every existing curve is left as it was; a curve launched
    afterwards takes the new values.  A fee above 500 basis points is
    refused with u1414 and a creator share above 10000 with u1411. *)
Theorem set_defaults_snapshot (s : chain) (ts vs gs fb cs : Z) :
  0 < ts -> 0 < vs -> 0 < gs ->
  exists s',
    (fb <= MAX_FEE_BPS -> cs <= MAX_CREATOR_SHARE_BPS ->
     call (Launchpad.set_defaults (admin (pad s)) ts vs gs fb cs) s = (Ok true, s')) /\
    (MAX_FEE_BPS < fb ->
     call (Launchpad.set_defaults (admin (pad s)) ts vs gs fb cs) s
     = (Err ERR_INVALID_FEE, s)) /\
    (fb <= MAX_FEE_BPS -> MAX_CREATOR_SHARE_BPS < cs ->
     call (Launchpad.set_defaults (admin (pad s)) ts vs gs fb cs) s
     = (Err ERR_INVALID_PARAMS, s)) /\
    query Launchpad.get_stats s'
    = Ok {| Launchpad.st_total_curves := total_curves (pad s);
            Launchpad.st_default_total_supply := ts;
            Launchpad.st_default_virtual_stx := vs;
            Launchpad.st_default_graduation_stx := gs;
            Launchpad.st_default_fee_bps := fb;
            Launchpad.st_default_creator_share_bps := cs |} /\
    (forall id, query (Launchpad.get_curve id) s' = query (Launchpad.get_curve id) s) /\
    (forall issuer nm sy id s'',
       call (Launchpad.launch issuer nm sy) s' = (Ok id, s'') ->
       exists c, curves (pad s'') !! id = Some c /\
         creator c = issuer /\
         total_supply c = ts /\ virtual_stx c = vs /\ k c = vs * ts /\
         graduation_stx c = gs /\ fee_bps c = fb /\ creator_share_bps c = cs /\
         stx_reserve c = 0 /\ tokens_sold c = 0 /\ accrued_fees c = 0 /\
         graduated c = false).
Proof.
  intros Hts Hvs Hgs.
  exists (set_pad (set_default_vars ts vs gs fb cs) s).
  assert (Hstart : forall r,
            bind (asserts (fb <=? MAX_FEE_BPS) ERR_INVALID_FEE)
              (fun _ =>
                 asserts (cs <=? MAX_CREATOR_SHARE_BPS) ERR_INVALID_PARAMS ;;
                 modify (set_pad (set_default_vars ts vs gs fb cs)) ;;
                 ret true) s = r ->
            Launchpad.set_defaults (admin (pad s)) ts vs gs fb cs s = r).
  { intros r H. unfold Launchpad.set_defaults.
    apply run_gets. apply run_asserts; [apply String.eqb_refl|].
    apply run_asserts; [apply Z.ltb_lt; exact Hts|].
    apply run_asserts; [apply Z.ltb_lt; exact Hvs|].
    apply run_asserts; [apply Z.ltb_lt; exact Hgs|].
    exact H. }
  split; [|split; [|split; [|split; [|split]]]].
  - intros Hfb Hcs. apply call_run. apply Hstart.
    apply run_asserts; [apply Z.leb_le; exact Hfb|].
    apply run_asserts; [apply Z.leb_le; exact Hcs|].
    apply run_modify. reflexivity.
  - intros Hfb. apply call_fail. apply Hstart.
    apply run_refused. apply Z.leb_gt. exact Hfb.
  - intros Hfb Hcs. apply call_fail. apply Hstart.
    apply run_asserts; [apply Z.leb_le; exact Hfb|].
    apply run_refused. apply Z.leb_gt. exact Hcs.
  - reflexivity.
  - intros id. reflexivity.
  - intros issuer nm sy id s'' H. apply call_Ok in H.
    apply launch_effect in H as (-> & _ & _ & _ & _ & _ & ->).
    eexists. split; [cbn; apply lookup_insert_eq|].
    cbn. repeat split.
Qed.

Lemma set_defaults_snapshot_witness :
  exists s',
    call (Launchpad.set_defaults Scenario.deployer
            1000000000000000 10000000000 100000000 100 8000) Scenario.registered
    = (Ok true, s').
Proof.
  assert (H1 : 0 < 1000000000000000) by lia.
  assert (H2 : 0 < 10000000000) by lia.
  assert (H3 : 0 < 100000000) by lia.
  destruct (set_defaults_snapshot Scenario.registered
              1000000000000000 10000000000 100000000 100 8000 H1 H2 H3)
    as (s' & H & _).
  exists s'. apply H; vm_compute; discriminate.
Defined.

(** X20. What a curve was launched with stays with it: whatever is called
    later, and however the defaults are changed, the curve is still
    there, with the creator, name, symbol, total supply, virtual reserve,
    [k], threshold, fee rate, creator share and creation height of its
    launch. *)
Theorem curve_parameters_frozen (s s' : chain) (id : Z) (c : curve) :
  reachable s -> later s s' -> curves (pad s) !! id = Some c ->
  exists c', query (Launchpad.get_curve id) s' = Ok (Some c') /\
    creator c' = creator c /\ name c' = name c /\ symbol c' = symbol c /\
    total_supply c' = total_supply c /\ virtual_stx c' = virtual_stx c /\
    k c' = k c /\ graduation_stx c' = graduation_stx c /\
    fee_bps c' = fee_bps c /\ creator_share_bps c' = creator_share_bps c /\
    created_at c' = created_at c.
Proof.
  intros Hr Hl Hc.
  destruct (later_ok s s' (reachable_ok s Hr) Hl) as [_ He].
  destruct (He id c Hc) as (c' & Hc' & Hev).
  exists c'. split.
  - unfold query, call, Launchpad.get_curve, Launchpad.map_curve, gets. cbn.
    rewrite Hc'. reflexivity.
  - unfold curve_evolves in Hev. tauto.
Qed.

Lemma curve_parameters_frozen_witness :
  exists c', query (Launchpad.get_curve 0) Scenario.bought = Ok (Some c') /\
    fee_bps c' = 100 /\ graduation_stx c' = 16667000000.
Proof.
  destruct (curves (pad Scenario.launched) !! 0) as [c|] eqn:Hc;
    [|vm_compute in Hc; discriminate Hc].
  destruct (curve_parameters_frozen Scenario.launched Scenario.bought 0 c
              reachable_launched (later_call _ _ _ _ (later_now _)) Hc)
    as (c' & Hq & _ & _ & _ & _ & _ & _ & Hg & Hf & _).
  exists c'. split; [exact Hq|].
  vm_compute in Hc. injection Hc as <-. split; assumption.
Defined.

(** ** Quotes *)

Lemma get_buy_quote_inv id amount t f s :
  query (Launchpad.get_buy_quote id amount) s = Ok (t, f) ->
  exists c, curves (pad s) !! id = Some c /\
    t = spec_tokens_out c amount /\ f = spec_buy_fee c amount /\
    spec_buy_fee c amount <= amount.
Proof.
  intros H. unfold query in H.
  destruct (call (Launchpad.get_buy_quote id amount) s) as [o s1] eqn:Hcall.
  cbn in H. subst o. apply call_Ok in Hcall.
  unfold Launchpad.get_buy_quote, Launchpad.map_curve in Hcall.
  inv_M Hcall. change BPS_DENOM with 10000 in *.
  eexists. split; [eassumption|]. repeat split; auto.
Qed.

Lemma get_sell_quote_inv id amount out f s :
  query (Launchpad.get_sell_quote id amount) s = Ok (out, f) ->
  exists c, curves (pad s) !! id = Some c /\
    out = spec_amount_out c amount /\ f = spec_sell_fee c amount /\
    token_reserve_of c + amount <> 0 /\
    spec_sell_reserve c amount <= stx_reserve c.
Proof.
  intros H. unfold query in H.
  destruct (call (Launchpad.get_sell_quote id amount) s) as [o s1] eqn:Hcall.
  cbn in H. subst o. apply call_Ok in Hcall.
  unfold Launchpad.get_sell_quote, Launchpad.map_curve in Hcall.
  inv_M Hcall. change BPS_DENOM with 10000 in *.
  eexists. split; [eassumption|]. repeat split; auto.
Qed.

Lemma net_monotone x y bps :
  0 <= x <= y -> 0 <= bps <= 10000 ->
  x * bps / 10000 <= y * bps / 10000 /\
  x - x * bps / 10000 <= y - y * bps / 10000.
Proof.
  intros Hxy Hb. split.
  - apply Z.div_le_mono; nia.
  - assert (y * bps / 10000 <= (x * bps + (y - x) * 10000) / 10000)
      by (apply Z.div_le_mono; nia).
    rewrite Z.div_add in H by lia. lia.
Qed.

(** X21. Quotes grow with the amount.  On a reachable state, of two buy
    quotes for the same curve the one for the larger payment announces at
    least as many tokens and at least as high a fee; of two sell quotes
    the one for the larger number of tokens announces at least as high
    proceeds and at least as high a fee. *)
Theorem quotes_monotone (s : chain) (id a1 a2 : Z) :
  reachable s -> 0 <= a1 -> a1 <= a2 ->
  (forall t1 f1 t2 f2,
     query (Launchpad.get_buy_quote id a1) s = Ok (t1, f1) ->
     query (Launchpad.get_buy_quote id a2) s = Ok (t2, f2) ->
     t1 <= t2 /\ f1 <= f2) /\
  (forall o1 f1 o2 f2,
     query (Launchpad.get_sell_quote id a1) s = Ok (o1, f1) ->
     query (Launchpad.get_sell_quote id a2) s = Ok (o2, f2) ->
     o1 <= o2 /\ f1 <= f2).
Proof.
  intros Hr H0 H12.
  pose proof (reachable_ok s Hr) as (_ & Hok & _).
  pose proof (reachable_fine s Hr) as (_ & Hfine & _).
  split.
  - intros t1 f1 t2 f2 Hq1 Hq2.
    apply get_buy_quote_inv in Hq1 as (c & Hc & -> & -> & Hf1).
    apply get_buy_quote_inv in Hq2 as (c2 & Hc2 & -> & -> & Hf2).
    assert (c2 = c) by congruence. subst c2.
    destruct (Hok id c Hc) as (Hv & Hts & Hk & Hres & Hsold & _).
    destruct (Hfine id c Hc) as ((Hfee & _) & _).
    change MAX_FEE_BPS with 500 in Hfee.
    destruct (net_monotone a1 a2 (fee_bps c)) as [Hfm Hnm]; [lia|lia|].
    split; [|exact Hfm].
    unfold spec_tokens_out, spec_new_token_reserve, spec_new_real_reserve,
      spec_net_in, spec_buy_fee in *.
    assert (k c / (virtual_stx c + (stx_reserve c + (a2 - a2 * fee_bps c / 10000)))
            <= k c / (virtual_stx c + (stx_reserve c + (a1 - a1 * fee_bps c / 10000))));
      [|lia].
    apply Z.div_le_compat_l; [rewrite Hk; nia | lia].
  - intros o1 f1 o2 f2 Hq1 Hq2.
    apply get_sell_quote_inv in Hq1 as (c & Hc & -> & -> & Hnz1 & Hr1).
    apply get_sell_quote_inv in Hq2 as (c2 & Hc2 & -> & -> & Hnz2 & Hr2).
    assert (c2 = c) by congruence. subst c2.
    destruct (Hok id c Hc) as (Hv & Hts & Hk & Hres & Hsold & _).
    destruct (Hfine id c Hc) as ((Hfee & _) & _).
    change MAX_FEE_BPS with 500 in Hfee.
    assert (Hg : 0 <= spec_gross c a1 <= spec_gross c a2).
    { unfold spec_gross, spec_sell_reserve, token_reserve_of in *.
      assert (k c / (total_supply c - tokens_sold c + a2)
              <= k c / (total_supply c - tokens_sold c + a1)); [|lia].
      apply Z.div_le_compat_l; [rewrite Hk; nia | lia]. }
    destruct (net_monotone (spec_gross c a1) (spec_gross c a2) (fee_bps c))
      as [Hfm Hnm]; [lia|lia|].
    unfold spec_amount_out, spec_sell_fee. lia.
Qed.

Lemma quotes_monotone_witness :
  query (Launchpad.get_buy_quote 0 100000000) Scenario.launched
  = Ok (9802950787207, 1000000) /\
  query (Launchpad.get_buy_quote 0 200000000) Scenario.launched
  = Ok (19415571680722, 2000000) /\
  9802950787207 <= 19415571680722 /\ 1000000 <= 2000000.
Proof.
  assert (Hq1 : query (Launchpad.get_buy_quote 0 100000000) Scenario.launched
                = Ok (9802950787207, 1000000)) by (vm_compute; reflexivity).
  assert (Hq2 : query (Launchpad.get_buy_quote 0 200000000) Scenario.launched
                = Ok (19415571680722, 2000000)) by (vm_compute; reflexivity).
  assert (H0 : 0 <= 100000000) by lia.
  assert (H1 : 100000000 <= 200000000) by lia.
  split; [exact Hq1|]. split; [exact Hq2|].
  exact (proj1 (quotes_monotone Scenario.launched 0 100000000 200000000
                  reachable_launched H0 H1) _ _ _ _ Hq1 Hq2).
Defined.

(** ** The registry *)

Lemma launch_errors issuer nm sy s code :
  Launchpad.launch issuer nm sy s = Err code ->
  (code = ERR_NOT_REGISTERED /\ agents s !! issuer = None) \/
  (code = ERR_ALREADY_LAUNCHED /\ is_Some (agent_curve (pad s) !! issuer)) \/
  code = ERR_INVALID_PARAMS.
Proof.
  unfold Launchpad.launch, Launchpad.put_curve, Registry.is_registered.
  intros H. do 5 inv_err H.
  inv_err H.
  { left. split; [reflexivity|]. apply bool_decide_eq_false in H.
    destruct (agents s !! issuer); [destruct H; eauto | reflexivity]. }
  inv_err H. inv_err H.
  { right. left. split; [reflexivity|]. apply bool_decide_eq_false in H.
    destruct (agent_curve (pad s) !! issuer); [eauto | congruence]. }
  do 4 (inv_err H; [auto|]).
  do 8 inv_err H. discriminate H.
Qed.

(** X22. What [register-agent] answers to a name that fits its parameter
    type [(string-utf8 64)], the length counted in characters, provided
    the agent counter fits 128 bits: a caller who is registered gets
    u1000; every other call registers the caller as an active agent with
    no task and no earnings, counts it, and changes nobody else's
    registration.  From then on [launch] no longer refuses the caller with
    u1400.  The length check of the body cannot fail on such a name:
    u1003 is never returned. *)
Theorem register_agent_outcome (s : chain) (who : principal)
    (nm url : string) (price : Z) (stx_ok sip_ok : bool) :
  total_agents s + 1 <= UINT_MAX ->
  Z.of_nat (utf8_len nm) <= Registry.MAX_NAME_LEN ->
  (is_Some (agents s !! who) ->
   call (Registry.register_agent who nm url price stx_ok sip_ok) s
   = (Err Registry.ERR_ALREADY_REGISTERED, s)) /\
  (agents s !! who = None ->
   exists s',
     call (Registry.register_agent who nm url price stx_ok sip_ok) s = (Ok who, s') /\
     query (Registry.is_registered who) s' = Ok true /\
     (exists a, agents s' !! who = Some a /\
        status a = Registry.STATUS_ACTIVE /\ agent_name a = nm /\
        total_tasks a = 0 /\ total_earned a = 0 /\
        registered_at a = stacks_block_height s) /\
     (forall other, other <> who ->
        query (Registry.is_registered other) s'
        = query (Registry.is_registered other) s) /\
     total_agents s' = total_agents s + 1 /\
     pad s' = pad s /\ rtr s' = rtr s /\ stx s' = stx s /\
     (forall n sy code,
        call (Launchpad.launch who n sy) s' = (Err code, s') ->
        code <> ERR_NOT_REGISTERED)) /\
  (forall code s',
     call (Registry.register_agent who nm url price stx_ok sip_ok) s = (Err code, s') ->
     code = Registry.ERR_ALREADY_REGISTERED /\ is_Some (agents s !! who)).
Proof.
  intros Hfit Hshort.
  assert (Hrun : agents s !! who = None ->
            Registry.register_agent who nm url price stx_ok sip_ok s
            = Ok (who,
                  set_agents (fun m => <[who :=
                    {| agent_name := nm; description_url := url;
                       status := Registry.STATUS_ACTIVE;
                       registered_at := stacks_block_height s;
                       total_tasks := 0; total_earned := 0;
                       price_per_task := price;
                       accepts_stx := stx_ok; accepts_sip010 := sip_ok |}]> m)
                    (total_agents s + 1) s)).
  { intros Hnone. unfold Registry.register_agent.
    apply run_gets.
    apply run_asserts; [apply bool_decide_eq_true; exact Hnone|].
    apply run_asserts; [apply Z.leb_le; exact Hshort|].
    apply run_gets. apply run_gets.
    apply run_uadd; [exact Hfit|].
    apply run_modify. reflexivity. }
  assert (Hdup : is_Some (agents s !! who) ->
            call (Registry.register_agent who nm url price stx_ok sip_ok) s
            = (Err Registry.ERR_ALREADY_REGISTERED, s)).
  { intros [a Ha]. apply call_fail. unfold Registry.register_agent.
    apply run_gets. apply run_refused.
    apply bool_decide_eq_false. congruence. }
  split; [exact Hdup|]. split.
  - intros Hnone. eexists.
    split; [|split; [|split; [|split; [|split; [|split; [|split; [|split]]]]]]].
    + apply call_run. apply Hrun. exact Hnone.
    + unfold query, call, Registry.is_registered, gets. cbn.
      rewrite lookup_insert_eq. rewrite bool_decide_eq_true_2 by eauto.
      reflexivity.
    + eexists. split; [cbn; apply lookup_insert_eq|]. cbn. repeat split.
    + intros other Hne.
      unfold query, call, Registry.is_registered, gets. cbn.
      rewrite lookup_insert_ne by auto. reflexivity.
    + reflexivity.
    + reflexivity.
    + reflexivity.
    + reflexivity.
    + intros n sy code H.
      apply call_Err in H as [H _].
      apply launch_errors in H as [[_ Hn]|[[-> _]| ->]]; try discriminate.
      cbn in Hn. rewrite lookup_insert_eq in Hn. discriminate Hn.
  - intros code s' H.
    destruct (agents s !! who) as [a|] eqn:Ha.
    + rewrite Hdup in H by eauto. injection H as <- _. eauto.
    + apply call_Err in H as [H _]. rewrite Hrun in H by reflexivity.
      discriminate H.
Qed.

Lemma register_agent_outcome_witness :
  String.length Scenario.accented_name = 66%nat /\
  utf8_len Scenario.accented_name = 33%nat /\
  exists s',
    call (Registry.register_agent Scenario.wallet_1 Scenario.accented_name
            "https://example.com/agent" 1000000 true false) Scenario.fresh
    = (Ok Scenario.wallet_1, s') /\
    query (Registry.is_registered Scenario.wallet_1) s' = Ok true.
Proof.
  split; [vm_compute; reflexivity|]. split; [vm_compute; reflexivity|].
  assert (H0 : total_agents Scenario.fresh + 1 <= UINT_MAX)
    by (vm_compute; discriminate).
  assert (H1 : Z.of_nat (utf8_len Scenario.accented_name) <= Registry.MAX_NAME_LEN)
    by (vm_compute; discriminate).
  assert (H2 : agents Scenario.fresh !! Scenario.wallet_1 = None) by reflexivity.
  destruct (register_agent_outcome Scenario.fresh Scenario.wallet_1
              Scenario.accented_name "https://example.com/agent" 1000000
              true false H0 H1) as (_ & H & _).
  destruct (H H2) as (s' & Hc & Hq & _).
  exists s'. split; [exact Hc | exact Hq].
Defined.

(** ** Identifiers and statistics of the launchpad *)

(** X23. Curve identifiers are issued without gaps: on a reachable state
    the curves are exactly those with an identifier below the
    [total-curves] of [get-stats], and the defaults [get-stats] shows are
    within the bounds of [set-defaults]: positive supply, virtual reserve
    and threshold, a fee of at most 500 basis points and a creator share
    of at most 10000. *)
Theorem curve_ids_dense (s : chain) :
  reachable s ->
  exists st, query Launchpad.get_stats s = Ok st /\
    (forall id, is_Some (curves (pad s) !! id)
                <-> 0 <= id < Launchpad.st_total_curves st) /\
    0 < Launchpad.st_default_total_supply st /\
    0 < Launchpad.st_default_virtual_stx st /\
    0 < Launchpad.st_default_graduation_stx st /\
    0 <= Launchpad.st_default_fee_bps st <= MAX_FEE_BPS /\
    0 <= Launchpad.st_default_creator_share_bps st <= MAX_CREATOR_SHARE_BPS.
Proof.
  intros Hr.
  destruct (reachable_fine s Hr)
    as ((Hfee & Hsh & Hg & Hts & Hvs & Htot) & H2 & _ & _ & H5).
  destruct (reachable_ok s Hr) as (H1 & _).
  eexists. split; [reflexivity|]. cbn.
  split; [|tauto].
  intros id. split.
  - intros [c Hc]. destruct (H2 id c Hc) as (_ & Hid & _).
    split; [exact Hid|].
    destruct (Z.lt_ge_cases id (total_curves (pad s))) as [Hlt|Hge]; [exact Hlt|].
    rewrite (H1 id Hge) in Hc. discriminate Hc.
  - apply H5.
Qed.

Lemma curve_ids_dense_witness :
  is_Some (curves (pad Scenario.launched) !! 0) /\
  ~ is_Some (curves (pad Scenario.launched) !! 1).
Proof.
  destruct (curve_ids_dense Scenario.launched reachable_launched)
    as (st & Hq & Hids & _).
  assert (Hst : Launchpad.st_total_curves st = 1).
  { vm_compute in Hq. injection Hq as <-. reflexivity. }
  split.
  - apply Hids. rewrite Hst. lia.
  - intros H. apply Hids in H. rewrite Hst in H. lia.
Defined.

Lemma get_sell_quote_run id c amount s :
  curves (pad s) !! id = Some c ->
  tokens_sold c <= total_supply c ->
  token_reserve_of c + amount <= UINT_MAX ->
  token_reserve_of c + amount <> 0 ->
  virtual_stx c <= k c / (token_reserve_of c + amount) ->
  spec_sell_reserve c amount <= stx_reserve c ->
  spec_gross c amount * fee_bps c <= UINT_MAX ->
  spec_sell_fee c amount <= spec_gross c amount ->
  Launchpad.get_sell_quote id amount s
  = Ok ((spec_amount_out c amount, spec_sell_fee c amount), s).
Proof.
  intros Hc Hsold Hadd Hnz Hlow Hres Hmul Hfee.
  unfold spec_amount_out, spec_sell_fee, spec_gross, spec_sell_reserve,
    token_reserve_of in *.
  unfold Launchpad.get_sell_quote, Launchpad.map_curve.
  change BPS_DENOM with 10000.
  apply run_gets. eapply run_unwrap; [exact Hc|].
  apply run_usub; [lia|]. apply run_uadd; [lia|].
  apply run_udiv; [lia|]. apply run_usub; [lia|]. apply run_usub; [lia|].
  apply run_umul; [lia|]. apply run_udiv; [discriminate|].
  apply run_usub; [lia|]. reflexivity.
Qed.

(** X24. Nothing stays locked in a reserve.  On a reachable state the
    quote for selling all the tokens ever sold of a curve is the whole
    reserve: the proceeds and the fee add up to [stx-reserve].  A curve of
    which no token is held has an empty reserve. *)
Theorem full_exit_drains_reserve (s : chain) (id : Z) (c : curve) :
  reachable s -> curves (pad s) !! id = Some c ->
  (tokens_sold c = 0 -> stx_reserve c = 0) /\
  (0 < tokens_sold c -> stx_reserve c * fee_bps c <= UINT_MAX ->
   exists out f,
     query (Launchpad.get_sell_quote id (tokens_sold c)) s = Ok (out, f) /\
     out + f = stx_reserve c /\ f = stx_reserve c * fee_bps c / 10000).
Proof.
  intros Hr Hc.
  pose proof (reachable_ok s Hr) as (_ & Hok & _).
  pose proof (reachable_fine s Hr) as (_ & Hfine & _).
  destruct (Hok id c Hc) as (Hv & Hts & Hk & Hres & Hsold & Hprod & _).
  destruct (Hfine id c Hc) as ((Hfee & _ & _ & _ & Hkmax & _) & _).
  change MAX_FEE_BPS with 500 in Hfee.
  split.
  - intros H0. unfold token_reserve_of in Hprod. rewrite H0, Hk in Hprod. nia.
  - intros Hpos Hmul.
    assert (Hall : token_reserve_of c + tokens_sold c = total_supply c)
      by (unfold token_reserve_of; lia).
    assert (Hq : k c / total_supply c = virtual_stx c)
      by (rewrite Hk; apply Z.div_mul; lia).
    assert (Hsr : spec_sell_reserve c (tokens_sold c) = 0)
      by (unfold spec_sell_reserve; rewrite Hall, Hq; lia).
    assert (Hgr : spec_gross c (tokens_sold c) = stx_reserve c)
      by (unfold spec_gross; rewrite Hsr; lia).
    assert (Hf : 0 <= spec_sell_fee c (tokens_sold c) <= stx_reserve c).
    { unfold spec_sell_fee. rewrite Hgr. apply bps_share_le; lia. }
    exists (spec_amount_out c (tokens_sold c)), (spec_sell_fee c (tokens_sold c)).
    split; [|split].
    + assert (Ha : token_reserve_of c + tokens_sold c <= UINT_MAX).
      { rewrite Hall. assert (total_supply c <= k c) by (rewrite Hk; nia). lia. }
      assert (Hb : token_reserve_of c + tokens_sold c <> 0) by lia.
      assert (Hl : virtual_stx c <= k c / (token_reserve_of c + tokens_sold c))
        by (rewrite Hall, Hq; lia).
      assert (Hd : spec_sell_reserve c (tokens_sold c) <= stx_reserve c) by lia.
      assert (He : spec_gross c (tokens_sold c) * fee_bps c <= UINT_MAX)
        by (rewrite Hgr; exact Hmul).
      assert (Hg : spec_sell_fee c (tokens_sold c) <= spec_gross c (tokens_sold c))
        by (rewrite Hgr; lia).
      unfold query, call.
      rewrite (get_sell_quote_run id c (tokens_sold c) s Hc (proj2 Hsold)
                 Ha Hb Hl Hd He Hg).
      reflexivity.
    + unfold spec_amount_out. rewrite Hgr. lia.
    + unfold spec_sell_fee. rewrite Hgr. reflexivity.
Qed.

Lemma full_exit_drains_reserve_witness :
  exists out f,
    query (Launchpad.get_sell_quote 0 9802950787207) Scenario.bought = Ok (out, f) /\
    out + f = 99000000.
Proof.
  pose (c := bought_curve
               (launched_curve Scenario.wallet_1 "TestToken" "TST"
                  Scenario.registered) 100000000).
  assert (Hc : curves (pad Scenario.bought) !! 0 = Some c)
    by (vm_compute; reflexivity).
  assert (H1 : 0 < tokens_sold c) by (vm_compute; reflexivity).
  assert (H2 : stx_reserve c * fee_bps c <= UINT_MAX) by (vm_compute; discriminate).
  destruct (full_exit_drains_reserve Scenario.bought 0 c reachable_bought Hc)
    as [_ H].
  destruct (H H1 H2) as (out & f & Hq & Hsum & _).
  exists out, f. split; [exact Hq | exact Hsum].
Defined.

(** ** The protocol fee recipient *)

Lemma ledger_move_other sender recipient amount (l : gmap principal Z)
    (x : principal) :
  x <> sender -> x <> recipient ->
  ledger_move sender recipient amount l !! x = l !! x.
Proof.
  intros H1 H2. unfold ledger_move.
  rewrite !lookup_insert_ne by auto. reflexivity.
Qed.

Lemma payout_other amount recipient (l : gmap principal Z) (x : principal) :
  x <> LAUNCHPAD -> x <> recipient ->
  payout amount recipient l !! x = l !! x.
Proof.
  intros H1 H2. unfold payout. destruct (0 <? amount); [|reflexivity].
  apply ledger_move_other; auto.
Qed.

Lemma payout_recipient amount recipient (l : gmap principal Z) :
  0 <= amount ->
  default 0 (payout amount recipient l !! recipient)
  = default 0 (l !! recipient) + amount.
Proof.
  intros Ha. unfold payout. destruct (Z.ltb_spec 0 amount).
  - rewrite ledger_move_recipient. reflexivity.
  - lia.
Qed.

(** X25. The protocol share of a graduation goes to the recipient set
    last.  [set-protocol-fee-recipient] by the admin succeeds and changes
    nothing but the recipient, which [get-protocol-fee-recipient] then
    returns; when a later buy takes a curve to its threshold, the new
    recipient receives the protocol share of the fee pool, the fee of the
    triggering buy included. *)
Theorem fee_recipient_paid (s : chain) (r : principal) :
  reachable s ->
  exists s',
    call (Launchpad.set_protocol_fee_recipient (admin (pad s)) r) s = (Ok r, s') /\
    query Launchpad.get_protocol_fee_recipient s' = Ok r /\
    curves (pad s') = curves (pad s) /\ balances (pad s') = balances (pad s) /\
    stx s' = stx s /\
    forall buyer id amount min_out t f s'' c,
      call (Launchpad.buy buyer id amount min_out) s' = (Ok (t, f), s'') ->
      curves (pad s) !! id = Some c ->
      graduation_stx c <= spec_new_real_reserve c amount ->
      r <> buyer -> r <> LAUNCHPAD -> r <> creator c ->
      0 <= spec_protocol_share (bought_curve c amount) /\
      stx_balance s'' r
      = stx_balance s r + spec_protocol_share (bought_curve c amount).
Proof.
  intros Hr.
  exists (set_pad (set_fee_recipient r) s).
  split; [|split; [|split; [|split; [|split]]]]; try reflexivity.
  - apply call_run. unfold Launchpad.set_protocol_fee_recipient.
    apply run_gets. apply run_asserts; [apply String.eqb_refl|].
    apply run_modify. reflexivity.
  - intros buyer id amount min_out t f s'' c H Hc Hthr Hb Hl Hcr.
    apply call_Ok in H.
    apply buy_effect in H
      as (c' & Hc' & Hg & Hpos & _ & _ & Hfee & _ & _ & _ & _ & _ & _ & Hs'').
    cbn in Hc'. assert (c' = c) by congruence. subst c'.
    destruct Hs'' as [[Hlt _]|[_ ->]]; [lia|].
    destruct (reachable_fine s Hr) as (_ & H2 & _).
    destruct (H2 id c Hc) as ((Hbps & Hsh & _ & Hacc & _) & _).
    change MAX_CREATOR_SHARE_BPS with 10000 in Hsh.
    assert (Hf0 : 0 <= spec_buy_fee c amount)
      by (apply Z.div_pos; [nia|lia]).
    assert (Hshare : 0 <= spec_issuer_share (bought_curve c amount)
                     <= accrued_fees (bought_curve c amount)).
    { apply bps_share_le; cbn; lia. }
    assert (Hps : 0 <= spec_protocol_share (bought_curve c amount))
      by (unfold spec_protocol_share; lia).
    split; [exact Hps|].
    unfold stx_balance, graduated_state. cbn -[LAUNCHPAD payout ledger_move].
    rewrite payout_recipient by exact Hps.
    rewrite payout_other by auto.
    rewrite ledger_move_other by auto. reflexivity.
Qed.

Lemma fee_recipient_paid_witness :
  exists s',
    call (Launchpad.set_protocol_fee_recipient Scenario.deployer Scenario.wallet_3)
      Scenario.launched_A = (Ok Scenario.wallet_3, s') /\
    query Launchpad.get_protocol_fee_recipient s' = Ok Scenario.wallet_3.
Proof.
  destruct (fee_recipient_paid Scenario.launched_A Scenario.wallet_3
              reachable_launched_A) as (s' & H1 & H2 & _).
  exists s'. split; [exact H1 | exact H2].
Defined.
